(** * HokiePlate: the VT dining scraper and the AI food digest

    A shallow embedding of [scraper1.py] (class [VTDiningScraper]) and of
    [format_foods_for_ai] from [app1.py].

    Conventions of the embedding.
    - A Python [str] is a [string]; every [ascii] stands for one code point
      in the range 0..255 (Latin-1).  [lower], [strip], [\s] and [\d] are
      written out for that range.
    - A Python [int] is a [Z].  A [float] is written as the decimal literal
      that denotes it ([dec]): the binary64 number nearest to that decimal,
      ties to even, with its subnormal numbers, and an infinity when the
      decimal is too large for binary64.  [int] and [round] work on that
      binary64 number.
    - The network, the clock, [time.sleep] and the file system are a [World]
      threaded through a state-and-exception monad.
    - A BeautifulSoup document is the flattened sequence of its tags in
      document order together with its text nodes. *)

From Stdlib Require Import String Ascii List ZArith Bool Lia Arith.
Import ListNotations.
Local Open Scope string_scope.
Local Open Scope list_scope.
Local Open Scope nat_scope.

(** ** Python string primitives *)

Module PyStr.

Definition code (c : ascii) : nat := nat_of_ascii c.

Definition between (lo hi n : nat) : bool := (lo <=? n) && (n <=? hi).

(** [str.lower] on one code point below 256. *)
Definition lower_char (c : ascii) : ascii :=
  let n := code c in
  if between 65 90 n || (between 192 222 n && negb (n =? 215))
  then ascii_of_nat (n + 32) else c.

Fixpoint lower (s : string) : string :=
  match s with
  | EmptyString => EmptyString
  | String c s' => String (lower_char c) (lower s')
  end.

(** [str.isspace] on one code point below 256. *)
Definition isspace (c : ascii) : bool :=
  let n := code c in
  between 9 13 n || between 28 32 n || (n =? 133) || (n =? 160).

Fixpoint lstrip (s : string) : string :=
  match s with
  | EmptyString => EmptyString
  | String c s' => if isspace c then lstrip s' else s
  end.

Fixpoint rstrip (s : string) : string :=
  match s with
  | EmptyString => EmptyString
  | String c s' =>
      match rstrip s' with
      | EmptyString => if isspace c then EmptyString else String c EmptyString
      | r => String c r
      end
  end.

Definition strip (s : string) : string := rstrip (lstrip s).

Definition startswith (p s : string) : bool := String.prefix p s.

(** [sub in s]. *)
Fixpoint contains (sub s : string) : bool :=
  match s with
  | EmptyString => String.prefix sub EmptyString
  | String _ s' => String.prefix sub s || contains sub s'
  end.

(** [s.split(sep)] for a non-empty separator: [skip] counts the characters
    of a separator occurrence still to be passed over, [cur] is the field
    being read. *)
Fixpoint split_from (sep : string) (skip : nat) (cur s : string) : list string :=
  match s with
  | EmptyString => [cur]
  | String c s' =>
      match skip with
      | S k => split_from sep k cur s'
      | O =>
          if String.prefix sep s
          then cur :: split_from sep (String.length sep - 1) EmptyString s'
          else split_from sep 0 (cur ++ String c EmptyString) s'
      end
  end.

Definition split (sep s : string) : list string := split_from sep 0 EmptyString s.

Definition truthy (s : string) : bool :=
  match s with EmptyString => false | _ => true end.

Definition eqb_in (x : string) (l : list string) : bool :=
  existsb (String.eqb x) l.

(** [list(set(l))]: duplicates removed; the order Python gives is
    unspecified, the first occurrence is kept here. *)
Fixpoint dedup (l : list string) : list string :=
  match l with
  | [] => []
  | x :: l' => if eqb_in x l' then dedup l' else x :: dedup l'
  end.

End PyStr.

(** ** Menu extraction: the recipe identifier *)

(** [VTDiningScraper.extract_meal_period]'s [meal_period_map]. *)
Definition meal_period_map : list (string * string) :=
  [ ("breakfast", "breakfast");
    ("lunch", "lunch");
    ("dinner", "dinner");
    ("brunch", "brunch");
    ("late night", "late_night") ].

(** [d.get(k, default)] on a dict with string keys. *)
Fixpoint dict_get {A} (d : list (string * A)) (k : string) (default : A) : A :=
  match d with
  | [] => default
  | (k', v) :: d' => if String.eqb k k' then v else dict_get d' k default
  end.

(** [VTDiningScraper.extract_meal_period]. *)
Definition extract_meal_period (recipe_text : string) : option string :=
  if PyStr.contains "*" recipe_text then
    let parts := PyStr.split "*" recipe_text in
    if 4 <=? List.length parts then
      let meal_period := PyStr.strip (PyStr.lower (List.last parts "")) in
      Some (dict_get meal_period_map meal_period meal_period)
    else None
  else None.

(** ** Regular expressions ([re.search]) *)

Module Regex.
Import PyStr.

(** Character classes of the patterns: [\d], [\s], [[...]] and [[^...]]. *)
Inductive cclass : Type :=
| CDigit
| CSpace
| COneOf (cs : list ascii)
| CNoneOf (cs : list ascii).

(** The fragment of Python's pattern syntax the program uses.  [RGroup] is
    the capturing group [(...)]; [(?:...)] is plain nesting.  [*] and [+]
    are only ever applied to a character class. *)
Inductive re : Type :=
| REps
| RChar (c : ascii)
| RClass (k : cclass)
| RSeq (r1 r2 : re)
| RAlt (r1 r2 : re)
| ROpt (r : re)
| RStar (k : cclass)
| RPlus (k : cclass)
| RGroup (r : re).

Definition isdigit (c : ascii) : bool := between 48 57 (code c).

(** Literal comparison; [ic] is [re.IGNORECASE]. *)
Definition chr_eqb (ic : bool) (a b : ascii) : bool :=
  if ic then Ascii.eqb (lower_char a) (lower_char b) else Ascii.eqb a b.

Definition in_class (ic : bool) (k : cclass) (x : ascii) : bool :=
  match k with
  | CDigit => isdigit x
  | CSpace => isspace x
  | COneOf cs => existsb (chr_eqb ic x) cs
  | CNoneOf cs => negb (existsb (chr_eqb ic x) cs)
  end.

(** One way of matching at the head of the input: the text consumed, the
    text left, and what group 1 captured (if it took part). *)
Definition way : Type := string * string * option string.

(** Greedy repetition of a class: the longest run first, then each shorter
    one, down to the empty run. *)
Fixpoint star_runs (p : ascii -> bool) (s : string) : list (string * string) :=
  match s with
  | EmptyString => [(EmptyString, EmptyString)]
  | String c s' =>
      if p c
      then map (fun ab => (String c (fst ab), snd ab)) (star_runs p s') ++ [(EmptyString, s)]
      else [(EmptyString, s)]
  end.

Definition plus_runs (p : ascii -> bool) (s : string) : list (string * string) :=
  match s with
  | EmptyString => []
  | String c s' =>
      if p c then map (fun ab => (String c (fst ab), snd ab)) (star_runs p s') else []
  end.

Definition no_group (ab : string * string) : way := (fst ab, snd ab, None).

(** All ways of matching [r] at the head of [s], in the order a
    backtracking matcher tries them. *)
Fixpoint run (ic : bool) (r : re) (s : string) : list way :=
  match r with
  | REps => [(EmptyString, s, None)]
  | RChar c =>
      match s with
      | String x s' =>
          if chr_eqb ic c x then [(String x EmptyString, s', None)] else []
      | EmptyString => []
      end
  | RClass k =>
      match s with
      | String x s' =>
          if in_class ic k x then [(String x EmptyString, s', None)] else []
      | EmptyString => []
      end
  | RSeq r1 r2 =>
      flat_map
        (fun w1 : way =>
           let '(c1, rest1, g1) := w1 in
           map (fun w2 : way =>
                  let '(c2, rest2, g2) := w2 in
                  ((c1 ++ c2)%string, rest2, match g1 with Some _ => g1 | None => g2 end))
               (run ic r2 rest1))
        (run ic r1 s)
  | RAlt r1 r2 => run ic r1 s ++ run ic r2 s
  | ROpt r1 => run ic r1 s ++ [(EmptyString, s, None)]
  | RStar k => map no_group (star_runs (in_class ic k) s)
  | RPlus k => map no_group (plus_runs (in_class ic k) s)
  | RGroup r1 =>
      map (fun w : way => let '(c, rest, _) := w in (c, rest, Some c)) (run ic r1 s)
  end.

(** A match object: [group(0)] and [group(1)]. *)
Record Match : Type := { group0 : string; group1 : option string }.

(** [re.search]: the leftmost position with a match, and there the first
    way the matcher finds. *)
Fixpoint search (ic : bool) (r : re) (s : string) : option Match :=
  match run ic r s with
  | (c, _, g) :: _ => Some {| group0 := c; group1 := g |}
  | [] =>
      match s with
      | EmptyString => None
      | String _ s' => search ic r s'
      end
  end.

Fixpoint lit (s : string) : re :=
  match s with
  | EmptyString => REps
  | String c EmptyString => RChar c
  | String c s' => RSeq (RChar c) (lit s')
  end.

Fixpoint seqs (l : list re) : re :=
  match l with
  | [] => REps
  | [r] => r
  | r :: l' => RSeq r (seqs l')
  end.

End Regex.

(** ** Numbers *)

(** The decimal [mant / 10^scale]. *)
Record dec : Type := Dec { mant : Z; scale : nat }.

Module PyNum.

Definition digit_val (c : ascii) : Z := Z.of_nat (PyStr.code c) - 48.

(** The value of a string of decimal digits read after [acc]. *)
Fixpoint digits_val (acc : Z) (s : string) : option Z :=
  match s with
  | EmptyString => Some acc
  | String c s' =>
      if Regex.isdigit c then digits_val (acc * 10 + digit_val c)%Z s' else None
  end.

(** The whitespace that [int] and [float] ignore around a number: that of
    [str.isspace] without the separators 28 to 31. *)
Definition isspace_num (c : ascii) : bool :=
  let n := PyStr.code c in
  PyStr.between 9 13 n || (n =? 32) || (n =? 133) || (n =? 160).

Fixpoint lstrip_num (s : string) : string :=
  match s with
  | EmptyString => EmptyString
  | String c s' => if isspace_num c then lstrip_num s' else s
  end.

Fixpoint rstrip_num (s : string) : string :=
  match s with
  | EmptyString => EmptyString
  | String c s' =>
      match rstrip_num s' with
      | EmptyString => if isspace_num c then EmptyString else String c EmptyString
      | r => String c r
      end
  end.

Definition strip_num (s : string) : string := rstrip_num (lstrip_num s).

(** Decimal digits with single underscores between them, read after [acc];
    [count] is the number of digits read so far. *)
Fixpoint grouped_digits_val (acc : Z) (count : nat) (s : string) : option (Z * nat) :=
  match s with
  | EmptyString => Some (acc, count)
  | String c s' =>
      if Regex.isdigit c
      then grouped_digits_val (acc * 10 + digit_val c)%Z (S count) s'
      else if Ascii.eqb c "_"%char && (0 <? count)
           then match s' with
                | String d _ =>
                    if Regex.isdigit d then grouped_digits_val acc count s' else None
                | EmptyString => None
                end
           else None
  end.

(** A number of at least one and at most 4300 digits, the limit that CPython
    puts on the conversion of a string to an [int] by default. *)
Definition int_of_digits (s : string) : option Z :=
  match grouped_digits_val 0 0 s with
  | Some (z, count) => if (1 <=? count) && (count <=? 4300) then Some z else None
  | None => None
  end.

(** [int(s)] for a string: an optional sign followed by decimal digits,
    which single underscores may group, surrounding whitespace ignored;
    [None] is [ValueError]. *)
Definition int_of_str (s : string) : option Z :=
  match strip_num s with
  | String "-" s' => option_map Z.opp (int_of_digits s')
  | String "+" s' => int_of_digits s'
  | t => int_of_digits t
  end.

(** The digits before the first ["."] and the text after it, if any. *)
Fixpoint cut_dot (s : string) : string * option string :=
  match s with
  | EmptyString => (EmptyString, None)
  | String c s' =>
      if Ascii.eqb c "."%char then (EmptyString, Some s')
      else let '(a, b) := cut_dot s' in (String c a, b)
  end.

(** [float(s)] for a literal [digits], [digits.] or [digits.digits] without
    sign, the only forms the patterns capture; [None] is [ValueError]. *)
Definition float_of_str (s : string) : option dec :=
  match cut_dot s with
  | (EmptyString, _) => None
  | (ip, None) => option_map (fun m => Dec m 0) (digits_val 0 ip)
  | (ip, Some fp) =>
      match digits_val 0 ip with
      | Some i =>
          option_map (fun m => Dec m (String.length fp)) (digits_val i fp)
      | None => None
      end
  end.

(** [float(s)] for such a literal with an optional sign and surrounding
    whitespace, as read from the environment.  (The other forms that [float]
    reads are taken as errors: exponents, [inf] and [nan], a number that
    begins with its point, underscores between digits.) *)
Definition float_of_signed (s : string) : option dec :=
  let t := strip_num s in
  match t with
  | String "-" s' =>
      option_map (fun d => Dec (- mant d) (scale d)) (float_of_str s')
  | String "+" s' => float_of_str s'
  | _ => float_of_str t
  end.

(** [n/d] rounded to the nearest integer, ties to even ([d > 0]). *)
Definition round_half_even (n d : Z) : Z :=
  let q := (n / d)%Z in
  let r := (n mod d)%Z in
  if (2 * r <? d)%Z then q
  else if (d <? 2 * r)%Z then (q + 1)%Z
  else if Z.even q then q else (q + 1)%Z.

(** The fraction [(n/d) / 2^e]. *)
Definition scale2 (n d e : Z) : Z * Z :=
  if (0 <=? e)%Z then (n, d * 2 ^ e)%Z else (n * 2 ^ (- e), d)%Z.

(** The binary64 number nearest to [n/d] for positive [n] and [d], as a
    fraction: a significand [m] of at most 53 bits times [2^e], ties to
    even.  The exponent [e] does not go below [-1074], where the subnormal
    numbers lie; its upper end is the business of [is_inf]. *)
Definition nearest_double_pos (n d : Z) : Z * Z :=
  let e0 := (Z.log2 n - Z.log2 d - 53)%Z in
  let '(n0, d0) := scale2 n d e0 in
  let e := Z.max (if (n0 <? 2 ^ 53 * d0)%Z then e0 else (e0 + 1)%Z) (- 1074) in
  let '(n1, d1) := scale2 n d e in
  let m := round_half_even n1 d1 in
  if (0 <=? e)%Z then (m * 2 ^ e, 1)%Z else (m, 2 ^ (- e))%Z.

(** Whether the float that the decimal [x] denotes is an infinity: rounding
    to nearest overflows from [2^1024 - 2^970] on, halfway between the
    largest binary64 number and [2^1024]. *)
Definition is_inf (x : dec) : bool :=
  ((2 ^ 1024 - 2 ^ 970) * 10 ^ Z.of_nat (scale x) <=? Z.abs (mant x))%Z.

(** The exact value of the float that the decimal [x] denotes, when it is
    finite. *)
Definition nearest_double (x : dec) : Z * Z :=
  let d := (10 ^ Z.of_nat (scale x))%Z in
  if (mant x =? 0)%Z then (0, 1)%Z
  else if (mant x <? 0)%Z
       then let '(N, D) := nearest_double_pos (- mant x) d in ((- N)%Z, D)
       else nearest_double_pos (mant x) d.

(** [int(x)]: truncation toward zero; [None] is the [OverflowError] that
    [int] raises on an infinity. *)
Definition py_int (x : dec) : option Z :=
  if is_inf x then None
  else let '(N, D) := nearest_double x in Some (Z.quot N D).

(** [round(x, 1)]: the tenth nearest to the float, ties to the even tenth;
    an infinity is returned as it is. *)
Definition py_round1 (x : dec) : dec :=
  if is_inf x then x
  else let '(N, D) := nearest_double x in Dec (round_half_even (10 * N) D) 1.

End PyNum.

(** ** Dictionaries *)

(** [k in d] / [d.get(k)]. *)
Fixpoint dict_find {A} (d : list (string * A)) (k : string) : option A :=
  match d with
  | [] => None
  | (k', v) :: d' => if String.eqb k k' then Some v else dict_find d' k
  end.

(** [d[k] = v]: an existing key keeps its place, a new key goes last. *)
Fixpoint dict_set {A} (d : list (string * A)) (k : string) (v : A) : list (string * A) :=
  match d with
  | [] => [(k, v)]
  | (k', v') :: d' =>
      if String.eqb k k' then (k', v) :: d' else (k', v') :: dict_set d' k v
  end.

(** [d[k].append(x)], creating [d[k] = []] first when [k] is new; a Python
    dict keeps its keys in the order of first insertion. *)
Fixpoint dict_append {A} (d : list (string * list A)) (k : string) (x : A)
  : list (string * list A) :=
  match d with
  | [] => [(k, [x])]
  | (k', l) :: d' =>
      if String.eqb k k' then (k', l ++ [x]) :: d' else (k', l) :: dict_append d' k x
  end.

(** [l[:n]]: a negative bound counts from the end. *)
Definition slice_to {A} (l : list A) (n : Z) : list A :=
  if (n <? 0)%Z
  then firstn (Z.to_nat (Z.of_nat (List.length l) + n)) l
  else firstn (Z.to_nat n) l.

(** ** Documents (the BeautifulSoup view) *)

Record Tag : Type := {
  tag_name : string;
  tag_attrs : list (string * string);   (* single-valued attributes *)
  tag_class : list string;              (* the multi-valued [class] attribute *)
  tag_strings : list string             (* the text nodes below the tag *)
}.

Record Soup : Type := {
  soup_tags : list Tag;                 (* every tag, in document order *)
  soup_strings : list string            (* every text node, in document order *)
}.

(** [tag.get_text()]. *)
Definition get_text (strings : list string) : string := String.concat "" strings.

(** [tag.get_text(strip=True)]: each text node stripped, empty ones left out. *)
Definition get_text_strip (strings : list string) : string :=
  String.concat "" (filter PyStr.truthy (map PyStr.strip strings)).

(** Each tag with the tags that follow it in document order, which is what
    repeated [find_next()] walks through. *)
Fixpoint with_following (tags : list Tag) : list (Tag * list Tag) :=
  match tags with
  | [] => []
  | t :: rest => (t, rest) :: with_following rest
  end.

Definition href_matches (pattern : Regex.re) (t : Tag) : bool :=
  match dict_find (tag_attrs t) "href" with
  | Some h => match Regex.search false pattern h with Some _ => true | None => false end
  | None => false
  end.

(** [soup.find_all('a', href=pattern)], each anchor with what follows it. *)
Definition find_all_a (pattern : Regex.re) (soup : Soup) : list (Tag * list Tag) :=
  filter (fun tf => String.eqb (tag_name (fst tf)) "a" && href_matches pattern (fst tf))
         (with_following (soup_tags soup)).

(** [soup.find('div', class_=re.compile(r'allergen', re.I))]. *)
Definition find_allergen_div (soup : Soup) : option Tag :=
  List.find
    (fun t =>
       String.eqb (tag_name t) "div" &&
       existsb (fun c => match Regex.search true (Regex.lit "allergen") c with
                         | Some _ => true | None => false end)
               (tag_class t))
    (soup_tags soup).

(** ** Records of the snapshot *)

(** The dictionary returned by [get_nutrition_from_item_page]; a key that is
    not set is [None]. *)
Record Nutrition : Type := {
  n_calories : option Z;
  n_protein : option dec;
  n_carbs : option dec;
  n_fat : option dec;
  n_fiber : option dec;
  n_sodium : option dec;
  n_sugars : option dec;
  n_allergens : option (list string);
  n_dietary_tags : option (list string);
  n_serving_size : option string
}.

(** The empty dictionary [{}]. *)
Definition no_nutrition : Nutrition :=
  {| n_calories := None; n_protein := None; n_carbs := None; n_fat := None;
     n_fiber := None; n_sodium := None; n_sugars := None;
     n_allergens := None; n_dietary_tags := None; n_serving_size := None |}.

Record Hall : Type := {
  hall_name : string;
  hall_location_num : string;
  hall_url : string
}.

Record FoodItem : Type := {
  item_name : string;
  item_url : string;
  item_recipe_id : string;
  item_nutrition : option Nutrition
}.

Record MealPeriodData : Type := {
  mp_items : list FoodItem;
  mp_total_available : Z;
  mp_scraped_count : Z
}.

Record HallData : Type := {
  hd_name : string;
  hd_location_num : string;
  hd_url : string;
  hd_meal_periods : list (string * MealPeriodData);
  hd_scrape_status : string;
  hd_items_scraped : option Z;
  hd_error : option string
}.

Record Summary : Type := {
  total_halls : Z;
  successful_halls : Z;
  failed_halls : Z;
  total_items_scraped : Z;
  scrape_duration : Z
}.

Record Snapshot : Type := {
  last_updated : Z;
  dining_halls : list HallData;
  config_max_items_per_meal : Z;
  config_request_delay : dec;
  scrape_summary : option Summary
}.

(** ** Exceptions, the world, and the monad *)

Inductive exn_class : Type :=
| RequestException      (* connection errors, timeouts *)
| HTTPError             (* raised by [raise_for_status] *)
| ValueError
| TypeError
| IndexError
| OverflowError
| OSError.

Record exn : Type := { exn_cls : exn_class; exn_msg : string }.

(** [except requests.exceptions.RequestException]. *)
Definition is_request_exception (e : exn) : bool :=
  match exn_cls e with
  | RequestException | HTTPError => true
  | _ => false
  end.

(** [except (ValueError, IndexError)]. *)
Definition is_value_or_index_error (e : exn) : bool :=
  match exn_cls e with
  | ValueError | IndexError => true
  | _ => false
  end.

(** [except Exception]. *)
Definition is_exception (e : exn) : bool := true.

Inductive result (A : Type) : Type :=
| Ok (a : A)
| Raise (e : exn).
Arguments Ok {A} a.
Arguments Raise {A} e.

Record Response : Type := { status_code : Z; content : Soup }.

(** What [session.get(url, timeout=30)] does: it gives a response or raises
    a [RequestException]. *)
Inductive get_outcome : Type :=
| GetResponse (r : Response)
| GetRaises (msg : string).

Record World : Type := {
  web : nat -> string -> get_outcome;   (* outcome of the n-th GET, by URL *)
  requested : list string;              (* URLs requested so far, oldest first *)
  slept : list dec;                     (* arguments of [time.sleep], oldest first *)
  clock : nat -> Z;                     (* the n-th reading of [datetime.now()] *)
  clock_reads : nat;
  disk_writable : bool;                 (* whether [open(..., 'w')] succeeds *)
  disk : option Snapshot                (* the content of vt_dining_data.json *)
}.

(** Computations over a state [S] that may raise. *)
Definition M (S A : Type) : Type := S -> result A * S.

Definition ret {S A} (a : A) : M S A := fun s => (Ok a, s).

Definition bind {S A B} (m : M S A) (f : A -> M S B) : M S B :=
  fun s =>
    match m s with
    | (Ok a, s') => f a s'
    | (Raise e, s') => (Raise e, s')
    end.

Definition raise {S A} (e : exn) : M S A := fun s => (Raise e, s).

(** [try: body / except <classes> as e: handler e]. *)
Definition try_except {S A} (body : M S A) (classes : exn -> bool)
           (handler : exn -> M S A) : M S A :=
  fun s =>
    match body s with
    | (Ok a, s') => (Ok a, s')
    | (Raise e, s') => if classes e then handler e s' else (Raise e, s')
    end.

Definition lift_result {S A} (r : result A) : M S A := fun s => (r, s).

Declare Scope monad_scope.
Delimit Scope monad_scope with monad.
Notation "x <- c ;; k" := (bind c (fun x => k))
  (at level 61, c at next level, right associativity) : monad_scope.
Notation "c ;;; k" := (bind c (fun _ => k))
  (at level 61, right associativity) : monad_scope.
Local Open Scope monad_scope.

(** The world part of a state that also holds local variables. *)
Definition in_world {L A} (m : M World A) : M (World * L) A :=
  fun s =>
    let '(w, l) := s in
    let '(r, w') := m w in (r, (w', l)).

Definition set_local {L} (f : L -> L) : M (World * L) unit :=
  fun s => (Ok tt, (fst s, f (snd s))).

(** [session.get(url, timeout=30)]. *)
Definition session_get (url : string) : M World Response :=
  fun w =>
    let w' := {| web := web w; requested := requested w ++ [url]; slept := slept w;
                 clock := clock w; clock_reads := clock_reads w;
                 disk_writable := disk_writable w; disk := disk w |} in
    match web w (List.length (requested w)) url with
    | GetResponse r => (Ok r, w')
    | GetRaises msg => (Raise {| exn_cls := RequestException; exn_msg := msg |}, w')
    end.

(** [response.raise_for_status()]. *)
Definition raise_for_status (r : Response) : M World unit :=
  if ((400 <=? status_code r) && (status_code r <? 600))%Z
  then raise {| exn_cls := HTTPError; exn_msg := "HTTP error" |}
  else ret tt.

(** [time.sleep(secs)].  (The [OverflowError] of a delay too long for the
    timer of the platform, some billions of seconds, is left out.) *)
Definition sleep (secs : dec) : M World unit :=
  if (mant secs <? 0)%Z
  then raise {| exn_cls := ValueError; exn_msg := "sleep length must be non-negative" |}
  else fun w =>
         (Ok tt, {| web := web w; requested := requested w; slept := slept w ++ [secs];
                    clock := clock w; clock_reads := clock_reads w;
                    disk_writable := disk_writable w; disk := disk w |}).

(** [datetime.now()]. *)
Definition datetime_now : M World Z :=
  fun w =>
    (Ok (clock w (clock_reads w)),
     {| web := web w; requested := requested w; slept := slept w;
        clock := clock w; clock_reads := S (clock_reads w);
        disk_writable := disk_writable w; disk := disk w |}).

(** [with open('vt_dining_data.json', 'w') as f: json.dump(all_data, f)]. *)
Definition save_json (all_data : Snapshot) : M World unit :=
  fun w =>
    if disk_writable w
    then (Ok tt, {| web := web w; requested := requested w; slept := slept w;
                    clock := clock w; clock_reads := clock_reads w;
                    disk_writable := disk_writable w; disk := Some all_data |})
    else (Raise {| exn_cls := OSError; exn_msg := "cannot open vt_dining_data.json" |}, w).

(** Run a computation with local variables, starting from [l0]. *)
Definition with_locals {L A} (l0 : L) (m : M (World * L) A) : M World (A * L) :=
  fun w =>
    match m (w, l0) with
    | (Ok a, (w', l)) => (Ok (a, l), w')
    | (Raise e, (w', _)) => (Raise e, w')
    end.

(** ** The scraper: construction and HTTP *)

Record Scraper : Type := {
  base_url : string;
  menu_base : string;
  max_items_per_meal : Z;
  request_delay : dec;
  max_retries : Z;
  retry_delay : Z
}.

(** [int(s)], raising [ValueError]. *)
Definition py_int_of_str (s : string) : result Z :=
  match PyNum.int_of_str s with
  | Some z => Ok z
  | None => Raise {| exn_cls := ValueError;
                     exn_msg := "invalid literal for int() with base 10: " ++ s |}
  end.

(** [float(s)], raising [ValueError]. *)
Definition py_float_of_str (s : string) : result dec :=
  match PyNum.float_of_signed s with
  | Some d => Ok d
  | None => Raise {| exn_cls := ValueError;
                     exn_msg := "could not convert string to float: " ++ s |}
  end.

(** [int(x)] for a float, raising [OverflowError]. *)
Definition py_int_of_float (x : dec) : result Z :=
  match PyNum.py_int x with
  | Some z => Ok z
  | None => Raise {| exn_cls := OverflowError;
                     exn_msg := "cannot convert float infinity to integer" |}
  end.

(** [VTDiningScraper.__init__]; [env] is the process environment read by
    [os.getenv]. *)
Definition init (max_items_per_meal_arg : option Z) (env : list (string * string))
  : result Scraper :=
  let from_env := py_int_of_str (dict_get env "MAX_ITEMS_PER_MEAL" "10") in
  let max_items :=
    match max_items_per_meal_arg with
    | None => from_env
    | Some n => if (n =? 0)%Z then from_env else Ok n
    end in
  match max_items with
  | Raise e => Raise e
  | Ok m =>
      match py_float_of_str (dict_get env "SCRAPER_DELAY" "1.0") with
      | Raise e => Raise e
      | Ok d =>
          Ok {| base_url := "https://foodpro.students.vt.edu";
                menu_base := "https://foodpro.students.vt.edu/menus";
                max_items_per_meal := m;
                request_delay := d;
                max_retries := 3;
                retry_delay := 2 |}
      end
  end.

(** One pass through the body of [make_request]'s loop: [Some v] is
    [return v], [None] goes on to the next attempt. *)
Definition one_attempt (self : Scraper) (url : string) (retries attempt : Z)
  : M World (option (option Response)) :=
  try_except
    (response <- session_get url ;;
     raise_for_status response ;;;
     ret (Some (Some response)))
    is_request_exception
    (fun e =>
       if (attempt <? retries)%Z
       then sleep (Dec (retry_delay self * (attempt + 1)) 0) ;;; ret None
       else ret (Some None)).

(** [for attempt in range(retries + 1)], with [todo] attempts left; falling
    off the end of the loop returns [None]. *)
Fixpoint attempts (self : Scraper) (url : string) (retries : Z) (todo : nat)
         (attempt : Z) : M World (option Response) :=
  match todo with
  | O => ret None
  | S todo' =>
      r <- one_attempt self url retries attempt ;;
      match r with
      | Some v => ret v
      | None => attempts self url retries todo' (attempt + 1)
      end
  end.

(** [VTDiningScraper.make_request]. *)
Definition make_request (self : Scraper) (url : string) (retries : option Z)
  : M World (option Response) :=
  let retries := match retries with None => max_retries self | Some r => r end in
  attempts self url retries (Z.to_nat (retries + 1)) 0.

(** ** Hall discovery *)

(** [VTDiningScraper.get_fallback_dining_halls]. *)
Definition get_fallback_dining_halls (self : Scraper) : list Hall :=
  [ {| hall_name := "D2 at Dietrick Hall"; hall_location_num := "15";
       hall_url := base_url self ++ "/menus/MenuAtLocation.aspx?locationNum=15&naFlag=1" |};
    {| hall_name := "Food Court / Hokie Grill at Owens"; hall_location_num := "09";
       hall_url := base_url self ++ "/menus/MenuAtLocation.aspx?locationNum=09&naFlag=1" |};
    {| hall_name := "Turner Place at Lavery Hall"; hall_location_num := "14";
       hall_url := base_url self ++ "/menus/MenuAtLocation.aspx?locationNum=14&naFlag=1" |};
    {| hall_name := "West End at Cochrane Hall"; hall_location_num := "16";
       hall_url := base_url self ++ "/menus/MenuAtLocation.aspx?locationNum=16&naFlag=1" |} ].

(** [r'MenuAtLocation\.aspx\?locationNum='] *)
Definition hall_link_re : Regex.re := Regex.lit "MenuAtLocation.aspx?locationNum=".

(** [r'locationNum=([^&]+)'] *)
Definition location_re : Regex.re :=
  Regex.RSeq (Regex.lit "locationNum=")
             (Regex.RGroup (Regex.RPlus (Regex.CNoneOf ["&"%char]))).

(** The body of the loop over [hall_links]. *)
Definition add_hall_link (self : Scraper) (dining_halls : list Hall) (lf : Tag * list Tag)
  : list Hall :=
  let link := fst lf in
  let title := PyStr.strip (dict_get (tag_attrs link) "title" "") in
  match dict_find (tag_attrs link) "href" with
  | Some href =>
      if PyStr.truthy title && PyStr.truthy href then
        match Regex.search false location_re href with
        | Some location_match =>
            match Regex.group1 location_match with
            | Some location_num =>
                dining_halls ++
                [ {| hall_name := title;
                     hall_location_num := location_num;
                     hall_url := base_url self ++ "/menus/" ++ href |} ]
            | None => dining_halls
            end
        | None => dining_halls
        end
      else dining_halls
  | None => dining_halls
  end.

(** [VTDiningScraper.discover_dining_halls]. *)
Definition discover_dining_halls (self : Scraper) : M World (list Hall) :=
  try_except
    (response <- make_request self (menu_base self ++ "/") None ;;
     match response with
     | None => ret (get_fallback_dining_halls self)
     | Some r =>
         let soup := content r in
         let hall_links := find_all_a hall_link_re soup in
         let dining_halls := fold_left (add_hall_link self) hall_links [] in
         ret (match dining_halls with
              | [] => get_fallback_dining_halls self
              | _ => dining_halls
              end)
     end)
    is_exception
    (fun _ => ret (get_fallback_dining_halls self)).

(** ** Menu extraction *)

(** [r'label\.aspx'] *)
Definition label_re : Regex.re := Regex.lit "label.aspx".

(** The loop of [find_recipe_identifier]: [hops] calls of [find_next()] are
    left, [following] are the tags after the current element. *)
Fixpoint find_recipe_identifier_from (hops : nat) (following : list Tag) : option Tag :=
  match hops with
  | O => None
  | S hops' =>
      match following with
      | [] => None
      | current_element :: rest =>
          if String.eqb (tag_name current_element) "div" &&
             PyStr.eqb_in "report_recipe_identifier" (tag_class current_element)
          then Some current_element
          else find_recipe_identifier_from hops' rest
      end
  end.

(** [VTDiningScraper.find_recipe_identifier]; the link is given by the tags
    that follow it. *)
Definition find_recipe_identifier (following : list Tag) : option Tag :=
  find_recipe_identifier_from 10 following.

(** The body of the loop over [food_links]. *)
Definition add_food_link (self : Scraper) (meal_data : list (string * list FoodItem))
           (lf : Tag * list Tag) : list (string * list FoodItem) :=
  let link := fst lf in
  let item_name := get_text_strip (tag_strings link) in
  let item_url := dict_get (tag_attrs link) "href" "" in
  if negb (PyStr.truthy item_name) then meal_data
  else
    match find_recipe_identifier (snd lf) with
    | Some recipe_div =>
        let recipe_text := get_text_strip (tag_strings recipe_div) in
        match extract_meal_period recipe_text with
        | Some meal_period =>
            if PyStr.truthy meal_period then
              let full_url :=
                if negb (PyStr.startswith "http" item_url)
                then (base_url self ++ "/menus/" ++ item_url)%string
                else item_url in
              dict_append meal_data meal_period
                {| item_name := item_name; item_url := full_url;
                   item_recipe_id := recipe_text; item_nutrition := None |}
            else meal_data
        | None => meal_data
        end
    | None => meal_data
    end.

(** [VTDiningScraper.get_meal_periods_and_categories]. *)
Definition get_meal_periods_and_categories (self : Scraper) (dining_hall_url : string)
  : M World (list (string * list FoodItem)) :=
  try_except
    (response <- make_request self dining_hall_url None ;;
     match response with
     | None => ret []
     | Some r =>
         let food_links := find_all_a label_re (content r) in
         ret (fold_left (add_food_link self) food_links [])
     end)
    is_exception
    (fun _ => ret []).

(** ** Nutrition extraction *)

Module Patterns.
Import Regex.

(** [\s*] *)
Definition ws : re := RStar CSpace.
(** [\s+] *)
Definition ws1 : re := RPlus CSpace.
(** [[:\-]?] *)
Definition colon : re := ROpt (RClass (COneOf [":"%char; "-"%char])).
(** [\s*[:\-]?\s*] *)
Definition sep : re := seqs [ws; colon; ws].
(** [\d+] *)
Definition digits : re := RPlus CDigit.
(** [\d+\.?\d*] *)
Definition decimal : re := seqs [RPlus CDigit; ROpt (RChar "."%char); RStar CDigit].
(** [(?:total\s+)?] *)
Definition total : re := ROpt (RSeq (lit "total") ws1).

(** The [patterns] dictionary of [get_nutrition_from_item_page], in the
    order it is written.  In the comments DEC stands for [\d+\.?\d*]. *)
Definition patterns : list (string * list re) :=
  [ ("calories",
     [ (* calories?\s*[:\-]?\s*(\d+) *)
       seqs [lit "calorie"; ROpt (RChar "s"%char); sep; RGroup digits];
       (* (\d+)\s*calories? *)
       seqs [RGroup digits; ws; lit "calorie"; ROpt (RChar "s"%char)];
       (* cal[:\-]?\s*(\d+) *)
       seqs [lit "cal"; colon; ws; RGroup digits] ]);
    ("protein",
     [ (* protein\s*[:\-]?\s*(DEC)\s*g *)
       seqs [lit "protein"; sep; RGroup decimal; ws; lit "g"];
       (* (DEC)\s*g\s*protein *)
       seqs [RGroup decimal; ws; lit "g"; ws; lit "protein"];
       (* prot[:\-]?\s*(DEC)\s*g *)
       seqs [lit "prot"; colon; ws; RGroup decimal; ws; lit "g"] ]);
    ("carbs",
     [ (* (?:total\s+)?carbohydrate\s*[:\-]?\s*(DEC)\s*g *)
       seqs [total; lit "carbohydrate"; sep; RGroup decimal; ws; lit "g"];
       (* carbs?\s*[:\-]?\s*(DEC)\s*g *)
       seqs [lit "carb"; ROpt (RChar "s"%char); sep; RGroup decimal; ws; lit "g"];
       (* (DEC)\s*g\s*carb *)
       seqs [RGroup decimal; ws; lit "g"; ws; lit "carb"] ]);
    ("fat",
     [ (* (?:total\s+)?fat\s*[:\-]?\s*(DEC)\s*g *)
       seqs [total; lit "fat"; sep; RGroup decimal; ws; lit "g"];
       (* (DEC)\s*g\s*fat *)
       seqs [RGroup decimal; ws; lit "g"; ws; lit "fat"];
       (* fat[:\-]?\s*(DEC)\s*g *)
       seqs [lit "fat"; colon; ws; RGroup decimal; ws; lit "g"] ]);
    ("fiber",
     [ (* dietary\s+fiber\s*[:\-]?\s*(DEC)\s*g *)
       seqs [lit "dietary"; ws1; lit "fiber"; sep; RGroup decimal; ws; lit "g"];
       (* fiber\s*[:\-]?\s*(DEC)\s*g *)
       seqs [lit "fiber"; sep; RGroup decimal; ws; lit "g"];
       (* (DEC)\s*g\s*fiber *)
       seqs [RGroup decimal; ws; lit "g"; ws; lit "fiber"] ]);
    ("sodium",
     [ (* sodium\s*[:\-]?\s*(DEC)\s*mg *)
       seqs [lit "sodium"; sep; RGroup decimal; ws; lit "mg"];
       (* (DEC)\s*mg\s*sodium *)
       seqs [RGroup decimal; ws; lit "mg"; ws; lit "sodium"];
       (* salt\s*[:\-]?\s*(DEC)\s*mg *)
       seqs [lit "salt"; sep; RGroup decimal; ws; lit "mg"] ]);
    ("sugars",
     [ (* (?:total\s+)?sugars?\s*[:\-]?\s*(DEC)\s*g *)
       seqs [total; lit "sugar"; ROpt (RChar "s"%char); sep; RGroup decimal; ws; lit "g"];
       (* (DEC)\s*g\s*sugar *)
       seqs [RGroup decimal; ws; lit "g"; ws; lit "sugar"];
       (* sugar[:\-]?\s*(DEC)\s*g *)
       seqs [lit "sugar"; colon; ws; RGroup decimal; ws; lit "g"] ]) ].

(** [[^,\n]+] *)
Definition to_comma_or_newline : re := RPlus (CNoneOf [","%char; "010"%char]).

(** [(?:oz|g|ml|cup|piece)] *)
Definition unit_word : re :=
  RAlt (lit "oz") (RAlt (lit "g") (RAlt (lit "ml") (RAlt (lit "cup") (lit "piece")))).

(** The [serving_patterns] list of [extract_serving_size] (DEC as above). *)
Definition serving_patterns : list re :=
  [ (* serving\s*size\s*[:\-]?\s*([^,\n]+) *)
    seqs [lit "serving"; ws; lit "size"; sep; RGroup to_comma_or_newline];
    (* portion\s*[:\-]?\s*([^,\n]+) *)
    seqs [lit "portion"; sep; RGroup to_comma_or_newline];
    (* size\s*[:\-]?\s*(DEC\s*(?:oz|g|ml|cup|piece)) *)
    seqs [lit "size"; sep; RGroup (seqs [decimal; ws; unit_word])] ].

End Patterns.

(** [float(match.group(1))]: a group that took no part is [None], on which
    [float] raises [TypeError]. *)
Definition float_of_group (g : option string) : result dec :=
  match g with
  | None => Raise {| exn_cls := TypeError;
                     exn_msg := "float() argument must be a string or a real number" |}
  | Some t =>
      match PyNum.float_of_str t with
      | Some d => Ok d
      | None => Raise {| exn_cls := ValueError;
                         exn_msg := "could not convert string to float: " ++ t |}
      end
  end.

(** [nutrition[nutrient] = int(value)] for calories. *)
Definition set_calories (nutrition : Nutrition) (v : Z) : Nutrition :=
  {| n_calories := Some v; n_protein := n_protein nutrition;
     n_carbs := n_carbs nutrition; n_fat := n_fat nutrition;
     n_fiber := n_fiber nutrition; n_sodium := n_sodium nutrition;
     n_sugars := n_sugars nutrition; n_allergens := n_allergens nutrition;
     n_dietary_tags := n_dietary_tags nutrition;
     n_serving_size := n_serving_size nutrition |}.

(** [nutrition[nutrient] = round(value, 1)] for the other nutrients. *)
Definition set_rounded (nutrition : Nutrition) (nutrient : string) (v : dec) : Nutrition :=
  let pick (key : string) (old : option dec) : option dec :=
    if String.eqb nutrient key then Some v else old in
  {| n_calories := n_calories nutrition;
     n_protein := pick "protein" (n_protein nutrition);
     n_carbs := pick "carbs" (n_carbs nutrition);
     n_fat := pick "fat" (n_fat nutrition);
     n_fiber := pick "fiber" (n_fiber nutrition);
     n_sodium := pick "sodium" (n_sodium nutrition);
     n_sugars := pick "sugars" (n_sugars nutrition);
     n_allergens := n_allergens nutrition;
     n_dietary_tags := n_dietary_tags nutrition;
     n_serving_size := n_serving_size nutrition |}.

(** The body of the [try] inside the loop over the patterns: the value is
    read from the match and stored. *)
Definition store_match (nutrient : string) (m : Regex.Match) (nutrition : Nutrition)
  : result Nutrition :=
  match float_of_group (Regex.group1 m) with
  | Ok value =>
      if String.eqb nutrient "calories"
      then match py_int_of_float value with
           | Ok calories => Ok (set_calories nutrition calories)
           | Raise e => Raise e
           end
      else Ok (set_rounded nutrition nutrient (PyNum.py_round1 value))
  | Raise e => Raise e
  end.

(** The inner loop [for pattern in pattern_list] for one nutrient. *)
Fixpoint try_patterns (nutrient : string) (pattern_list : list Regex.re)
         (page_text : string) (nutrition : Nutrition) : result Nutrition :=
  match pattern_list with
  | [] => Ok nutrition
  | pattern :: rest =>
      match Regex.search true pattern page_text with
      | Some m =>
          match store_match nutrient m nutrition with
          | Ok nutrition' => Ok nutrition'   (* break *)
          | Raise e =>
              if is_value_or_index_error e
              then try_patterns nutrient rest page_text nutrition   (* continue *)
              else Raise e
          end
      | None => try_patterns nutrient rest page_text nutrition
      end
  end.

(** The outer loop [for nutrient, pattern_list in patterns.items()]. *)
Fixpoint each_nutrient (table : list (string * list Regex.re)) (page_text : string)
         (nutrition : Nutrition) : result Nutrition :=
  match table with
  | [] => Ok nutrition
  | (nutrient, pattern_list) :: rest =>
      match try_patterns nutrient pattern_list page_text nutrition with
      | Ok nutrition' => each_nutrient rest page_text nutrition'
      | Raise e => Raise e
      end
  end.

(** [VTDiningScraper.extract_serving_size]. *)
Fixpoint first_serving (serving_patterns : list Regex.re) (page_text : string)
  : option string :=
  match serving_patterns with
  | [] => None
  | pattern :: rest =>
      match Regex.search true pattern page_text with
      | Some m =>
          match Regex.group1 m with
          | Some g => Some (PyStr.strip g)
          | None => None
          end
      | None => first_serving rest page_text
      end
  end.

Definition extract_serving_size (page_text : string) : option string :=
  first_serving Patterns.serving_patterns page_text.

(** [allergen_keywords] of [parse_allergen_text]. *)
Definition allergen_keywords : list (string * list string) :=
  [ ("milk", ["milk"; "dairy"; "lactose"]);
    ("eggs", ["egg"; "eggs"]);
    ("fish", ["fish"]);
    ("shellfish", ["shellfish"; "shrimp"; "crab"; "lobster"]);
    ("tree_nuts", ["tree nuts"; "almonds"; "walnuts"; "pecans"; "cashews"]);
    ("peanuts", ["peanuts"; "peanut"]);
    ("wheat", ["wheat"; "gluten"]);
    ("soybeans", ["soy"; "soybeans"; "soybean"]) ].

(** [any(keyword in text for keyword in keywords)]. *)
Definition any_in (keywords : list string) (text : string) : bool :=
  existsb (fun keyword => PyStr.contains keyword text) keywords.

(** [VTDiningScraper.parse_allergen_text]. *)
Definition parse_allergen_text (text : string) : list string :=
  let text_lower := PyStr.lower text in
  fold_left
    (fun allergens (entry : string * list string) =>
       if any_in (snd entry) text_lower then allergens ++ [fst entry] else allergens)
    allergen_keywords [].

(** [page_text.split(marker)[1].split('.')[0]]. *)
Definition section_after (marker page_text : string) : string :=
  List.hd "" (PyStr.split "." (List.nth 1 (PyStr.split marker page_text) "")).

(** [VTDiningScraper.extract_allergens]. *)
Definition extract_allergens (soup : Soup) : list string :=
  let allergens :=
    match find_allergen_div soup with
    | Some allergen_section =>
        parse_allergen_text (get_text (tag_strings allergen_section))
    | None =>
        let page_text := PyStr.lower (get_text (soup_strings soup)) in
        let from_contains :=
          if PyStr.contains "contains:" page_text
          then parse_allergen_text (section_after "contains:" page_text)
          else [] in
        let from_allergens :=
          if PyStr.contains "allergens:" page_text
          then parse_allergen_text (section_after "allergens:" page_text)
          else [] in
        from_contains ++ from_allergens
    end in
  PyStr.dedup allergens.

(** [dietary_indicators] of [extract_dietary_tags]. *)
Definition dietary_indicators : list (string * list string) :=
  [ ("vegetarian", ["vegetarian"; "veggie"]);
    ("vegan", ["vegan"]);
    ("halal", ["halal"]);
    ("kosher", ["kosher"]);
    ("organic", ["organic"]);
    ("low_sodium", ["low sodium"; "reduced sodium"]);
    ("whole_grain", ["whole grain"; "whole wheat"]) ].

(** [VTDiningScraper.extract_dietary_tags]. *)
Definition extract_dietary_tags (allergens : list string) (soup : option Soup)
  : list string :=
  let allergen_list := map PyStr.lower allergens in
  let has (a : string) : bool := PyStr.eqb_in a allergen_list in
  let tags := [] in
  let tags :=
    if negb (has "milk") && negb (has "eggs") then
      if negb (existsb has ["fish"; "shellfish"]) then tags ++ ["potentially_vegan"]
      else tags
    else tags in
  let tags := if negb (has "milk") then tags ++ ["dairy_free"] else tags in
  let tags := if negb (has "wheat") then tags ++ ["gluten_free"] else tags in
  let tags :=
    if negb (has "peanuts") && negb (has "tree_nuts") then tags ++ ["nut_free"]
    else tags in
  let tags :=
    match soup with
    | Some sp =>
        let page_text := PyStr.lower (get_text (soup_strings sp)) in
        fold_left
          (fun tags (entry : string * list string) =>
             if any_in (snd entry) page_text then tags ++ [fst entry] else tags)
          dietary_indicators tags
    | None => tags
    end in
  PyStr.dedup tags.

Definition set_allergens_and_tags (nutrition : Nutrition) (allergens tags : list string)
  : Nutrition :=
  {| n_calories := n_calories nutrition; n_protein := n_protein nutrition;
     n_carbs := n_carbs nutrition; n_fat := n_fat nutrition;
     n_fiber := n_fiber nutrition; n_sodium := n_sodium nutrition;
     n_sugars := n_sugars nutrition; n_allergens := Some allergens;
     n_dietary_tags := Some tags;
     n_serving_size := n_serving_size nutrition |}.

Definition set_serving_size (nutrition : Nutrition) (serving_size : string) : Nutrition :=
  {| n_calories := n_calories nutrition; n_protein := n_protein nutrition;
     n_carbs := n_carbs nutrition; n_fat := n_fat nutrition;
     n_fiber := n_fiber nutrition; n_sodium := n_sodium nutrition;
     n_sugars := n_sugars nutrition; n_allergens := n_allergens nutrition;
     n_dietary_tags := n_dietary_tags nutrition;
     n_serving_size := Some serving_size |}.

(** What [get_nutrition_from_item_page] does with a fetched page. *)
Definition nutrition_of_soup (soup : Soup) : result Nutrition :=
  let page_text := get_text (soup_strings soup) in
  match each_nutrient Patterns.patterns page_text no_nutrition with
  | Raise e => Raise e
  | Ok nutrition =>
      let allergens := extract_allergens soup in
      let nutrition :=
        set_allergens_and_tags nutrition allergens
                               (extract_dietary_tags allergens (Some soup)) in
      Ok (match extract_serving_size page_text with
          | Some serving_size =>
              if PyStr.truthy serving_size
              then set_serving_size nutrition serving_size
              else nutrition
          | None => nutrition
          end)
  end.

(** [VTDiningScraper.get_nutrition_from_item_page]. *)
Definition get_nutrition_from_item_page (self : Scraper) (item_url : string)
  : M World Nutrition :=
  try_except
    (response <- make_request self item_url None ;;
     match response with
     | None => ret no_nutrition
     | Some r => lift_result (nutrition_of_soup (content r))
     end)
    is_exception
    (fun _ => ret no_nutrition).

(** ** The aggregator *)

(** The local variables of [scrape_all_data] that its loop over the halls
    updates. *)
Record Locals : Type := {
  l_dining_halls : list HallData;       (* all_data['dining_halls'] *)
  l_hall_data : HallData;
  l_successful_halls : Z;
  l_total_items_scraped : Z
}.

Definition pending_hall (hall : Hall) : HallData :=
  {| hd_name := hall_name hall;
     hd_location_num := hall_location_num hall;
     hd_url := hall_url hall;
     hd_meal_periods := [];
     hd_scrape_status := "pending";
     hd_items_scraped := None;
     hd_error := None |}.

Definition set_hall_data (f : HallData -> HallData) (l : Locals) : Locals :=
  {| l_dining_halls := l_dining_halls l;
     l_hall_data := f (l_hall_data l);
     l_successful_halls := l_successful_halls l;
     l_total_items_scraped := l_total_items_scraped l |}.

(** [hall_data['meal_periods'][meal_period] = data] *)
Definition put_meal_period (meal_period : string) (data : MealPeriodData) (h : HallData)
  : HallData :=
  {| hd_name := hd_name h; hd_location_num := hd_location_num h; hd_url := hd_url h;
     hd_meal_periods := dict_set (hd_meal_periods h) meal_period data;
     hd_scrape_status := hd_scrape_status h;
     hd_items_scraped := hd_items_scraped h;
     hd_error := hd_error h |}.

(** [hall_data['scrape_status'] = 'completed'; hall_data['items_scraped'] = n] *)
Definition mark_completed (hall_items_count : Z) (h : HallData) : HallData :=
  {| hd_name := hd_name h; hd_location_num := hd_location_num h; hd_url := hd_url h;
     hd_meal_periods := hd_meal_periods h;
     hd_scrape_status := "completed";
     hd_items_scraped := Some hall_items_count;
     hd_error := hd_error h |}.

(** [hall_data['scrape_status'] = 'failed'; hall_data['error'] = str(e)] *)
Definition mark_failed (e : exn) (h : HallData) : HallData :=
  {| hd_name := hd_name h; hd_location_num := hd_location_num h; hd_url := hd_url h;
     hd_meal_periods := hd_meal_periods h;
     hd_scrape_status := "failed";
     hd_items_scraped := hd_items_scraped h;
     hd_error := Some (exn_msg e) |}.

(** [item['nutrition'] = nutrition] *)
Definition with_nutrition (item : FoodItem) (nutrition : Nutrition) : FoodItem :=
  {| item_name := item_name item; item_url := item_url item;
     item_recipe_id := item_recipe_id item; item_nutrition := Some nutrition |}.

(** The loop [for i, item in enumerate(limited_items)]. *)
Fixpoint nutrition_loop (self : Scraper) (limited_items items_with_nutrition : list FoodItem)
         (hall_items_count : Z) : M (World * Locals) (list FoodItem * Z) :=
  match limited_items with
  | [] => ret (items_with_nutrition, hall_items_count)
  | item :: rest =>
      nutrition <- in_world (get_nutrition_from_item_page self (item_url item)) ;;
      set_local (fun l =>
                   {| l_dining_halls := l_dining_halls l;
                      l_hall_data := l_hall_data l;
                      l_successful_halls := l_successful_halls l;
                      l_total_items_scraped := l_total_items_scraped l + 1 |}) ;;;
      in_world (sleep (request_delay self)) ;;;
      nutrition_loop self rest (items_with_nutrition ++ [with_nutrition item nutrition])
                     (hall_items_count + 1)
  end.

(** The loop [for meal_period, items in meal_data.items()]. *)
Fixpoint period_loop (self : Scraper) (meal_data : list (string * list FoodItem))
         (hall_items_count : Z) : M (World * Locals) Z :=
  match meal_data with
  | [] => ret hall_items_count
  | (meal_period, items) :: rest =>
      let limited_items := slice_to items (max_items_per_meal self) in
      r <- nutrition_loop self limited_items [] hall_items_count ;;
      set_local (set_hall_data
                   (put_meal_period meal_period
                      {| mp_items := fst r;
                         mp_total_available := Z.of_nat (List.length items);
                         mp_scraped_count := Z.of_nat (List.length (fst r)) |})) ;;;
      period_loop self rest (snd r)
  end.

(** The [try] block of one hall. *)
Definition hall_try (self : Scraper) (hall : Hall) : M (World * Locals) unit :=
  meal_data <- in_world (get_meal_periods_and_categories self (hall_url hall)) ;;
  hall_items_count <- period_loop self meal_data 0 ;;
  set_local (fun l =>
               {| l_dining_halls := l_dining_halls l;
                  l_hall_data := mark_completed hall_items_count (l_hall_data l);
                  l_successful_halls := l_successful_halls l + 1;
                  l_total_items_scraped := l_total_items_scraped l |}).

(** The body of the loop [for hall in dining_halls]. *)
Definition scrape_hall (self : Scraper) (hall : Hall) : M (World * Locals) unit :=
  set_local (set_hall_data (fun _ => pending_hall hall)) ;;;
  try_except (hall_try self hall) is_exception
             (fun e => set_local (set_hall_data (mark_failed e))) ;;;
  set_local (fun l =>
               {| l_dining_halls := l_dining_halls l ++ [l_hall_data l];
                  l_hall_data := l_hall_data l;
                  l_successful_halls := l_successful_halls l;
                  l_total_items_scraped := l_total_items_scraped l |}).

Fixpoint hall_loop (self : Scraper) (dining_halls : list Hall) : M (World * Locals) unit :=
  match dining_halls with
  | [] => ret tt
  | hall :: rest => scrape_hall self hall ;;; hall_loop self rest
  end.

Definition initial_locals : Locals :=
  {| l_dining_halls := [];
     l_hall_data := pending_hall {| hall_name := ""; hall_location_num := ""; hall_url := "" |};
     l_successful_halls := 0;
     l_total_items_scraped := 0 |}.

(** [VTDiningScraper.scrape_all_data]. *)
Definition scrape_all_data (self : Scraper) : M World Snapshot :=
  started <- datetime_now ;;
  dining_halls <- discover_dining_halls self ;;
  r <- with_locals initial_locals (hall_loop self dining_halls) ;;
  let l := snd r in
  finished <- datetime_now ;;
  let all_data :=
    {| last_updated := started;
       dining_halls := l_dining_halls l;
       config_max_items_per_meal := max_items_per_meal self;
       config_request_delay := request_delay self;
       scrape_summary :=
         Some {| total_halls := Z.of_nat (List.length dining_halls);
                 successful_halls := l_successful_halls l;
                 failed_halls := Z.of_nat (List.length dining_halls) - l_successful_halls l;
                 total_items_scraped := l_total_items_scraped l;
                 scrape_duration := finished - started |} |} in
  try_except (save_json all_data) is_exception (fun _ => ret tt) ;;;
  ret all_data.

(** ** The food digest for the AI prompt ([app1.py]) *)

Section Digest.

(** Python's own renderings, used only to build the text of a line. *)
Variable py_title : string -> string.     (* str.title *)
Variable str_of_int : Z -> string.        (* str(int) *)
Variable str_of_float : dec -> string.    (* str(float) *)

Definition skip_words : list string := ["cereal"; "milk"; "juice"; "dispenser"].
Definition protein_words : list string :=
  ["chicken"; "beef"; "fish"; "wrap"; "sandwich"; "panini"; "burger"; "egg"].
Definition carb_words : list string := ["bagel"; "bread"; "rice"; "pasta"; "potato"].

Record Buckets : Type := {
  proteins : list string;
  carbs : list string;
  other_foods : list string
}.

(** [nutrition.get(key, 0)] inside an f-string. *)
Definition show_grams (v : option dec) : string :=
  match v with
  | Some d => str_of_float d
  | None => str_of_int 0
  end.

Definition food_line (item : FoodItem) (hall_name meal_period : string) (calories : Z)
           (nutrition : Nutrition) : string :=
  (item_name item ++ " (" ++ hall_name ++ ", " ++ py_title meal_period ++ ") - " ++
   "Cal: " ++ str_of_int calories ++ ", P: " ++ show_grams (n_protein nutrition) ++ "g, " ++
   "C: " ++ show_grams (n_carbs nutrition) ++ "g, F: " ++ show_grams (n_fat nutrition) ++ "g")%string.

(** The body of the innermost loop [for item in items]. *)
Definition add_item (hall_name meal_period : string) (b : Buckets) (item : FoodItem)
  : Buckets :=
  let nutrition :=
    match item_nutrition item with Some n => n | None => no_nutrition end in
  let calories := match n_calories nutrition with Some c => c | None => 0%Z end in
  if (calories <? 50)%Z then b
  else
    let name_lower := PyStr.lower (item_name item) in
    let line := food_line item hall_name meal_period calories nutrition in
    if any_in skip_words name_lower then b
    else if any_in protein_words name_lower then
      {| proteins := proteins b ++ [line]; carbs := carbs b; other_foods := other_foods b |}
    else if any_in carb_words name_lower then
      {| proteins := proteins b; carbs := carbs b ++ [line]; other_foods := other_foods b |}
    else
      {| proteins := proteins b; carbs := carbs b; other_foods := other_foods b ++ [line] |}.

Definition add_period (hall_name : string) (b : Buckets) (entry : string * MealPeriodData)
  : Buckets :=
  fold_left (add_item hall_name (fst entry)) (mp_items (snd entry)) b.

Definition add_hall (b : Buckets) (hall : HallData) : Buckets :=
  fold_left (add_period (hd_name hall)) (hd_meal_periods hall) b.

Definition fill_buckets (menu_data : Snapshot) : Buckets :=
  fold_left add_hall (dining_halls menu_data)
            {| proteins := []; carbs := []; other_foods := [] |}.

(** [all_foods] of [format_foods_for_ai]. *)
Definition all_foods (menu_data : Snapshot) : list string :=
  let b := fill_buckets menu_data in
  firstn 80 (proteins b) ++ firstn 40 (carbs b) ++ firstn 30 (other_foods b).

(** [format_foods_for_ai]. *)
Definition format_foods_for_ai (menu_data : Snapshot) : string :=
  String.concat (String "010"%char EmptyString) (all_foods menu_data).

End Digest.

(** ** Vocabulary of the statements *)

(** An attempt fails when [session.get] raises or the status is 4xx/5xx. *)
Definition get_fails (o : get_outcome) : bool :=
  match o with
  | GetRaises _ => true
  | GetResponse r => ((400 <=? status_code r) && (status_code r <? 600))%Z
  end.

(** The sleeps before the retries that follow attempts [first+1 ..
    first+j] (attempts are numbered from 1). *)
Definition backoff (self : Scraper) (first : Z) (j : nat) : list dec :=
  map (fun i => Dec (retry_delay self * (first + Z.of_nat i)) 0) (seq 1 j).

(** The world after the GETs [urls] and the sleeps [sleeps]. *)
Definition world_after (w : World) (urls : list string) (sleeps : list dec) : World :=
  {| web := web w; requested := requested w ++ urls; slept := slept w ++ sleeps;
     clock := clock w; clock_reads := clock_reads w;
     disk_writable := disk_writable w; disk := disk w |}.

(** The exception [time.sleep] raises on a negative argument. *)
Definition sleep_error : exn :=
  {| exn_cls := ValueError; exn_msg := "sleep length must be non-negative" |}.

(** [h] is the record of [hall]. *)
Definition record_of (hall : Hall) (h : HallData) : Prop :=
  hd_name h = hall_name hall /\
  hd_location_num h = hall_location_num hall /\
  hd_url h = hall_url hall.

(** A finished record: completed, or failed with a non-empty error text. *)
Definition status_ok (h : HallData) : Prop :=
  (hd_scrape_status h = "completed" /\ hd_error h = None) \/
  (hd_scrape_status h = "failed" /\
   exists msg, hd_error h = Some msg /\ msg <> EmptyString).

(** [item'] is [item] with a nutrition record attached. *)
Definition attached (item item' : FoodItem) : Prop :=
  exists nutrition, item' = with_nutrition item nutrition.

(** The entry [meal_period -> d] of a hall record comes from the entry
    [meal_period -> items] of the extracted menu [meal_data]. *)
Definition period_from (self : Scraper) (meal_data : list (string * list FoodItem))
           (meal_period : string) (d : MealPeriodData) : Prop :=
  exists items,
    In (meal_period, items) meal_data /\
    Forall2 attached (slice_to items (max_items_per_meal self)) (mp_items d) /\
    mp_total_available d = Z.of_nat (List.length items) /\
    mp_scraped_count d = Z.of_nat (List.length (mp_items d)).

(** Pre- and post-conditions on the local variables, the world left free:
    [Q] on normal return, [E] when an exception leaves the computation. *)
Definition triple {A} (P : Locals -> Prop) (m : M (World * Locals) A)
           (Q : A -> Locals -> Prop) (E : exn -> Locals -> Prop) : Prop :=
  forall w l, P l ->
    match m (w, l) with
    | (Ok a, (_, l')) => Q a l'
    | (Raise e, (_, l')) => E e l'
    end.

(** The record [hd'] keeps the identity, status and error of [hd], and every
    meal period it holds is one of [hd] or comes from [meal_data]. *)
Definition extends (self : Scraper) (meal_data : list (string * list FoodItem))
           (hd hd' : HallData) : Prop :=
  hd_name hd' = hd_name hd /\
  hd_location_num hd' = hd_location_num hd /\
  hd_url hd' = hd_url hd /\
  hd_scrape_status hd' = hd_scrape_status hd /\
  hd_error hd' = hd_error hd /\
  forall p d, In (p, d) (hd_meal_periods hd') ->
              In (p, d) (hd_meal_periods hd) \/ period_from self meal_data p d.

(** The menu that [get_meal_periods_and_categories] returns for [url] when
    it is called in the world [w]. *)
Definition menu_in (self : Scraper) (url : string) (w : World)
  : list (string * list FoodItem) :=
  match fst (get_meal_periods_and_categories self url w) with
  | Ok meal_data => meal_data
  | Raise _ => []
  end.

(** The world in which each hall of the loop [for hall in dining_halls] is
    scraped when the loop starts in the state [s]: the first hall in the
    world of [s], every further hall in the world that the hall before it
    leaves behind. *)
Fixpoint hall_worlds (self : Scraper) (dining_halls : list Hall) (s : World * Locals)
  : list World :=
  match dining_halls with
  | [] => []
  | hall :: rest => fst s :: hall_worlds self rest (snd (scrape_hall self hall s))
  end.

(** Every meal period of the record [h] comes from the menu extracted for
    its hall in the world [w]. *)
Definition hall_periods_from (self : Scraper) (h : HallData) (w : World) : Prop :=
  forall p d, In (p, d) (hd_meal_periods h) ->
              period_from self (menu_in self (hd_url h) w) p d.


(** The locals are at the hall record [hd], with the finished records [dh]. *)
Definition at_hall (dh : list HallData) (hd : HallData) (l : Locals) : Prop :=
  l_dining_halls l = dh /\ l_hall_data l = hd.

(** ** A small world for concrete runs *)

Module Demo.

(** The scraper [VTDiningScraper(max_items_per_meal=1)] in an empty
    environment. *)
Definition scraper : Scraper :=
  {| base_url := "https://foodpro.students.vt.edu";
     menu_base := "https://foodpro.students.vt.edu/menus";
     max_items_per_meal := 1;
     request_delay := Dec 10 1;
     max_retries := 3;
     retry_delay := 2 |}.

(** The same scraper with [SCRAPER_DELAY=-1]. *)
Definition hasty_scraper : Scraper :=
  {| base_url := base_url scraper; menu_base := menu_base scraper;
     max_items_per_meal := 1; request_delay := Dec (-1) 0;
     max_retries := 3; retry_delay := 2 |}.

Definition item_link (name : string) : Tag :=
  {| tag_name := "a"; tag_attrs := [("href", ("label.aspx?RecNumAndPort=" ++ name)%string)];
     tag_class := []; tag_strings := [name] |}.

Definition marker (recipe : string) : Tag :=
  {| tag_name := "div"; tag_attrs := []; tag_class := ["report_recipe_identifier"];
     tag_strings := [recipe] |}.

Definition hall_page : Soup :=
  {| soup_tags := [ item_link "Eggs"; marker "101*1*Entree*Breakfast";
                    item_link "Toast"; marker "102*1*Bakery*Breakfast";
                    item_link "Soup"; marker "103*1*Soup*Lunch";
                    item_link "Mints" ];
     soup_strings := [] |}.

Definition item_page : Soup :=
  {| soup_tags := [];
     soup_strings := ["Calories: 350 Protein: 20g Contains: milk, wheat."] |}.

(** The directory page is down; hall 15 and every label page answer. *)
Definition site (n : nat) (url : string) : get_outcome :=
  if PyStr.contains "locationNum=15" url
  then GetResponse {| status_code := 200; content := hall_page |}
  else if PyStr.contains "label.aspx" url
       then GetResponse {| status_code := 200; content := item_page |}
       else GetRaises "connection refused".

Definition world : World :=
  {| web := site; requested := []; slept := [];
     clock := fun n => Z.of_nat n; clock_reads := 0;
     disk_writable := true; disk := None |}.

(** Nutrition pages whose text holds "Calories: 350" and "Protein: 20g". *)
Definition scenario_b_pages : list Soup :=
  [ {| soup_tags := []; soup_strings := ["Calories: 350"; " "; "Protein: 20g"] |};
    {| soup_tags := [];
       soup_strings := ["Nutrition Facts"; "Calories: 350"; "Protein: 20g"] |};
    {| soup_tags := []; soup_strings := ["PROTEIN: 20G, CALORIES: 350"] |} ].

(** A page whose only text is the allergen sentence of scenario C. *)
Definition scenario_c_page : Soup :=
  {| soup_tags := []; soup_strings := ["Contains: milk, wheat."] |}.

(** A page that says nothing about allergens. *)
Definition plain_page : Soup :=
  {| soup_tags := []; soup_strings := ["Steamed Rice"] |}.

(** A number of 310 digits: 1 followed by 309 zeros. *)
Definition huge_number : string :=
  String "1" (string_of_list_ascii (repeat "0"%char 309)).

(** A nutrition page whose calories are that number. *)
Definition oversized_page : Soup :=
  {| soup_tags := [];
     soup_strings := ["Calories: "; huge_number; " Protein: 20g"] |}.

(** A site that answers every request with that page. *)
Definition oversized_world : World :=
  {| web := fun _ _ => GetResponse {| status_code := 200; content := oversized_page |};
     requested := []; slept := [];
     clock := fun n => Z.of_nat n; clock_reads := 0;
     disk_writable := true; disk := None |}.

(** A site where nothing answers. *)
Definition dead_world : World :=
  {| web := fun _ _ => GetRaises "connection refused"; requested := []; slept := [];
     clock := fun n => Z.of_nat n; clock_reads := 0;
     disk_writable := false; disk := None |}.

End Demo.

(** ** Vocabulary for pattern matching and nutrition *)

(** Every character of [s] satisfies [p]. *)
Fixpoint all_chars (p : ascii -> bool) (s : string) : bool :=
  match s with
  | EmptyString => true
  | String c s' => p c && all_chars p s'
  end.

(** One or more decimal digits. *)
Definition is_digits_text (t : string) : Prop :=
  t <> EmptyString /\ all_chars Regex.isdigit t = true.

(** Digits, then possibly a dot and further digits. *)
Definition is_decimal_text (t : string) : Prop :=
  is_digits_text t \/
  exists d1 d2,
    is_digits_text d1 /\ all_chars Regex.isdigit d2 = true /\
    t = (d1 ++ "." ++ d2)%string.

(** Every capturing group of [r] only captures texts satisfying [P]. *)
Fixpoint groups_sat (P : string -> Prop) (r : Regex.re) : Prop :=
  match r with
  | Regex.RGroup r1 => forall ic s w, In w (Regex.run ic r1 s) -> P (fst (fst w))
  | Regex.RSeq a b | Regex.RAlt a b => groups_sat P a /\ groups_sat P b
  | Regex.ROpt a => groups_sat P a
  | _ => True
  end.

(** Every match of [r] goes through a capturing group. *)
Fixpoint must_capture (r : Regex.re) : bool :=
  match r with
  | Regex.RGroup _ => true
  | Regex.RSeq a b => must_capture a || must_capture b
  | Regex.RAlt a b => must_capture a && must_capture b
  | _ => false
  end.

(** Whenever [r] is found, group 1 holds a text satisfying [P]. *)
Definition captures (P : string -> Prop) (r : Regex.re) : Prop :=
  forall s m, Regex.search true r s = Some m ->
              exists g, Regex.group1 m = Some g /\ P g.

(** The match of the first pattern of the list that is found in the text. *)
Fixpoint first_match (pattern_list : list Regex.re) (page_text : string)
  : option Regex.Match :=
  match pattern_list with
  | [] => None
  | pattern :: rest =>
      match Regex.search true pattern page_text with
      | Some m => Some m
      | None => first_match rest page_text
      end
  end.

(** A value stored under a nutrient key: an [int] or a [float]. *)
Inductive number : Type :=
| NInt (z : Z)
| NFloat (d : dec).

(** [nutrition.get(nutrient)] for the seven nutrient keys. *)
Definition nutrient_value (n : Nutrition) (nutrient : string) : option number :=
  if String.eqb nutrient "calories" then option_map NInt (n_calories n)
  else if String.eqb nutrient "protein" then option_map NFloat (n_protein n)
  else if String.eqb nutrient "carbs" then option_map NFloat (n_carbs n)
  else if String.eqb nutrient "fat" then option_map NFloat (n_fat n)
  else if String.eqb nutrient "fiber" then option_map NFloat (n_fiber n)
  else if String.eqb nutrient "sodium" then option_map NFloat (n_sodium n)
  else if String.eqb nutrient "sugars" then option_map NFloat (n_sugars n)
  else None.

(** The number stored for a parsed value: [int] for calories, rounded to one
    decimal place otherwise; [None] when the conversion raises
    [OverflowError]. *)
Definition stored_number (nutrient : string) (v : dec) : option number :=
  if String.eqb nutrient "calories" then option_map NInt (PyNum.py_int v)
  else Some (NFloat (PyNum.py_round1 v)).

(** The float read from what a match captured. *)
Definition match_value (om : option Regex.Match) : option dec :=
  match om with
  | Some m =>
      match Regex.group1 m with
      | Some g => PyNum.float_of_str g
      | None => None
      end
  | None => None
  end.

(** [nutrition[nutrient] = x] *)
Definition set_number (n : Nutrition) (nutrient : string) (x : number) : Nutrition :=
  match x with
  | NInt z => set_calories n z
  | NFloat r => set_rounded n nutrient r
  end.

(** The effect of a match on the dictionary, when storing the value does
    not raise. *)
Definition apply_match (nutrient : string) (om : option Regex.Match) (n : Nutrition)
  : Nutrition :=
  match match_value om with
  | Some v =>
      match stored_number nutrient v with
      | Some x => set_number n nutrient x
      | None => n
      end
  | None => n
  end.

(** The exception [int] raises on an infinity. *)
Definition overflow_error : exn :=
  {| exn_cls := OverflowError; exn_msg := "cannot convert float infinity to integer" |}.

(** Whether storing the value of a match raises [OverflowError]: the
    nutrient is calories and the number captured is read as an infinity. *)
Definition overflows (nutrient : string) (om : option Regex.Match) : bool :=
  String.eqb nutrient "calories" &&
  match match_value om with
  | Some v => PyNum.is_inf v
  | None => false
  end.

(** The patterns for calories. *)
Definition calories_patterns : list Regex.re := dict_get Patterns.patterns "calories" [].

(** Whether the number that the first calories pattern found in the text
    captures is too large for a finite float. *)
Definition calories_overflow (page_text : string) : bool :=
  overflows "calories" (first_match calories_patterns page_text).

(** [t] tenths is the multiple of 0.1 nearest to the float [v]. *)
Definition nearest_tenth (v : dec) (t : Z) : Prop :=
  let '(N, D) := PyNum.nearest_double v in
  (0 < D)%Z /\ (2 * Z.abs (10 * N - t * D) <= D)%Z.

(** The keys of [patterns]. *)
Definition nutrient_keys : list string :=
  ["calories"; "protein"; "carbs"; "fat"; "fiber"; "sodium"; "sugars"].

(** ** Vocabulary for recipe identifiers *)

(** How many times the character [x] occurs in [s]. *)
Fixpoint count_char (x : ascii) (s : string) : nat :=
  match s with
  | EmptyString => 0
  | String c s' => (if Ascii.eqb c x then 1 else 0) + count_char x s'
  end.

(** The test of [find_recipe_identifier] on one element. *)
Definition is_marker (t : Tag) : bool :=
  String.eqb (tag_name t) "div" &&
  PyStr.eqb_in "report_recipe_identifier" (tag_class t).

(** The meal period as the specification words it: the last field,
    lowercased, looked up in the synonym table, unknown labels passed
    through. *)
Definition claimed_meal_period (recipe_text : string) : option string :=
  if PyStr.contains "*" recipe_text then
    let parts := PyStr.split "*" recipe_text in
    if 4 <=? List.length parts then
      let label := PyStr.lower (List.last parts "") in
      Some (dict_get meal_period_map label label)
    else None
  else None.

(** ** Vocabulary for the food digest *)

Inductive food_class : Type := Protein | Carb | Other.

Definition food_class_eqb (a b : food_class) : bool :=
  match a, b with
  | Protein, Protein | Carb, Carb | Other, Other => true
  | _, _ => false
  end.

(** [item.get('nutrition', {})]. *)
Definition nutrition_or_empty (item : FoodItem) : Nutrition :=
  match item_nutrition item with Some n => n | None => no_nutrition end.

(** [nutrition.get('calories', 0)] of an item. *)
Definition item_calories (item : FoodItem) : Z :=
  match n_calories (nutrition_or_empty item) with Some c => c | None => 0%Z end.

(** The class of an item in the digest; [None] when it is left out. *)
Definition classify (item : FoodItem) : option food_class :=
  let name_lower := PyStr.lower (item_name item) in
  if (item_calories item <? 50)%Z then None
  else if any_in skip_words name_lower then None
  else if any_in protein_words name_lower then Some Protein
  else if any_in carb_words name_lower then Some Carb
  else Some Other.

Definition in_class (c : food_class) (item : FoodItem) : bool :=
  match classify item with
  | Some c' => food_class_eqb c c'
  | None => false
  end.

(** Every item of the snapshot with its hall name and meal period, in the
    order the three nested loops visit them. *)
Definition period_entries (hall_name : string) (entry : string * MealPeriodData)
  : list (string * string * FoodItem) :=
  map (fun item => (hall_name, fst entry, item)) (mp_items (snd entry)).

Definition hall_entries (hall : HallData) : list (string * string * FoodItem) :=
  flat_map (period_entries (hd_name hall)) (hd_meal_periods hall).

Definition menu_entries (menu_data : Snapshot) : list (string * string * FoodItem) :=
  flat_map hall_entries (dining_halls menu_data).

Section DigestSpec.

Variable py_title : string -> string.
Variable str_of_int : Z -> string.
Variable str_of_float : dec -> string.

Definition entry_line (e : string * string * FoodItem) : string :=
  let '(hall_name, meal_period, item) := e in
  food_line py_title str_of_int str_of_float item hall_name meal_period
            (item_calories item) (nutrition_or_empty item).

(** The lines of the entries of class [c], in order. *)
Definition class_lines (c : food_class) (entries : list (string * string * FoodItem))
  : list string :=
  map entry_line (filter (fun e => in_class c (snd e)) entries).

(** The buckets after the entries [entries] have been visited. *)
Definition buckets_plus (b : Buckets) (entries : list (string * string * FoodItem))
  : Buckets :=
  {| proteins := proteins b ++ class_lines Protein entries;
     carbs := carbs b ++ class_lines Carb entries;
     other_foods := other_foods b ++ class_lines Other entries |}.

End DigestSpec.

(** ** Vocabulary for the menu of a hall and the hall directory *)

(** What one food link adds to an empty [meal_data]: the meal period and
    the item, when the link is kept. *)
Definition food_entry (self : Scraper) (lf : Tag * list Tag) : option (string * FoodItem) :=
  match add_food_link self [] lf with
  | [(meal_period, [item])] => Some (meal_period, item)
  | _ => None
  end.

(** The kept items of the links of a page with their meal periods, in
    document order. *)
Definition food_entries (self : Scraper) (links : list (Tag * list Tag))
  : list (string * FoodItem) :=
  flat_map (fun lf => match food_entry self lf with Some e => [e] | None => [] end) links.

(** The items of one meal period among the entries, in order. *)
Definition items_of_period (meal_period : string) (entries : list (string * FoodItem))
  : list FoodItem :=
  map snd (filter (fun e => String.eqb meal_period (fst e)) entries).

(** [list(dict.fromkeys(l))]: the first occurrence of each string, in order. *)
Definition dict_fromkeys (l : list string) : list string :=
  fold_left (fun keys k => if PyStr.eqb_in k keys then keys else keys ++ [k]) l [].

(** What one directory link adds to an empty list of halls. *)
Definition hall_of_link (self : Scraper) (lf : Tag * list Tag) : option Hall :=
  match add_hall_link self [] lf with
  | [hall] => Some hall
  | _ => None
  end.

(** The page [make_request] hands over for [url], if it does. *)
Definition fetched_page (self : Scraper) (url : string) (w : World) : option Soup :=
  match fst (make_request self url None w) with
  | Ok (Some r) => Some (content r)
  | _ => None
  end.

(** The food links of the page fetched for a hall. *)
Definition food_links_at (self : Scraper) (url : string) (w : World)
  : list (Tag * list Tag) :=
  match fetched_page self url w with
  | Some soup => find_all_a label_re soup
  | None => []
  end.

(** [sub] occurs in [s] at some position. *)
Definition occurs_in (sub s : string) : Prop :=
  exists before after, s = (before ++ sub ++ after)%string.

(** A string that does not begin with whitespace. *)
Definition starts_clean (s : string) : Prop :=
  match s with
  | EmptyString => True
  | String c _ => PyStr.isspace c = false
  end.

(** A hall as [discover_dining_halls] lists them: a stripped, non-empty
    name, and a URL under the site's [/menus/] in which the location number
    follows ["locationNum="] and runs up to the next ["&"] or the end. *)
Definition hall_wellformed (self : Scraper) (hall : Hall) : Prop :=
  hall_name hall <> EmptyString /\
  PyStr.strip (hall_name hall) = hall_name hall /\
  hall_location_num hall <> EmptyString /\
  count_char "&" (hall_location_num hall) = 0 /\
  exists before after,
    hall_url hall
    = (base_url self ++ "/menus/" ++
       before ++ "locationNum=" ++ hall_location_num hall ++ after)%string /\
    (after = EmptyString \/ exists after', after = String "&" after').

(** The halls read from the links of a directory page, in document order. *)
Definition halls_of_links (self : Scraper) (links : list (Tag * list Tag)) : list Hall :=
  flat_map (fun lf => match hall_of_link self lf with Some h => [h] | None => [] end) links.

(** ** Vocabulary for nutrition records *)

Definition not_comma (c : ascii) : bool := negb (Ascii.eqb c ",").

(** Whatever [r] matches consists of characters satisfying [P]. *)
Definition consumes (P : ascii -> bool) (r : Regex.re) : Prop :=
  forall ic s w, In w (Regex.run ic r s) -> all_chars P (fst (fst w)) = true.

(** A stored number that is not negative. *)
Definition number_nonneg (x : number) : Prop :=
  match x with
  | NInt z => (0 <= z)%Z
  | NFloat d => (0 <= mant d)%Z
  end.

(** The names of the allergen categories and of the dietary tags. *)
Definition allergen_names : list string := map fst allergen_keywords.

Definition inferred_tag_names : list string :=
  ["potentially_vegan"; "dairy_free"; "gluten_free"; "nut_free"].

Definition dietary_tag_names : list string :=
  inferred_tag_names ++ map fst dietary_indicators.

(** ** Vocabulary for the summary of a scrape *)

Definition has_status (status : string) (h : HallData) : bool :=
  String.eqb (hd_scrape_status h) status.

(** How many hall records have the given status. *)
Definition count_status (status : string) (halls : list HallData) : Z :=
  Z.of_nat (List.length (filter (has_status status) halls)).

(** The sum of [scraped_count] over the meal periods of a hall. *)
Definition periods_scraped (periods : list (string * MealPeriodData)) : Z :=
  fold_right (fun e acc => (mp_scraped_count (snd e) + acc)%Z) 0%Z periods.

(** [hall_data.get('items_scraped', 0)]. *)
Definition items_of_hall (h : HallData) : Z :=
  match hd_items_scraped h with Some n => n | None => 0%Z end.

Definition items_total (halls : list HallData) : Z :=
  fold_right (fun h acc => (items_of_hall h + acc)%Z) 0%Z halls.

(** The loop variables of [scrape_all_data] at a given point. *)
Definition locals_are (dh : list HallData) (hd : HallData) (s t : Z) (l : Locals) : Prop :=
  l_dining_halls l = dh /\ l_hall_data l = hd /\
  l_successful_halls l = s /\ l_total_items_scraped l = t.

(** A finished hall record whose counters agree with its content. *)
Definition hall_counted (h : HallData) : Prop :=
  (hd_scrape_status h = "completed" /\ hd_error h = None /\
   hd_items_scraped h = Some (periods_scraped (hd_meal_periods h)) /\
   (0 <= periods_scraped (hd_meal_periods h))%Z) \/
  (hd_scrape_status h = "failed" /\ hd_items_scraped h = None).

(** The counters of the loop over the halls agree with the records made so
    far. *)
Definition counters_agree (self : Scraper) (l : Locals) : Prop :=
  Forall hall_counted (l_dining_halls l) /\
  l_successful_halls l = count_status "completed" (l_dining_halls l) /\
  (count_status "completed" (l_dining_halls l) + count_status "failed" (l_dining_halls l)
   = Z.of_nat (List.length (l_dining_halls l)))%Z /\
  (items_total (l_dining_halls l) <= l_total_items_scraped l)%Z /\
  (count_status "failed" (l_dining_halls l) = 0%Z ->
   l_total_items_scraped l = items_total (l_dining_halls l)) /\
  ((0 <= mant (request_delay self))%Z -> count_status "failed" (l_dining_halls l) = 0%Z).

(** A delay that [time.sleep] takes: not negative, and at most a million
    seconds.  ([time.sleep] raises [OverflowError] on a delay too long for
    the timer of the platform: from about 9.22 billion seconds where it
    counts nanoseconds on 64 bits, from about 4.29 million seconds where it
    counts milliseconds on 32 bits.) *)
Definition sleep_accepts (secs : dec) : Prop :=
  (0 <= mant secs)%Z /\
  (mant secs <= 1000000 * 10 ^ Z.of_nat (scale secs))%Z.

(** The second world has the clock and the file of the first. *)
Definition same_clock_and_file (w w' : World) : Prop :=
  clock w' = clock w /\ clock_reads w' = clock_reads w /\
  disk_writable w' = disk_writable w /\ disk w' = disk w.

(** A computation that neither reads the clock nor writes the file. *)
Definition leaves_file {A} (m : M World A) : Prop :=
  forall w, same_clock_and_file w (snd (m w)).

Definition leaves_file_l {A} (m : M (World * Locals) A) : Prop :=
  forall w l, same_clock_and_file w (fst (snd (m (w, l)))).


(** ** Float arithmetic of the meal planner ([app1.py]) *)

(** The operations below are those of finite floats. *)

(** The decimal that is exactly the fraction [n / 2^k] given as [(n, 2^k)]. *)
Definition dec_of_binary (f : Z * Z) : dec :=
  let k := Z.log2 (snd f) in
  Dec (fst f * 5 ^ k) (Z.to_nat k).

(** The float nearest to the fraction [n/d] ([d > 0]). *)
Definition float_of_fraction (n d : Z) : dec :=
  if (n =? 0)%Z then Dec 0 0
  else if (n <? 0)%Z
       then let '(N, D) := PyNum.nearest_double_pos (- n) d in dec_of_binary ((- N)%Z, D)
       else dec_of_binary (PyNum.nearest_double_pos n d).

(** [x + y] on finite floats: the exact sum rounded to the nearest float. *)
Definition float_add (x y : dec) : dec :=
  let '(N1, D1) := PyNum.nearest_double x in
  let '(N2, D2) := PyNum.nearest_double y in
  float_of_fraction (N1 * D2 + N2 * D1) (D1 * D2).

(** [x - y] on floats. *)
Definition float_sub (x y : dec) : dec :=
  float_add x (Dec (- mant y) (scale y)).

(** [x > y] on floats. *)
Definition float_gtb (x y : dec) : bool :=
  let '(N1, D1) := PyNum.nearest_double x in
  let '(N2, D2) := PyNum.nearest_double y in
  (N2 * D1 <? N1 * D2)%Z.

(** [nutrition.get(key, 0)] for a nutrient stored as a float. *)
Definition get_number (v : option dec) : number :=
  match v with
  | Some d => NFloat d
  | None => NInt 0
  end.

(** [x + y] on numbers: an int is converted when the other is a float. *)
Definition py_add (x y : number) : number :=
  match x, y with
  | NInt a, NInt b => NInt (a + b)
  | NInt a, NFloat d => NFloat (float_add (Dec a 0) d)
  | NFloat d, NInt b => NFloat (float_add d (Dec b 0))
  | NFloat d, NFloat d' => NFloat (float_add d d')
  end.

(** [sum(xs)], which starts from the int 0. *)
Definition py_sum (xs : list number) : number := fold_left py_add xs (NInt 0).

(** [round(x, 1)]: an int is returned as it is. *)
Definition py_round1_number (x : number) : number :=
  match x with
  | NInt z => NInt z
  | NFloat d => NFloat (PyNum.py_round1 d)
  end.

(** [x > n] for a number and an int. *)
Definition number_gtb (x : number) (n : Z) : bool :=
  match x with
  | NInt z => (n <? z)%Z
  | NFloat d => float_gtb d (Dec n 0)
  end.

(** ** The meal planner ([app1.py]) *)

(** Values as [json.loads] and the request body give them. *)
#[warnings="-register-all"]
Inductive pyval : Type :=
| VNone
| VBool (b : bool)
| VInt (z : Z)
| VFloat (d : dec)
| VStr (s : string)
| VList (l : list pyval)
| VDict (d : list (string * pyval)).

(** The outcome of a call: a value, or an exception named by its class. *)
Inductive raised (A : Type) : Type :=
| Returned (a : A)
| Raised (exception : string).
Arguments Returned {A} a.
Arguments Raised {A} exception.

(** A [food_item] of [create_fallback_meal_plan]. *)
Record PlanItem : Type := {
  pi_item : string;
  pi_dining_hall : string;
  pi_calories : Z;
  pi_protein : number;
  pi_carbs : number;
  pi_fat : number
}.

Record MealLists : Type := {
  breakfast_items : list PlanItem;
  lunch_items : list PlanItem;
  dinner_items : list PlanItem
}.

(** The body of the innermost loop of [create_fallback_meal_plan]. *)
Definition add_plan_item (hall_name meal_period : string) (b : MealLists) (item : FoodItem)
  : MealLists :=
  let nutrition := nutrition_or_empty item in
  if (0 <? item_calories item)%Z then
    let food_item :=
      {| pi_item := item_name item;
         pi_dining_hall := hall_name;
         pi_calories := item_calories item;
         pi_protein := get_number (n_protein nutrition);
         pi_carbs := get_number (n_carbs nutrition);
         pi_fat := get_number (n_fat nutrition) |} in
    if PyStr.contains "breakfast" (PyStr.lower meal_period) then
      {| breakfast_items := breakfast_items b ++ [food_item];
         lunch_items := lunch_items b; dinner_items := dinner_items b |}
    else if PyStr.contains "lunch" (PyStr.lower meal_period) then
      {| breakfast_items := breakfast_items b;
         lunch_items := lunch_items b ++ [food_item]; dinner_items := dinner_items b |}
    else if PyStr.contains "dinner" (PyStr.lower meal_period) then
      {| breakfast_items := breakfast_items b;
         lunch_items := lunch_items b; dinner_items := dinner_items b ++ [food_item] |}
    else b
  else b.

(** [for item in items[:3]] *)
Definition add_plan_period (hall_name : string) (b : MealLists)
           (entry : string * MealPeriodData) : MealLists :=
  fold_left (add_plan_item hall_name (fst entry)) (firstn 3 (mp_items (snd entry))) b.

Definition add_plan_hall (b : MealLists) (hall : HallData) : MealLists :=
  fold_left (add_plan_period (hd_name hall)) (hd_meal_periods hall) b.

(** The three lists after the loops of [create_fallback_meal_plan]. *)
Definition fallback_lists (menu_data : Snapshot) : MealLists :=
  fold_left add_plan_hall (dining_halls menu_data)
            {| breakfast_items := []; lunch_items := []; dinner_items := [] |}.

Definition number_val (x : number) : pyval :=
  match x with
  | NInt z => VInt z
  | NFloat d => VFloat d
  end.

Definition plan_item_val (p : PlanItem) : pyval :=
  VDict [ ("item", VStr (pi_item p));
          ("dining_hall", VStr (pi_dining_hall p));
          ("calories", VInt (pi_calories p));
          ("protein", number_val (pi_protein p));
          ("carbs", number_val (pi_carbs p));
          ("fat", number_val (pi_fat p)) ].

Definition fallback_notes : string :=
  "Basic meal plan using available VT dining options. AI meal planning temporarily unavailable.".

(** [create_fallback_meal_plan]. *)
Definition create_fallback_meal_plan (menu_data : Snapshot) (target_calories : Z) : pyval :=
  let b := fallback_lists menu_data in
  let selected_breakfast := firstn 2 (breakfast_items b) in
  let selected_lunch := firstn 2 (lunch_items b) in
  let selected_dinner := firstn 2 (dinner_items b) in
  let all_items := selected_breakfast ++ selected_lunch ++ selected_dinner in
  let total_calories := fold_left Z.add (map pi_calories all_items) 0%Z in
  let total_protein := py_sum (map pi_protein all_items) in
  let total_carbs := py_sum (map pi_carbs all_items) in
  let total_fat := py_sum (map pi_fat all_items) in
  VDict
    [ ("meal_plan",
       VDict [ ("breakfast", VList (map plan_item_val selected_breakfast));
               ("lunch", VList (map plan_item_val selected_lunch));
               ("dinner", VList (map plan_item_val selected_dinner));
               ("snacks", VList []) ]);
      ("totals",
       VDict [ ("calories", VInt total_calories);
               ("protein", number_val (py_round1_number total_protein));
               ("carbs", number_val (py_round1_number total_carbs));
               ("fat", number_val (py_round1_number total_fat)) ]);
      ("notes", VStr fallback_notes) ].

(** [key in v]. *)
Definition py_in (key : string) (v : pyval) : raised bool :=
  match v with
  | VDict d => Returned (match dict_find d key with Some _ => true | None => false end)
  | VList l =>
      Returned (existsb (fun x => match x with VStr s => String.eqb s key | _ => false end) l)
  | VStr s => Returned (PyStr.contains key s)
  | _ => Raised "TypeError"
  end.

(** [all(key in v for key in keys)]. *)
Fixpoint all_in (keys : list string) (v : pyval) : raised bool :=
  match keys with
  | [] => Returned true
  | key :: rest =>
      match py_in key v with
      | Returned true => all_in rest v
      | Returned false => Returned false
      | Raised e => Raised e
      end
  end.

(** [v[key]] for a string key. *)
Definition py_getitem (v : pyval) (key : string) : raised pyval :=
  match v with
  | VDict d =>
      match dict_find d key with
      | Some x => Returned x
      | None => Raised "KeyError"
      end
  | _ => Raised "TypeError"
  end.

(** [validate_meal_plan_structure]. *)
Definition validate_meal_plan_structure (meal_plan : pyval) : raised bool :=
  match all_in ["meal_plan"; "totals"; "notes"] meal_plan with
  | Raised e => Raised e
  | Returned false => Returned false
  | Returned true =>
      match py_getitem meal_plan "meal_plan" with
      | Raised e => Raised e
      | Returned periods =>
          match all_in ["breakfast"; "lunch"; "dinner"] periods with
          | Raised e => Raised e
          | Returned false => Returned false
          | Returned true =>
              match py_getitem meal_plan "totals" with
              | Raised e => Raised e
              | Returned totals =>
                  match all_in ["calories"; "protein"; "carbs"; "fat"] totals with
                  | Raised e => Raised e
                  | Returned false => Returned false
                  | Returned true => Returned true
                  end
              end
          end
      end
  end.

(** [s[n:]] and [s[:n]] for [n >= 0]. *)
Fixpoint str_from (n : nat) (s : string) : string :=
  match n, s with
  | S n', String _ s' => str_from n' s'
  | _, _ => s
  end.

Fixpoint str_to (n : nat) (s : string) : string :=
  match n, s with
  | S n', String c s' => String c (str_to n' s')
  | _, _ => EmptyString
  end.

(** [s.endswith(suffix)]. *)
Definition endswith (suffix s : string) : bool :=
  (String.length suffix <=? String.length s) &&
  String.eqb (str_from (String.length s - String.length suffix) s) suffix.

(** The cleaning of the reply in [create_ai_meal_plan]: strip, drop a
    leading [```json], drop a trailing [```], strip. *)
Definition clean_ai_response (content : string) : string :=
  let ai_response := PyStr.strip content in
  let ai_response :=
    if PyStr.startswith "```json" ai_response then str_from 7 ai_response
    else ai_response in
  let ai_response :=
    if endswith "```" ai_response
    then str_to (String.length ai_response - 3) ai_response
    else ai_response in
  PyStr.strip ai_response.

(** What the chat completion call does: it raises, or answers with a
    message whose content is a text or [None]. *)
Inductive completion : Type :=
| ApiError
| NoContent
| Content (text : string).

Definition is_str (v : pyval) : bool :=
  match v with VStr _ => true | _ => false end.

Definition is_dict (v : pyval) : bool :=
  match v with VDict _ => true | _ => false end.

Section MealPlan.

Variable py_title : string -> string.
Variable str_of_int : Z -> string.
Variable str_of_float : dec -> string.
Variable json_loads : string -> option pyval.   (* [None] is [JSONDecodeError] *)

(** [create_ai_meal_plan]; [openai_client] says whether the client exists
    and [reply] is what the completion call does with the prompt. *)
Definition create_ai_meal_plan (openai_client : bool) (reply : completion)
           (menu_data : Snapshot) (calories : Z) (restrictions : list pyval)
           (macros : pyval) (preferences : string) : raised pyval :=
  if negb openai_client then Returned (create_fallback_meal_plan menu_data calories)
  else
    let available_foods :=
      format_foods_for_ai py_title str_of_int str_of_float menu_data in
    if negb (PyStr.truthy available_foods)
    then Returned (create_fallback_meal_plan menu_data calories)
    else if negb (forallb is_str restrictions)
    then Raised "TypeError"          (* [", ".join(restrictions)] *)
    else if negb (is_dict macros)
    then Raised "AttributeError"     (* [macros.get] *)
    else
      match reply with
      | ApiError | NoContent => Returned (create_fallback_meal_plan menu_data calories)
      | Content text =>
          match json_loads (clean_ai_response text) with
          | None => Returned (create_fallback_meal_plan menu_data calories)
          | Some meal_plan =>
              match validate_meal_plan_structure meal_plan with
              | Returned true => Returned meal_plan
              | Returned false | Raised _ =>
                  Returned (create_fallback_meal_plan menu_data calories)
              end
          end
      end.

End MealPlan.

(** ** Quick suggestions ([app1.py]) *)

Section QuickSuggestions.

Variable str_of_int : Z -> string.
Variable str_of_float : dec -> string.
(** The pictographs that open the lines (characters outside Latin-1). *)
Variable flexed_biceps : string.
Variable high_voltage : string.
Variable green_salad : string.
Variable cookie : string.
Variable fork_and_knife_with_plate : string.

(** [str(x)] of a number inside an f-string. *)
Definition show_number (x : number) : string :=
  match x with
  | NInt z => str_of_int z
  | NFloat d => str_of_float d
  end.

Definition workout_words : list string := ["protein"; "workout"; "gym"; "muscle"].
Definition hurry_words : list string := ["quick"; "fast"; "rush"; "hurry"].
Definition healthy_words : list string := ["healthy"; "light"; "diet"; "low cal"].
Definition sweet_words : list string := ["sweet"; "dessert"; "sugar"].
Definition fast_foods : list string := ["cereal"; "bagel"; "coffee"; "juice"; "muffin"].
Definition sweets : list string := ["cookie"; "cake"; "pie"; "ice cream"; "fruit"].

(** The body of the innermost loop of [generate_quick_suggestions]. *)
Definition suggest_item (message_lower hall_name : string) (suggestions : list string)
           (item : FoodItem) : list string :=
  let item_name_lower := PyStr.lower (item_name item) in
  let nutrition := nutrition_or_empty item in
  if any_in workout_words message_lower then
    if number_gtb (get_number (n_protein nutrition)) 15
    then suggestions ++
         [(flexed_biceps ++ " " ++ item_name item ++ " at " ++ hall_name ++ " - " ++
           show_number (get_number (n_protein nutrition)) ++ "g protein")%string]
    else suggestions
  else if any_in hurry_words message_lower then
    if any_in fast_foods item_name_lower
    then suggestions ++
         [(high_voltage ++ " Quick option: " ++ item_name item ++ " at " ++ hall_name)%string]
    else suggestions
  else if any_in healthy_words message_lower then
    if (item_calories item <? 300)%Z && (50 <? item_calories item)%Z
    then suggestions ++
         [(green_salad ++ " Healthy: " ++ item_name item ++ " at " ++ hall_name ++ " - " ++
           str_of_int (item_calories item) ++ " cal")%string]
    else suggestions
  else if any_in sweet_words message_lower then
    if any_in sweets item_name_lower
    then suggestions ++
         [(cookie ++ " Sweet treat: " ++ item_name item ++ " at " ++ hall_name)%string]
    else suggestions
  else suggestions.

Definition suggest_period (message_lower hall_name : string) (suggestions : list string)
           (entry : string * MealPeriodData) : list string :=
  fold_left (suggest_item message_lower hall_name) (mp_items (snd entry)) suggestions.

Definition suggest_hall (message_lower : string) (suggestions : list string)
           (hall : HallData) : list string :=
  fold_left (suggest_period message_lower (hd_name hall)) (hd_meal_periods hall) suggestions.

(** The suggestions collected by the loops, before duplicates are removed. *)
Definition collected_suggestions (message : string) (menu_data : Snapshot) : list string :=
  fold_left (suggest_hall (PyStr.lower message)) (dining_halls menu_data) [].

Definition default_suggestion : string :=
  (fork_and_knife_with_plate ++
   " Check out today's specials at your nearest VT dining hall!")%string.

(** [generate_quick_suggestions]. *)
Definition generate_quick_suggestions (message : string) (menu_data : Snapshot)
  : list string :=
  let suggestions := firstn 5 (dict_fromkeys (collected_suggestions message menu_data)) in
  match suggestions with
  | [] => [default_suggestion]
  | _ => suggestions
  end.

End QuickSuggestions.

(** ** The rate limiter ([app1.py]) *)

(** The [wrapper] of [rate_limit]: whether the wrapped view is called, and
    the [calls] dictionary afterwards. *)
Definition rate_limit_wrapper (max_requests_per_minute : Z) (now : dec) (client_ip : string)
           (calls : list (string * list dec)) : bool * list (string * list dec) :=
  let minute_ago := float_sub now (Dec 60 0) in
  let calls :=
    dict_set calls client_ip
             (filter (fun call_time => float_gtb call_time minute_ago)
                     (dict_get calls client_ip [])) in
  if (max_requests_per_minute <=? Z.of_nat (List.length (dict_get calls client_ip [])))%Z
  then (false, calls)
  else (true, dict_set calls client_ip (dict_get calls client_ip [] ++ [now])).

(** A sequence of requests, each with its time and client address; the
    answers say which ones reach the view. *)
Fixpoint rate_limit_run (max_requests_per_minute : Z) (requests : list (dec * string))
         (calls : list (string * list dec)) : list bool * list (string * list dec) :=
  match requests with
  | [] => ([], calls)
  | (now, client_ip) :: rest =>
      let '(served, calls') := rate_limit_wrapper max_requests_per_minute now client_ip calls in
      let '(answers, calls'') := rate_limit_run max_requests_per_minute rest calls' in
      (served :: answers, calls'')
  end.

(** ** Refreshing the menu ([app1.py]) *)

(** The globals [current_menu_data] and [last_update]; the empty dictionary
    the module starts with is [None]. *)
Record AppState : Type := {
  current_menu_data : option Snapshot;
  last_update : option Z
}.

(** [update_menu_data], for the module's [scraper]. *)
Definition update_menu_data (scraper : Scraper) : M (World * AppState) unit :=
  try_except
    (snapshot <- in_world (scrape_all_data scraper) ;;
     set_local (fun a => {| current_menu_data := Some snapshot;
                            last_update := last_update a |}) ;;;
     now <- in_world datetime_now ;;
     set_local (fun a => {| current_menu_data := current_menu_data a;
                            last_update := Some now |}))
    is_exception
    (fun _ => ret tt).

(** ** Vocabulary for the meal planner *)

Inductive meal : Type := Breakfast | Lunch | Dinner.

Definition meal_eqb (a b : meal) : bool :=
  match a, b with
  | Breakfast, Breakfast | Lunch, Lunch | Dinner, Dinner => true
  | _, _ => false
  end.

(** The list of the fallback plan a meal period feeds, by its name. *)
Definition meal_of_period (meal_period : string) : option meal :=
  if PyStr.contains "breakfast" (PyStr.lower meal_period) then Some Breakfast
  else if PyStr.contains "lunch" (PyStr.lower meal_period) then Some Lunch
  else if PyStr.contains "dinner" (PyStr.lower meal_period) then Some Dinner
  else None.

(** The first three items of every meal period of every hall, with the
    hall name and the meal period, in the order of the snapshot. *)
Definition plan_entries (menu_data : Snapshot) : list (string * string * FoodItem) :=
  flat_map
    (fun hall =>
       flat_map
         (fun entry : string * MealPeriodData =>
            map (fun item => (hd_name hall, fst entry, item))
                (firstn 3 (mp_items (snd entry))))
         (hd_meal_periods hall))
    (dining_halls menu_data).

Definition plan_item_of (e : string * string * FoodItem) : PlanItem :=
  let '(hall_name, _, item) := e in
  {| pi_item := item_name item;
     pi_dining_hall := hall_name;
     pi_calories := item_calories item;
     pi_protein := get_number (n_protein (nutrition_or_empty item));
     pi_carbs := get_number (n_carbs (nutrition_or_empty item));
     pi_fat := get_number (n_fat (nutrition_or_empty item)) |}.

(** Whether an entry goes to the list of meal [m]. *)
Definition feeds (m : meal) (e : string * string * FoodItem) : bool :=
  (0 <? item_calories (snd e))%Z &&
  match meal_of_period (snd (fst e)) with
  | Some m' => meal_eqb m m'
  | None => false
  end.

Definition meal_items (m : meal) (entries : list (string * string * FoodItem))
  : list PlanItem :=
  map plan_item_of (filter (feeds m) entries).

(** The lists after the entries [entries] have been visited. *)
Definition lists_plus (b : MealLists) (entries : list (string * string * FoodItem))
  : MealLists :=
  {| breakfast_items := breakfast_items b ++ meal_items Breakfast entries;
     lunch_items := lunch_items b ++ meal_items Lunch entries;
     dinner_items := dinner_items b ++ meal_items Dinner entries |}.

Definition sum_calories (items : list PlanItem) : Z :=
  fold_right (fun p acc => (pi_calories p + acc)%Z) 0%Z items.

(** ** The quick test of the scraper *)

(** [bool(nutrition)] for the dictionary of a nutrition record: whether it
    has a key. *)
Definition nutrition_truthy (n : Nutrition) : bool :=
  match n_calories n, n_protein n, n_carbs n, n_fat n, n_fiber n, n_sodium n, n_sugars n,
        n_allergens n, n_dietary_tags n, n_serving_size n with
  | None, None, None, None, None, None, None, None, None, None => false
  | _, _, _, _, _, _, _, _, _, _ => true
  end.

(** [dining_halls[0]], raising [IndexError] on an empty list. *)
Definition first_hall (dining_halls : list Hall) : M World Hall :=
  match dining_halls with
  | hall :: _ => ret hall
  | [] => raise {| exn_cls := IndexError; exn_msg := "list index out of range" |}
  end.

(** [VTDiningScraper.quick_test]. *)
Definition quick_test (self : Scraper) : M World bool :=
  try_except
    (test_hall <- first_hall (get_fallback_dining_halls self) ;;
     response <- make_request self (hall_url test_hall) None ;;
     match response with
     | None => ret false
     | Some _ =>
         meal_data <- get_meal_periods_and_categories self (hall_url test_hall) ;;
         match meal_data with
         | (_, test_item :: _) :: _ =>
             nutrition <- get_nutrition_from_item_page self (item_url test_item) ;;
             if nutrition_truthy nutrition then ret true else ret false
         | _ => ret false
         end
     end)
    is_exception
    (fun _ => ret false).

(** The URL of the first fallback hall. *)
Definition test_hall_url (self : Scraper) : string :=
  (base_url self ++ "/menus/MenuAtLocation.aspx?locationNum=15&naFlag=1")%string.

(** ** The protected refresh ([app1.py]) *)

(** Reading the local variables. *)
Definition get_local {L} : M (World * L) L := fun s => (Ok (snd s), s).

(** [refresh_data]: [env] is the process environment and [api_key] the
    [X-API-Key] header, if there is one.  The answer is the status code with
    the [updated_at] field of the body. *)
Definition refresh_data (scraper : Scraper) (env : list (string * string))
           (api_key : option string) : M (World * AppState) (Z * option Z) :=
  let expected_key := dict_get env "ADMIN_API_KEY" "default-admin-key-change-me" in
  if match api_key with
     | Some key => negb (String.eqb key expected_key)
     | None => true
     end
  then ret (401%Z, None)
  else
    try_except
      (update_menu_data scraper ;;;
       app <- get_local ;;
       ret (200%Z, last_update app))
      is_exception
      (fun _ => ret (500%Z, None)).

(** * Properties *)

(** ** make_request *)

Lemma backoff_shift self first j :
  Dec (retry_delay self * (first + 1)) 0 :: backoff self (first + 1) j
  = backoff self first (S j).
Proof.
  unfold backoff. cbn [seq map]. f_equal.
  rewrite <- (seq_shift j 1), map_map. apply map_ext. intros i.
  f_equal. f_equal. lia.
Qed.


Lemma world_after_nil w : world_after w [] [] = w.
Proof. destruct w. unfold world_after. cbn. now rewrite !app_nil_r. Qed.

Lemma world_after_after w a b c d :
  world_after (world_after w a b) c d = world_after w (a ++ c) (b ++ d).
Proof. unfold world_after. cbn. now rewrite !app_assoc. Qed.

Lemma one_attempt_eq self url retries attempt w :
  (0 <= retry_delay self)%Z -> (0 <= attempt)%Z ->
  one_attempt self url retries attempt w =
  match web w (List.length (requested w)) url with
  | GetResponse r =>
      if get_fails (GetResponse r)
      then if (attempt <? retries)%Z
           then (Ok None, world_after w [url] [Dec (retry_delay self * (attempt + 1)) 0])
           else (Ok (Some None), world_after w [url] [])
      else (Ok (Some (Some r)), world_after w [url] [])
  | GetRaises _ =>
      if (attempt <? retries)%Z
      then (Ok None, world_after w [url] [Dec (retry_delay self * (attempt + 1)) 0])
      else (Ok (Some None), world_after w [url] [])
  end.
Proof.
  intros Hd Ha.
  assert (Hm : (retry_delay self * (attempt + 1) <? 0)%Z = false).
  { apply Z.ltb_ge. nia. }
  unfold one_attempt, try_except, bind, session_get, raise_for_status, sleep, world_after.
  destruct (web w (List.length (requested w)) url) as [r|msg]; cbn.
  - destruct ((400 <=? status_code r)%Z && (status_code r <? 600)%Z); cbn.
    + destruct (attempt <? retries)%Z; cbn.
      * rewrite Hm. cbn. now rewrite ?app_nil_r.
      * now rewrite ?app_nil_r.
    + now rewrite ?app_nil_r.
  - destruct (attempt <? retries)%Z; cbn.
    + rewrite Hm. cbn. now rewrite ?app_nil_r.
    + now rewrite ?app_nil_r.
Qed.

Lemma attempts_spec self url retries :
  (0 <= retry_delay self)%Z ->
  forall todo attempt w,
    (0 <= attempt)%Z -> (attempt + Z.of_nat todo = retries + 1)%Z ->
    exists k resp,
      attempts self url retries todo attempt w
      = (Ok resp, world_after w (repeat url k) (backoff self attempt (pred k))) /\
      k <= todo /\ (0 < todo -> 1 <= k) /\
      (forall i, i < pred k ->
                 get_fails (web w (List.length (requested w) + i) url) = true) /\
      match resp with
      | Some r =>
          1 <= k /\
          web w (List.length (requested w) + pred k) url = GetResponse r /\
          get_fails (GetResponse r) = false
      | None =>
          k = todo /\
          forall i, i < k -> get_fails (web w (List.length (requested w) + i) url) = true
      end.
Proof.
  intros Hd. induction todo as [|todo IH]; intros attempt w Ha Hinv.
  - exists 0, None. cbn. rewrite world_after_nil.
    repeat split; try lia.
  - cbn [attempts]. unfold bind at 1. rewrite (one_attempt_eq _ _ _ _ _ Hd Ha).
    assert (Hlt : (attempt <? retries)%Z = match todo with O => false | S _ => true end).
    { destruct todo; [apply Z.ltb_ge | apply Z.ltb_lt]; lia. }
    assert (Hretry :
      get_fails (web w (List.length (requested w)) url) = true ->
      exists k resp,
        (if (attempt <? retries)%Z
         then attempts self url retries todo (attempt + 1)
                (world_after w [url] [Dec (retry_delay self * (attempt + 1)) 0])
         else (Ok None, world_after w [url] []))
        = (Ok resp, world_after w (repeat url k) (backoff self attempt (pred k))) /\
        k <= S todo /\ (0 < S todo -> 1 <= k) /\
        (forall i, i < pred k ->
                   get_fails (web w (List.length (requested w) + i) url) = true) /\
        match resp with
        | Some r =>
            1 <= k /\
            web w (List.length (requested w) + pred k) url = GetResponse r /\
            get_fails (GetResponse r) = false
        | None =>
            k = S todo /\
            forall i, i < k -> get_fails (web w (List.length (requested w) + i) url) = true
        end).
    { intros Hf. rewrite Hlt. destruct todo as [|todo'].
      - exists 1, None. cbn. repeat split; try lia.
        intros i Hi. replace i with 0 by lia. now rewrite Nat.add_0_r.
      - destruct (IH (attempt + 1)%Z
                     (world_after w [url] [Dec (retry_delay self * (attempt + 1)) 0]))
          as (k & resp & Heq & Hk & Hpos & Hfail & Hres); try lia.
        exists (S k), resp.
        assert (Hk1 : 1 <= k) by (apply Hpos; lia).
        assert (Hlen : List.length (requested (world_after w [url]
                         [Dec (retry_delay self * (attempt + 1)) 0]))
                       = S (List.length (requested w))).
        { cbn. rewrite length_app. cbn. lia. }
        rewrite Hlen in *. cbn [web world_after] in *.
        rewrite Heq, world_after_after. cbn [app repeat pred].
        replace (Dec (retry_delay self * (attempt + 1)) 0
                 :: backoff self (attempt + 1) (pred k))
          with (backoff self attempt k).
        2:{ rewrite backoff_shift. f_equal. lia. }
        repeat split; try lia.
        + intros i Hi. destruct i as [|i].
          * now rewrite Nat.add_0_r.
          * replace (List.length (requested w) + S i)
              with (S (List.length (requested w)) + i) by lia.
            apply Hfail. lia.
        + destruct resp as [r|].
          * destruct Hres as (_ & Hw & Hg). split; [lia|]. split; [|exact Hg].
            rewrite <- Hw. f_equal. lia.
          * destruct Hres as [-> Hall]. split; [reflexivity|].
            intros i Hi. destruct i as [|i].
            -- now rewrite Nat.add_0_r.
            -- replace (List.length (requested w) + S i)
                 with (S (List.length (requested w)) + i) by lia.
               apply Hall. lia. }
    destruct (web w (List.length (requested w)) url) as [r|msg] eqn:Ho.
    + destruct (get_fails (GetResponse r)) eqn:Hg.
      * destruct Hretry as (k & resp & Heq & H1); [reflexivity|].
        exists k, resp. split; [|exact H1].
        rewrite <- Heq. destruct (attempt <? retries)%Z; reflexivity.
      * exists 1, (Some r). cbn. repeat split; try lia.
        all: try now rewrite Nat.add_0_r.
        exact Hg.
    + destruct Hretry as (k & resp & Heq & H1); [reflexivity|].
      exists k, resp. split; [|exact H1].
      rewrite <- Heq. destruct (attempt <? retries)%Z; reflexivity.
Qed.

(** C7: [make_request] makes at most [retries + 1] attempts (four with the
    default of three retries), sleeps [retry_delay * attempt_number] before
    each retry, returns [None] when every attempt fails, and never raises. *)
Theorem make_request_retries self url retries w :
  (0 <= retry_delay self)%Z ->
  let n := match retries with None => max_retries self | Some r => r end in
  exists k resp,
    make_request self url retries w
    = (Ok resp, world_after w (repeat url k) (backoff self 0 (pred k))) /\
    k <= Z.to_nat (n + 1) /\
    (retries = None -> max_retries self = 3%Z -> k <= 4) /\
    (forall i, i < pred k ->
               get_fails (web w (List.length (requested w) + i) url) = true) /\
    match resp with
    | Some r =>
        1 <= k /\
        web w (List.length (requested w) + pred k) url = GetResponse r /\
        get_fails (GetResponse r) = false
    | None =>
        k = Z.to_nat (n + 1) /\
        forall i, i < k -> get_fails (web w (List.length (requested w) + i) url) = true
    end /\
    ((forall i, i < Z.to_nat (n + 1) ->
                get_fails (web w (List.length (requested w) + i) url) = true) ->
     resp = None).
Proof.
  intros Hd n. unfold make_request. fold n.
  destruct (Z_lt_ge_dec (n + 1) 0) as [Hneg|Hpos].
  - replace (Z.to_nat (n + 1)) with 0 by lia.
    exists 0, None. cbn. rewrite world_after_nil.
    repeat split; try lia.
  - destruct (attempts_spec self url n Hd (Z.to_nat (n + 1)) 0%Z w)
      as (k & resp & Heq & Hk & Hk1 & Hfail & Hres); try lia.
    exists k, resp. rewrite Heq.
    split; [reflexivity|]. split; [exact Hk|].
    split. { intros -> H3. subst n. rewrite H3 in Hk. cbn in Hk. lia. }
    split; [exact Hfail|].
    split; [exact Hres|].
    intros Hall. destruct resp as [r|]; [|reflexivity].
    destruct Hres as (H1 & Hw & Hg).
    rewrite <- Hw, Hall in Hg; [discriminate|lia].
Qed.


(** C7 at the scraper as constructed, against a site that never answers: four
    attempts, sleeps of 2, 4 and 6 seconds, and [None]. *)
Lemma make_request_retries_witness :
  exists k resp,
    make_request Demo.scraper "https://foodpro.students.vt.edu/menus/" None Demo.dead_world
    = (Ok resp,
       world_after Demo.dead_world
         (repeat "https://foodpro.students.vt.edu/menus/" k)
         (backoff Demo.scraper 0 (pred k))) /\ k <= 4 /\ resp = None.
Proof.
  destruct (make_request_retries Demo.scraper "https://foodpro.students.vt.edu/menus/"
              None Demo.dead_world)
    as (k & resp & Heq & Hk & _ & _ & _ & Hnone).
  - cbn. lia.
  - exists k, resp. split; [exact Heq|]. split; [exact Hk|].
    apply Hnone. intros i _. reflexivity.
Defined.

Example make_request_dead_site :
  fst (make_request Demo.scraper "u" None Demo.dead_world) = Ok None /\
  slept (snd (make_request Demo.scraper "u" None Demo.dead_world))
  = [Dec 2 0; Dec 4 0; Dec 6 0] /\
  requested (snd (make_request Demo.scraper "u" None Demo.dead_world))
  = ["u"; "u"; "u"; "u"].
Proof. repeat split. Qed.

(** ** Rules for [triple] *)

Lemma triple_ret {A} (a : A) (P : Locals -> Prop) Q E :
  (forall l, P l -> Q a l) -> triple P (ret a) Q E.
Proof. intros H w l Hp. cbn. auto. Qed.

Lemma triple_bind {A B} (m : M (World * Locals) A) (f : A -> M (World * Locals) B)
      P Q1 Q E :
  triple P m Q1 E -> (forall a, triple (Q1 a) (f a) Q E) -> triple P (bind m f) Q E.
Proof.
  intros Hm Hf w l Hp. unfold bind. specialize (Hm w l Hp).
  destruct (m (w, l)) as [[a|e] [w' l']]; [|exact Hm].
  apply (Hf a w' l' Hm).
Qed.

Lemma triple_in_world {A} (m : M World A) (P : Locals -> Prop) Q E :
  (forall w l, P l ->
     match m w with (Ok a, _) => Q a l | (Raise e, _) => E e l end) ->
  triple P (in_world m) Q E.
Proof.
  intros Hm w l Hp. unfold in_world. specialize (Hm w l Hp).
  destruct (m w) as [[a|e] w']; auto.
Qed.

Lemma triple_set_local (f : Locals -> Locals) (P : Locals -> Prop) Q E :
  (forall l, P l -> Q tt (f l)) -> triple P (set_local f) Q E.
Proof. intros H w l Hp. cbn. auto. Qed.

Lemma triple_try {A} (body : M (World * Locals) A) handler P Q E1 E :
  triple P body Q E1 ->
  (forall e, triple (E1 e) (handler e) Q E) ->
  triple P (try_except body is_exception handler) Q E.
Proof.
  intros Hb Hh w l Hp. unfold try_except. specialize (Hb w l Hp).
  destruct (body (w, l)) as [[a|e] [w' l']]; [exact Hb|].
  cbn. apply (Hh e w' l' Hb).
Qed.

Lemma triple_weaken {A} (m : M (World * Locals) A) (P P' : Locals -> Prop)
      (Q Q' : A -> Locals -> Prop) (E E' : exn -> Locals -> Prop) :
  triple P m Q E ->
  (forall l, P' l -> P l) ->
  (forall a l, Q a l -> Q' a l) ->
  (forall e l, E e l -> E' e l) ->
  triple P' m Q' E'.
Proof.
  intros Hm Hp Hq He w l Hp'. specialize (Hm w l (Hp l Hp')).
  destruct (m (w, l)) as [[a|e] [w' l']]; auto.
Qed.

(** ** The page fetchers never raise *)

Lemma try_all_total {S A} (body : M S A) (a0 : A) s :
  exists a s', try_except body is_exception (fun _ => ret a0) s = (Ok a, s').
Proof.
  unfold try_except, is_exception, ret. destruct (body s) as [[a|e] s']; eauto.
Qed.

Lemma get_nutrition_total self url w :
  exists n w', get_nutrition_from_item_page self url w = (Ok n, w').
Proof. apply try_all_total. Qed.

Lemma get_meal_periods_total self url w :
  exists md w', get_meal_periods_and_categories self url w = (Ok md, w').
Proof. apply try_all_total. Qed.

Lemma discover_total self w :
  exists halls w', discover_dining_halls self w = (Ok halls, w').
Proof. apply try_all_total. Qed.

Lemma sleep_raises d w :
  match sleep d w with
  | (Ok _, _) => True
  | (Raise e, _) => e = sleep_error
  end.
Proof. unfold sleep. destruct (mant d <? 0)%Z; cbn; auto. Qed.

(** ** The loops of [scrape_all_data] *)

Lemma nutrition_loop_triple self dh hd :
  forall limited acc count,
    triple (at_hall dh hd)
           (nutrition_loop self limited acc count)
           (fun r l => at_hall dh hd l /\
                       exists new, fst r = acc ++ new /\ Forall2 attached limited new)
           (fun e l => at_hall dh hd l /\ e = sleep_error).
Proof.
  induction limited as [|item rest IH]; intros acc count.
  - cbn [nutrition_loop]. apply triple_ret. intros l Hl. split; [exact Hl|].
    exists []. cbn. rewrite app_nil_r. split; [reflexivity|constructor].
  - cbn [nutrition_loop].
    apply triple_bind with (Q1 := fun _ l => at_hall dh hd l).
    { apply triple_in_world. intros w l Hl.
      destruct (get_nutrition_total self (item_url item) w) as (n & w' & ->).
      exact Hl. }
    intros nutrition.
    apply triple_bind with (Q1 := fun _ l => at_hall dh hd l).
    { apply triple_set_local. intros l Hl. exact Hl. }
    intros _.
    apply triple_bind with (Q1 := fun _ l => at_hall dh hd l).
    { apply triple_in_world. intros w l Hl.
      pose proof (sleep_raises (request_delay self) w) as Hs.
      destruct (sleep (request_delay self) w) as [[a|e] w']; auto. }
    intros _.
    eapply triple_weaken; [apply IH| | |].
    + intros l Hl. exact Hl.
    + intros [iwn c] l [Hl (new & Hnew & HF2)]. split; [exact Hl|].
      exists (with_nutrition item nutrition :: new). cbn in *.
      rewrite Hnew, <- app_assoc. split; [reflexivity|].
      constructor; [|exact HF2]. now exists nutrition.
    + intros e l H. exact H.
Qed.

Lemma triple_pure {A} (m : M (World * Locals) A) (P : Locals -> Prop) (phi : Prop) Q E :
  (phi -> triple P m Q E) -> triple (fun l => P l /\ phi) m Q E.
Proof. intros H w l [Hp Hphi]. apply (H Hphi w l Hp). Qed.

Lemma dict_set_In {A} (d : list (string * A)) k v p x :
  In (p, x) (dict_set d k v) -> (p, x) = (k, v) \/ In (p, x) d.
Proof.
  induction d as [|[k' v'] d IH]; cbn.
  - intros [H|[]]. left. now symmetry.
  - destruct (String.eqb k k') eqn:Hk; cbn.
    + apply String.eqb_eq in Hk. subst k'. intros [H|H]; auto.
    + intros [H|H]; auto. destruct (IH H); auto.
Qed.

Lemma extends_refl self md hd : extends self md hd hd.
Proof. unfold extends. repeat split; auto. Qed.

Lemma period_loop_triple self md dh hd0 :
  forall rest count hd,
    incl rest md -> extends self md hd0 hd ->
    triple (at_hall dh hd)
           (period_loop self rest count)
           (fun _ l => l_dining_halls l = dh /\ extends self md hd0 (l_hall_data l))
           (fun e l => l_dining_halls l = dh /\ extends self md hd0 (l_hall_data l) /\
                       e = sleep_error).
Proof.
  induction rest as [|[meal_period items] rest IH]; intros count hd Hincl Hext.
  - cbn [period_loop]. apply triple_ret. intros l [Hdh Hhd]. subst. auto.
  - cbn [period_loop].
    apply triple_bind
      with (Q1 := fun r l =>
                    at_hall dh hd l /\
                    Forall2 attached (slice_to items (max_items_per_meal self)) (fst r)).
    { eapply triple_weaken; [apply (nutrition_loop_triple self dh hd)| | |].
      - auto.
      - intros r l [Hl (new & Hnew & HF2)]. split; [exact Hl|].
        cbn in Hnew. now rewrite Hnew.
      - intros e l [[Hdh Hhd] He]. subst. auto. }
    intros r. apply triple_pure. intros HF2.
    set (data := {| mp_items := fst r;
                    mp_total_available := Z.of_nat (List.length items);
                    mp_scraped_count := Z.of_nat (List.length (fst r)) |}).
    apply triple_bind
      with (Q1 := fun _ l => at_hall dh (put_meal_period meal_period data hd) l).
    { apply triple_set_local. intros l [Hdh Hhd]. split; cbn; [exact Hdh|now rewrite Hhd]. }
    intros _. apply IH.
    + intros x Hx. apply Hincl. now right.
    + destruct Hext as (H1 & H2 & H3 & H4 & H5 & H6).
      unfold extends. cbn. repeat split; auto.
      intros p d Hin. apply dict_set_In in Hin. destruct Hin as [Heq|Hin]; [|auto].
      inversion Heq; subst p d. right.
      exists items. repeat split; auto.
      apply Hincl. now left.
Qed.

Lemma menu_in_run self url w :
  exists w', get_meal_periods_and_categories self url w = (Ok (menu_in self url w), w').
Proof.
  unfold menu_in. destruct (get_meal_periods_total self url w) as (md & w' & ->).
  now exists w'.
Qed.

(** The [try] block of a hall, started in the world [w]: the periods it
    stores come from the menu extracted in [w]. *)
Lemma hall_try_run self hall dh w l :
  at_hall dh (pending_hall hall) l ->
  match hall_try self hall (w, l) with
  | (Ok _, (_, l')) =>
      l_dining_halls l' = dh /\
      exists hd c,
        extends self (menu_in self (hall_url hall) w) (pending_hall hall) hd /\
        l_hall_data l' = mark_completed c hd
  | (Raise e, (_, l')) =>
      l_dining_halls l' = dh /\ e = sleep_error /\
      extends self (menu_in self (hall_url hall) w) (pending_hall hall) (l_hall_data l')
  end.
Proof.
  intros Hl. unfold hall_try, bind at 1, in_world.
  destruct (menu_in_run self (hall_url hall) w) as (w1 & Hrun). rewrite Hrun.
  set (md := menu_in self (hall_url hall) w).
  pose proof (period_loop_triple self md dh (pending_hall hall) md 0%Z (pending_hall hall)
                (incl_refl md) (extends_refl self md (pending_hall hall)) w1 l Hl) as Hloop.
  unfold bind. destruct (period_loop self md 0 (w1, l)) as [[c|e] [w2 l2]].
  - cbn. destruct Hloop as [Hdh Hext]. split; [exact Hdh|].
    exists (l_hall_data l2), c. split; [exact Hext|reflexivity].
  - destruct Hloop as (H1 & H2 & H3). auto.
Qed.

Lemma extends_pending self md hall hd :
  extends self md (pending_hall hall) hd ->
  record_of hall hd /\ hd_scrape_status hd = "pending" /\ hd_error hd = None /\
  forall p d, In (p, d) (hd_meal_periods hd) -> period_from self md p d.
Proof.
  intros (H1 & H2 & H3 & H4 & H5 & H6). cbn in *.
  repeat split; auto.
  intros p d Hin. destruct (H6 p d Hin) as [[]|H]; exact H.
Qed.

(** One pass through the loop over the halls, started in the world [w]:
    it returns, and the record it appends is that of the hall, finished, with
    meal periods that come from the menu extracted in [w]. *)
Lemma scrape_hall_run self hall w l :
  exists w' l' h,
    scrape_hall self hall (w, l) = (Ok tt, (w', l')) /\
    l_dining_halls l' = l_dining_halls l ++ [h] /\
    record_of hall h /\
    hall_periods_from self h w /\
    match fst (hall_try self hall (w, set_hall_data (fun _ => pending_hall hall) l)) with
    | Ok _ => hd_scrape_status h = "completed" /\ hd_error h = None
    | Raise e =>
        hd_scrape_status h = "failed" /\ hd_error h = Some (exn_msg e) /\
        exn_msg e <> EmptyString
    end.
Proof.
  pose proof (hall_try_run self hall (l_dining_halls l) w
                (set_hall_data (fun _ => pending_hall hall) l)
                (conj eq_refl eq_refl)) as Htry.
  unfold scrape_hall, bind at 1. cbn [set_local fst snd].
  unfold bind at 1, try_except.
  destruct (hall_try self hall (w, set_hall_data (fun _ => pending_hall hall) l))
    as [[[]|e] [w' l']]; cbn [fst].
  - destruct Htry as (Hdh & hd & c & Hext & Hhd).
    apply extends_pending in Hext. destruct Hext as (Hrec & _ & He & Hper).
    cbn. do 3 eexists. split; [reflexivity|]. cbn. rewrite Hdh, Hhd. cbn.
    split; [reflexivity|]. split; [exact Hrec|]. split.
    + unfold hall_periods_from. cbn. destruct Hrec as (_ & _ & ->). exact Hper.
    + split; [reflexivity|exact He].
  - destruct Htry as (Hdh & -> & Hext).
    apply extends_pending in Hext. destruct Hext as (Hrec & _ & _ & Hper).
    cbn. do 3 eexists. split; [reflexivity|]. cbn. rewrite Hdh.
    split; [reflexivity|]. split; [exact Hrec|]. split.
    + unfold hall_periods_from. cbn. destruct Hrec as (_ & _ & ->). exact Hper.
    + split; [reflexivity|]. split; [reflexivity|discriminate].
Qed.

Lemma scrape_hall_status self hall w l h :
  match fst (hall_try self hall (w, set_hall_data (fun _ => pending_hall hall) l)) with
  | Ok _ => hd_scrape_status h = "completed" /\ hd_error h = None
  | Raise e =>
      hd_scrape_status h = "failed" /\ hd_error h = Some (exn_msg e) /\
      exn_msg e <> EmptyString
  end -> status_ok h.
Proof.
  destruct (fst (hall_try self hall (w, set_hall_data (fun _ => pending_hall hall) l)))
    as [[]|e].
  - intros [H1 H2]. left. auto.
  - intros (H1 & H2 & H3). right. split; [exact H1|]. eauto.
Qed.

Lemma scrape_hall_triple self hall dh :
  triple (fun l => l_dining_halls l = dh)
         (scrape_hall self hall)
         (fun _ l =>
            exists h, l_dining_halls l = dh ++ [h] /\ record_of hall h /\ status_ok h)
         (fun _ _ => False).
Proof.
  intros w l Hdh.
  destruct (scrape_hall_run self hall w l) as (w' & l' & h & Hrun & Hl & Hrec & _ & Hst).
  rewrite Hrun. exists h. rewrite Hl, Hdh. split; [reflexivity|]. split; [exact Hrec|].
  eapply scrape_hall_status, Hst.
Qed.

(** The loop over the halls, started in the state [(w, l)]: one record per
    hall, in order, each with the meal periods of the menu extracted in the
    world in which its hall was scraped. *)
Lemma hall_loop_run self :
  forall halls w l,
    exists w' l' recs,
      hall_loop self halls (w, l) = (Ok tt, (w', l')) /\
      l_dining_halls l' = l_dining_halls l ++ recs /\
      Forall2 (fun hall h => record_of hall h /\ status_ok h) halls recs /\
      Forall2 (hall_periods_from self) recs (hall_worlds self halls (w, l)).
Proof.
  induction halls as [|hall rest IH]; intros w l.
  - exists w, l, []. cbn. rewrite app_nil_r. repeat split; constructor.
  - cbn [hall_loop hall_worlds fst]. unfold bind.
    destruct (scrape_hall_run self hall w l) as (w1 & l1 & h & Hrun & Hl & Hrec & Hper & Hst).
    rewrite Hrun. cbn [snd].
    destruct (IH w1 l1) as (w' & l' & recs & Hloop & Hl' & HF & HP).
    exists w', l', (h :: recs). split; [exact Hloop|].
    split; [rewrite Hl', Hl, <- app_assoc; reflexivity|].
    split; constructor; try assumption.
    split; [exact Hrec|]. eapply scrape_hall_status, Hst.
Qed.

(** What [scrape_all_data] returns, for every scraper and every world. *)
Lemma scrape_all_data_spec self w :
  exists halls w1 snap w',
    discover_dining_halls self (snd (datetime_now w)) = (Ok halls, w1) /\
    scrape_all_data self w = (Ok snap, w') /\
    config_max_items_per_meal snap = max_items_per_meal self /\
    Forall2 (fun hall h => record_of hall h /\ status_ok h) halls (dining_halls snap) /\
    Forall2 (hall_periods_from self) (dining_halls snap)
            (hall_worlds self halls (w1, initial_locals)).
Proof.
  unfold scrape_all_data, bind at 1.
  destruct (datetime_now w) as [[started|e0] wa] eqn:Hnow; [|discriminate Hnow].
  cbn [snd].
  destruct (discover_total self wa) as (halls & w1 & Hd).
  exists halls, w1. unfold bind at 1. rewrite Hd.
  unfold bind at 1, with_locals.
  destruct (hall_loop_run self halls w1 initial_locals)
    as (w2 & l2 & recs & Hloop & Hrecs & HF2 & HP).
  rewrite Hloop. cbn in Hrecs.
  unfold bind at 1.
  destruct (datetime_now w2) as [[finished|e1] w3] eqn:Hnow2; [|discriminate Hnow2].
  cbn [snd].
  unfold bind, try_except, save_json, is_exception, ret.
  destruct (disk_writable w3); eexists; eexists;
    (split; [reflexivity|]); (split; [reflexivity|]); cbn; rewrite Hrecs;
    (split; [reflexivity|]); (split; [exact HF2|exact HP]).
Qed.

Lemma scrape_hall_outcome self hall w l :
  exists w' l' h,
    scrape_hall self hall (w, l) = (Ok tt, (w', l')) /\
    l_dining_halls l' = l_dining_halls l ++ [h] /\
    record_of hall h /\
    match fst (hall_try self hall (w, set_hall_data (fun _ => pending_hall hall) l)) with
    | Ok _ => hd_scrape_status h = "completed" /\ hd_error h = None
    | Raise e =>
        hd_scrape_status h = "failed" /\ hd_error h = Some (exn_msg e) /\
        exn_msg e <> EmptyString
    end.
Proof.
  destruct (scrape_hall_run self hall w l) as (w' & l' & h & H1 & H2 & H3 & _ & H4).
  exists w', l', h. auto.
Qed.

(** C1: [scrape_all_data] always returns a snapshot with one record per
    discovered (or fallback) hall, in order.  A hall whose processing raises
    is recorded as failed with the non-empty text of the exception and the
    loop goes on; a hall that completes is recorded as completed. *)
Theorem scrape_all_data_never_aborts self w :
  (forall hall w0 l, exists w' l' h,
      scrape_hall self hall (w0, l) = (Ok tt, (w', l')) /\
      l_dining_halls l' = l_dining_halls l ++ [h] /\
      record_of hall h /\
      match fst (hall_try self hall (w0, set_hall_data (fun _ => pending_hall hall) l)) with
      | Ok _ => hd_scrape_status h = "completed" /\ hd_error h = None
      | Raise e =>
          hd_scrape_status h = "failed" /\ hd_error h = Some (exn_msg e) /\
          exn_msg e <> EmptyString
      end) /\
  exists halls w1 snap w',
    discover_dining_halls self (snd (datetime_now w)) = (Ok halls, w1) /\
    scrape_all_data self w = (Ok snap, w') /\
    List.length (dining_halls snap) = List.length halls /\
    Forall2 (fun hall h => record_of hall h /\ status_ok h) halls (dining_halls snap).
Proof.
  split; [intros hall w0 l; apply scrape_hall_outcome|].
  destruct (scrape_all_data_spec self w)
    as (halls & w1 & snap & w' & Hd & Hs & _ & HF2 & _).
  exists halls, w1, snap, w'. repeat split; try assumption.
  symmetry. eapply Forall2_length; eassumption.
Qed.






Example demo_hall_world :
  match hall_worlds Demo.scraper (get_fallback_dining_halls Demo.scraper)
                    (snd (discover_dining_halls Demo.scraper (snd (datetime_now Demo.world))),
                     initial_locals) with
  | w_hall :: _ =>
      List.length (requested w_hall) = 4 /\
      map (fun e => (fst e, map item_name (snd e)))
          (menu_in Demo.scraper
                   "https://foodpro.students.vt.edu/menus/MenuAtLocation.aspx?locationNum=15&naFlag=1"
                   w_hall)
      = [("breakfast", ["Eggs"; "Toast"]); ("lunch", ["Soup"])]
  | [] => False
  end.
Proof. vm_compute. split; reflexivity. Qed.

Example scrape_with_failing_hall :
  match fst (scrape_all_data Demo.hasty_scraper Demo.world) with
  | Ok snap =>
      map (fun h => (hd_scrape_status h, hd_error h)) (dining_halls snap)
      = [("failed", Some "sleep length must be non-negative");
         ("completed", None); ("completed", None); ("completed", None)]
  | Raise _ => False
  end.
Proof. vm_compute. reflexivity. Qed.

Example scrape_demo_periods :
  match fst (scrape_all_data Demo.scraper Demo.world) with
  | Ok snap =>
      map (fun h => map (fun e => (fst e, map item_name (mp_items (snd e)),
                                   mp_total_available (snd e), mp_scraped_count (snd e)))
                        (hd_meal_periods h))
          (firstn 1 (dining_halls snap))
      = [[("breakfast", ["Eggs"], 2%Z, 1%Z); ("lunch", ["Soup"], 1%Z, 1%Z)]]
  | Raise _ => False
  end.
Proof. vm_compute. reflexivity. Qed.

Example slice_examples :
  slice_to [1; 2; 3] 2 = [1; 2] /\ slice_to [1; 2; 3] 5 = [1; 2; 3] /\
  slice_to [1; 2; 3] 0 = [] /\ slice_to [1; 2; 3] (-1) = [1; 2].
Proof. repeat split. Qed.

(** ** Hall discovery *)

(** C2: unless the directory page is fetched and yields at least one hall,
    [discover_dining_halls] returns the static list of four halls, in its
    fixed order, with the hardcoded names, location ids and URLs. *)
Theorem discover_falls_back self w :
  (forall r, fst (make_request self (menu_base self ++ "/") None w) = Ok (Some r) ->
             fold_left (add_hall_link self) (find_all_a hall_link_re (content r)) [] = []) ->
  fst (discover_dining_halls self w) = Ok (get_fallback_dining_halls self) /\
  List.length (get_fallback_dining_halls self) = 4 /\
  map hall_name (get_fallback_dining_halls self)
  = ["D2 at Dietrick Hall"; "Food Court / Hokie Grill at Owens";
     "Turner Place at Lavery Hall"; "West End at Cochrane Hall"] /\
  map hall_location_num (get_fallback_dining_halls self) = ["15"; "09"; "14"; "16"] /\
  map hall_url (get_fallback_dining_halls self)
  = map (fun n => (base_url self ++ "/menus/MenuAtLocation.aspx?locationNum=" ++ n
                   ++ "&naFlag=1")%string)
        ["15"; "09"; "14"; "16"].
Proof.
  intros H. split; [|repeat split].
  unfold discover_dining_halls, try_except, bind.
  destruct (make_request self (menu_base self ++ "/") None w) as [[[r|]|e] w'];
    cbn in *; try reflexivity.
  now rewrite (H r eq_refl).
Qed.

(** C2 when the site is down. *)
Lemma discover_falls_back_witness :
  fst (discover_dining_halls Demo.scraper Demo.dead_world)
  = Ok (get_fallback_dining_halls Demo.scraper).
Proof.
  apply (discover_falls_back Demo.scraper Demo.dead_world).
  intros r Hr. vm_compute in Hr. discriminate Hr.
Defined.

Example discover_empty_directory :
  let page := {| soup_tags := [Demo.item_link "x"]; soup_strings := [] |} in
  let w := {| web := fun _ _ => GetResponse {| status_code := 200; content := page |};
              requested := []; slept := []; clock := fun _ => 0%Z; clock_reads := 0;
              disk_writable := true; disk := None |} in
  fst (discover_dining_halls Demo.scraper w) = Ok (get_fallback_dining_halls Demo.scraper).
Proof. reflexivity. Qed.

Example discover_two_halls :
  let link (n t : string) :=
    {| tag_name := "a";
       tag_attrs := [("href", ("MenuAtLocation.aspx?locationNum=" ++ n ++ "&naFlag=1")%string);
                     ("title", t)];
       tag_class := []; tag_strings := [] |} in
  let page := {| soup_tags := [link "16" " West End "; link "15" "D2"]; soup_strings := [] |} in
  let w := {| web := fun _ _ => GetResponse {| status_code := 200; content := page |};
              requested := []; slept := []; clock := fun _ => 0%Z; clock_reads := 0;
              disk_writable := true; disk := None |} in
  option_map (map hall_name)
             (match fst (discover_dining_halls Demo.scraper w) with
              | Ok l => Some l | Raise _ => None end)
  = Some ["West End"; "D2"].
Proof. reflexivity. Qed.

(** ** Construction *)

Example init_demo : init (Some 1%Z) [] = Ok Demo.scraper.
Proof. reflexivity. Qed.

Lemma dict_get_unset {A} (env : list (string * A)) key default :
  dict_find env key = None -> dict_get env key default = default.
Proof.
  induction env as [|[k v] env IH]; [reflexivity|].
  cbn [dict_get dict_find]. destruct (String.eqb key k); [discriminate|exact IH].
Qed.

(** C10, as amended: the argument [0] is treated as no argument, whatever
    the environment is.  The cap is then [int] of [MAX_ITEMS_PER_MEAL], or 10
    when the variable is not set; it is not checked, so it may be 0 or
    negative, and when [int] rejects the variable the constructor raises that
    [ValueError].  A non-zero argument is kept, and the variable is not read
    for it. *)
Theorem init_ignores_zero env :
  init (Some 0%Z) env = init None env /\
  (forall self,
      init (Some 0%Z) env = Ok self ->
      py_int_of_str (dict_get env "MAX_ITEMS_PER_MEAL" "10") = Ok (max_items_per_meal self) /\
      (dict_find env "MAX_ITEMS_PER_MEAL" = None -> max_items_per_meal self = 10%Z)) /\
  (forall m d,
      py_int_of_str (dict_get env "MAX_ITEMS_PER_MEAL" "10") = Ok m ->
      py_float_of_str (dict_get env "SCRAPER_DELAY" "1.0") = Ok d ->
      exists self,
        init (Some 0%Z) env = Ok self /\
        max_items_per_meal self = m /\ request_delay self = d) /\
  (dict_find env "MAX_ITEMS_PER_MEAL" = None ->
   dict_find env "SCRAPER_DELAY" = None ->
   exists self,
     init (Some 0%Z) env = Ok self /\
     max_items_per_meal self = 10%Z /\ request_delay self = Dec 10 1) /\
  (forall e,
      py_int_of_str (dict_get env "MAX_ITEMS_PER_MEAL" "10") = Raise e ->
      init (Some 0%Z) env = Raise e /\ exn_cls e = ValueError) /\
  (forall n,
      n <> 0%Z ->
      (forall self, init (Some n) env = Ok self -> max_items_per_meal self = n) /\
      (forall value, init (Some n) (("MAX_ITEMS_PER_MEAL", value) :: env)
                     = init (Some n) env)).
Proof.
  split; [reflexivity|].
  assert (Hrun : forall m d,
             py_int_of_str (dict_get env "MAX_ITEMS_PER_MEAL" "10") = Ok m ->
             py_float_of_str (dict_get env "SCRAPER_DELAY" "1.0") = Ok d ->
             exists self,
               init (Some 0%Z) env = Ok self /\
               max_items_per_meal self = m /\ request_delay self = d).
  { intros m d Hm Hd. unfold init. cbn [Z.eqb]. rewrite Hm, Hd.
    eexists. split; [reflexivity|]. split; reflexivity. }
  split; [|split; [exact Hrun|split; [|split]]].
  - intros self Hself. unfold init in Hself. cbn [Z.eqb] in Hself.
    destruct (py_int_of_str (dict_get env "MAX_ITEMS_PER_MEAL" "10")) as [m|e] eqn:Hm;
      [|discriminate Hself].
    destruct (py_float_of_str (dict_get env "SCRAPER_DELAY" "1.0")) as [d|e];
      [|discriminate Hself].
    assert (Hcap : max_items_per_meal self = m) by (inversion Hself; reflexivity).
    rewrite Hcap. split; [reflexivity|].
    intros Hnone. rewrite (dict_get_unset _ _ _ Hnone) in Hm.
    vm_compute in Hm. congruence.
  - intros Hm Hd. apply Hrun.
    + now rewrite (dict_get_unset _ _ _ Hm).
    + now rewrite (dict_get_unset _ _ _ Hd).
  - intros e He. unfold init. cbn [Z.eqb]. rewrite He. split; [reflexivity|].
    unfold py_int_of_str in He.
    destruct (PyNum.int_of_str (dict_get env "MAX_ITEMS_PER_MEAL" "10"));
      [discriminate He|]. inversion He. reflexivity.
  - intros n Hn. apply Z.eqb_neq in Hn. split.
    + intros self Hself. unfold init in Hself. rewrite Hn in Hself.
      destruct (py_float_of_str (dict_get env "SCRAPER_DELAY" "1.0")) as [d|e];
        [|discriminate Hself].
      inversion Hself. reflexivity.
    + intros value. unfold init. rewrite Hn. reflexivity.
Qed.

(** The claim of C10 as worded fails: with [MAX_ITEMS_PER_MEAL=0] the
    argument 0 leaves the cap at 0, and with [MAX_ITEMS_PER_MEAL=ten] it
    makes the constructor raise, which the argument 5 does not. *)
Lemma init_zero_keeps_zero_or_raises :
  option_map max_items_per_meal
    (match init (Some 0%Z) [("MAX_ITEMS_PER_MEAL", "0")] with
     | Ok self => Some self | Raise _ => None end) = Some 0%Z /\
  init (Some 0%Z) [("MAX_ITEMS_PER_MEAL", "ten")]
  = Raise {| exn_cls := ValueError;
             exn_msg := "invalid literal for int() with base 10: ten" |} /\
  option_map max_items_per_meal
    (match init (Some 5%Z) [("MAX_ITEMS_PER_MEAL", "ten")] with
     | Ok self => Some self | Raise _ => None end) = Some 5%Z.
Proof. repeat split. Qed.

Example init_zero_with_env :
  option_map max_items_per_meal
    (match init (Some 0%Z) [("MAX_ITEMS_PER_MEAL", "7")] with
     | Ok s => Some s | Raise _ => None end) = Some 7%Z.
Proof. reflexivity. Qed.

Example init_keeps_nonzero :
  option_map max_items_per_meal
    (match init (Some 5%Z) [("MAX_ITEMS_PER_MEAL", "7")] with
     | Ok s => Some s | Raise _ => None end) = Some 5%Z.
Proof. reflexivity. Qed.

Example init_negative_from_env :
  option_map max_items_per_meal
    (match init (Some 0%Z) [("MAX_ITEMS_PER_MEAL", " -3 ")] with
     | Ok s => Some s | Raise _ => None end) = Some (-3)%Z.
Proof. reflexivity. Qed.

Example init_reads_grouped_digits :
  option_map max_items_per_meal
    (match init (Some 0%Z) [("MAX_ITEMS_PER_MEAL", " 1_0 ")] with
     | Ok s => Some s | Raise _ => None end) = Some 10%Z.
Proof. reflexivity. Qed.

(** ** Allergens and dietary tags *)

Lemma eqb_in_In x l : PyStr.eqb_in x l = true <-> In x l.
Proof.
  unfold PyStr.eqb_in. rewrite existsb_exists. split.
  - intros (y & Hy & He). apply String.eqb_eq in He. now subst.
  - intros H. exists x. split; [exact H|apply String.eqb_refl].
Qed.

Lemma dedup_In x l : In x (PyStr.dedup l) <-> In x l.
Proof.
  induction l as [|y l IH]; cbn; [tauto|].
  destruct (PyStr.eqb_in y l) eqn:Hy.
  - rewrite IH. apply eqb_in_In in Hy. split; [auto|]. intros [->|H]; auto.
  - cbn. rewrite IH. tauto.
Qed.

Lemma dedup_NoDup l : NoDup (PyStr.dedup l).
Proof.
  induction l as [|y l IH]; cbn; [constructor|].
  destruct (PyStr.eqb_in y l) eqn:Hy; [exact IH|].
  constructor; [|exact IH]. rewrite dedup_In. intros H.
  apply eqb_in_In in H. congruence.
Qed.

Lemma fold_keywords_In (text : string) (table : list (string * list string)) :
  forall tags x,
    In x (fold_left
            (fun tags (entry : string * list string) =>
               if any_in (snd entry) text then tags ++ [fst entry] else tags)
            table tags)
    <-> In x tags \/ exists kws, In (x, kws) table /\ any_in kws text = true.
Proof.
  induction table as [|[k kws] table IH]; intros tags x; cbn [fold_left fst snd].
  - split; [auto|]. intros [H|(kws & [] & _)]. exact H.
  - rewrite IH. destruct (any_in kws text) eqn:Hk.
    + rewrite in_app_iff. cbn. split.
      * intros [[H|[<-|[]]]|(kws' & H1 & H2)].
        -- now left.
        -- right. exists kws. split; [now left|exact Hk].
        -- right. exists kws'. split; [now right|exact H2].
      * intros [H|(kws' & [Heq|H1] & H2)].
        -- left. now left.
        -- inversion Heq; subst. left. right. now left.
        -- right. now exists kws'.
    + split.
      * intros [H|(kws' & H1 & H2)].
        -- now left.
        -- right. exists kws'. split; [now right|exact H2].
      * intros [H|(kws' & [Heq|H1] & H2)].
        -- now left.
        -- inversion Heq; subst. congruence.
        -- right. now exists kws'.
Qed.

(** The tags of [extract_dietary_tags], one by one. *)
Lemma dietary_tags_In allergens soup x :
  let has a := PyStr.eqb_in a (map PyStr.lower allergens) in
  In x (extract_dietary_tags allergens soup) <->
  (x = "potentially_vegan" /\ has "milk" = false /\ has "eggs" = false /\
   has "fish" = false /\ has "shellfish" = false) \/
  (x = "dairy_free" /\ has "milk" = false) \/
  (x = "gluten_free" /\ has "wheat" = false) \/
  (x = "nut_free" /\ has "peanuts" = false /\ has "tree_nuts" = false) \/
  (exists sp kws,
      soup = Some sp /\ In (x, kws) dietary_indicators /\
      any_in kws (PyStr.lower (get_text (soup_strings sp))) = true).
Proof.
  intros has. subst has. cbn beta. unfold extract_dietary_tags.
  rewrite dedup_In. cbn [existsb].
  assert (Hbase :
    forall tags,
      In x (match soup with
            | Some sp =>
                fold_left
                  (fun tags (entry : string * list string) =>
                     if any_in (snd entry) (PyStr.lower (get_text (soup_strings sp)))
                     then tags ++ [fst entry] else tags)
                  dietary_indicators tags
            | None => tags
            end)
      <-> In x tags \/
          exists sp kws,
            soup = Some sp /\ In (x, kws) dietary_indicators /\
            any_in kws (PyStr.lower (get_text (soup_strings sp))) = true).
  { intros tags. destruct soup as [sp|].
    - rewrite fold_keywords_In. split.
      + intros [H|(kws & H1 & H2)]; [auto|]. right. now exists sp, kws.
      + intros [H|(sp' & kws & Heq & H1 & H2)]; [auto|]. inversion Heq; subst. eauto.
    - split; [auto|]. intros [H|(sp & kws & Heq & _)]; [exact H|discriminate]. }
  rewrite Hbase. clear Hbase.
  generalize (PyStr.eqb_in "milk" (map PyStr.lower allergens)),
    (PyStr.eqb_in "eggs" (map PyStr.lower allergens)),
    (PyStr.eqb_in "fish" (map PyStr.lower allergens)),
    (PyStr.eqb_in "shellfish" (map PyStr.lower allergens)),
    (PyStr.eqb_in "wheat" (map PyStr.lower allergens)),
    (PyStr.eqb_in "peanuts" (map PyStr.lower allergens)),
    (PyStr.eqb_in "tree_nuts" (map PyStr.lower allergens)).
  intros [] [] [] [] [] [] []; cbn;
    intuition (try discriminate; try congruence; auto).
Qed.

(** ** Pattern matching *)

Lemma all_chars_app p a b :
  all_chars p (a ++ b) = all_chars p a && all_chars p b.
Proof. induction a as [|c a IH]; cbn; [reflexivity|]. now rewrite IH, andb_assoc. Qed.

Lemma star_runs_spec p s a b :
  In (a, b) (Regex.star_runs p s) -> s = (a ++ b)%string /\ all_chars p a = true.
Proof.
  revert a b. induction s as [|c s IH]; intros a b; cbn.
  - intros [H|[]]. inversion H; subst. auto.
  - destruct (p c) eqn:Hc.
    + rewrite in_app_iff, in_map_iff. intros [((a' & b') & Heq & Hin)|[H|[]]].
      * inversion Heq; subst. cbn in *. destruct (IH _ _ Hin) as [-> Ha].
        now rewrite Hc, Ha.
      * inversion H; subst. auto.
    + intros [H|[]]. inversion H; subst. auto.
Qed.

Lemma plus_runs_spec p s a b :
  In (a, b) (Regex.plus_runs p s) ->
  s = (a ++ b)%string /\ all_chars p a = true /\ a <> EmptyString.
Proof.
  destruct s as [|c s]; cbn; [intros []|].
  destruct (p c) eqn:Hc; [|intros []].
  rewrite in_map_iff. intros ((a' & b') & Heq & Hin).
  inversion Heq; subst. cbn in *. destruct (star_runs_spec _ _ _ _ Hin) as [-> Ha].
  rewrite Hc, Ha. repeat split. discriminate.
Qed.

Lemma run_seq ic r1 r2 s w :
  In w (Regex.run ic (Regex.RSeq r1 r2) s) ->
  exists c1 rest1 g1 c2 rest2 g2,
    In (c1, rest1, g1) (Regex.run ic r1 s) /\
    In (c2, rest2, g2) (Regex.run ic r2 rest1) /\
    w = ((c1 ++ c2)%string, rest2, match g1 with Some _ => g1 | None => g2 end).
Proof.
  cbn [Regex.run]. rewrite in_flat_map. intros ([[c1 rest1] g1] & H1 & H2).
  apply in_map_iff in H2. destruct H2 as ([[c2 rest2] g2] & Heq & H2).
  exists c1, rest1, g1, c2, rest2, g2. auto.
Qed.

Lemma run_group_sat P r :
  groups_sat P r ->
  forall ic s w g, In w (Regex.run ic r s) -> snd w = Some g -> P g.
Proof.
  induction r; cbn [groups_sat]; intros Hsat ic s w g Hin Hg.
  - cbn in Hin. destruct Hin as [<-|[]]. discriminate.
  - cbn in Hin. destruct s; [destruct Hin|].
    destruct (Regex.chr_eqb ic c a); [|destruct Hin].
    destruct Hin as [<-|[]]. discriminate.
  - cbn in Hin. destruct s; [destruct Hin|].
    destruct (Regex.in_class ic k a); [|destruct Hin].
    destruct Hin as [<-|[]]. discriminate.
  - destruct Hsat as [H1 H2].
    apply run_seq in Hin.
    destruct Hin as (c1 & rest1 & g1 & c2 & rest2 & g2 & Hin1 & Hin2 & ->).
    cbn in Hg. destruct g1 as [g1|].
    + inversion Hg; subst. eapply IHr1; [exact H1|exact Hin1|reflexivity].
    + eapply IHr2; [exact H2|exact Hin2|exact Hg].
  - destruct Hsat as [H1 H2]. cbn in Hin. apply in_app_iff in Hin.
    destruct Hin as [Hin|Hin]; [eapply IHr1|eapply IHr2]; eauto.
  - cbn in Hin. apply in_app_iff in Hin. destruct Hin as [Hin|[<-|[]]].
    + eapply IHr; eauto.
    + discriminate.
  - cbn in Hin. apply in_map_iff in Hin. destruct Hin as (ab & <- & _). discriminate.
  - cbn in Hin. apply in_map_iff in Hin. destruct Hin as (ab & <- & _). discriminate.
  - cbn in Hin. apply in_map_iff in Hin. destruct Hin as ([[c rest] g0] & <- & Hin).
    cbn in Hg. inversion Hg; subst. apply (Hsat ic s _ Hin).
Qed.

Lemma run_must_capture r :
  must_capture r = true ->
  forall ic s w, In w (Regex.run ic r s) -> snd w <> None.
Proof.
  induction r; cbn [must_capture]; intros Hm ic s w Hin; try discriminate.
  - apply run_seq in Hin.
    destruct Hin as (c1 & rest1 & g1 & c2 & rest2 & g2 & Hin1 & Hin2 & ->).
    cbn. apply orb_true_iff in Hm. destruct g1 as [g1|]; [discriminate|].
    destruct Hm as [Hm|Hm].
    + exfalso. apply (IHr1 Hm ic s _ Hin1). reflexivity.
    + apply (IHr2 Hm ic rest1 _ Hin2).
  - apply andb_true_iff in Hm. destruct Hm as [H1 H2].
    cbn in Hin. apply in_app_iff in Hin. destruct Hin; eauto.
  - cbn in Hin. apply in_map_iff in Hin. destruct Hin as ([[c rest] g0] & <- & Hin).
    discriminate.
Qed.

Lemma search_run ic r s m :
  Regex.search ic r s = Some m ->
  exists s' w, In w (Regex.run ic r s') /\
               Regex.group0 m = fst (fst w) /\ Regex.group1 m = snd w.
Proof.
  induction s as [|c s IH]; cbn [Regex.search].
  - destruct (Regex.run ic r "") as [|[[c0 rest] g] l] eqn:Hr; [discriminate|].
    intros H. inversion H; subst. exists "", (c0, rest, g). rewrite Hr. cbn. auto.
  - destruct (Regex.run ic r (String c s)) as [|[[c0 rest] g] l] eqn:Hr; [exact IH|].
    intros H. inversion H; subst. exists (String c s), (c0, rest, g). rewrite Hr. cbn. auto.
Qed.

Lemma captures_intro P r :
  must_capture r = true -> groups_sat P r -> captures P r.
Proof.
  intros Hm Hs s m Hsearch.
  destruct (search_run _ _ _ _ Hsearch) as (s' & w & Hin & _ & Hg).
  destruct (snd w) as [g|] eqn:Hw.
  - exists g. split; [exact Hg|]. eapply run_group_sat; eauto.
  - exfalso. eapply run_must_capture; eauto.
Qed.

Lemma chr_eqb_dot ic x : Regex.chr_eqb ic "."%char x = true -> x = "."%char.
Proof.
  destruct ic, x as [[] [] [] [] [] [] [] []]; vm_compute; intros H;
    first [reflexivity | discriminate H].
Qed.

Lemma isdigit_not_dot c : Regex.isdigit c = true -> Ascii.eqb c "."%char = false.
Proof.
  destruct (Ascii.eqb c "."%char) eqn:He; [|reflexivity].
  apply Ascii.eqb_eq in He. subst c. vm_compute. intros H; discriminate H.
Qed.

Lemma run_digits ic s w :
  In w (Regex.run ic Patterns.digits s) -> is_digits_text (fst (fst w)).
Proof.
  unfold Patterns.digits. cbn [Regex.run]. rewrite in_map_iff.
  intros ([a b] & <- & Hin). apply plus_runs_spec in Hin.
  destruct Hin as (_ & Ha & Hne). cbn. split; [exact Hne|exact Ha].
Qed.

Lemma digits_text_app a b :
  is_digits_text a -> all_chars Regex.isdigit b = true -> is_digits_text (a ++ b).
Proof.
  intros [Hne Ha] Hb. split.
  - destruct a; [congruence|discriminate].
  - now rewrite all_chars_app, Ha, Hb.
Qed.

Lemma run_decimal ic s w :
  In w (Regex.run ic Patterns.decimal s) -> is_decimal_text (fst (fst w)).
Proof.
  unfold Patterns.decimal. cbn [Regex.seqs]. intros Hin.
  apply run_seq in Hin.
  destruct Hin as (c1 & rest1 & g1 & c2 & rest2 & g2 & Hin1 & Hin2 & ->).
  apply run_digits in Hin1. cbn [fst] in *.
  apply run_seq in Hin2.
  destruct Hin2 as (co & resto & go & cd & restd & gd & Hino & Hind & Heq).
  inversion Heq; subst c2 rest2 g2. clear Heq.
  assert (Hd : all_chars Regex.isdigit cd = true).
  { cbn [Regex.run] in Hind. apply in_map_iff in Hind.
    destruct Hind as ([a b] & Heq & Hin). inversion Heq; subst.
    apply star_runs_spec in Hin. apply Hin. }
  cbn [Regex.run] in Hino. apply in_app_iff in Hino. destruct Hino as [Hino|[Heq|[]]].
  - destruct rest1 as [|x rest1]; [destruct Hino|].
    destruct (Regex.chr_eqb ic "." x) eqn:Hx; [|destruct Hino].
    destruct Hino as [Heq|[]]. inversion Heq; subst.
    apply chr_eqb_dot in Hx. subst x.
    right. exists c1, cd. auto.
  - inversion Heq; subst. left. cbn. now apply digits_text_app.
Qed.

(** ** Numbers *)

Lemma digits_val_total s :
  all_chars Regex.isdigit s = true -> forall acc, exists z, PyNum.digits_val acc s = Some z.
Proof.
  induction s as [|c s IH]; cbn; intros H acc; [eauto|].
  apply andb_true_iff in H. destruct H as [Hc Hs]. rewrite Hc. apply IH, Hs.
Qed.

Lemma cut_dot_digits s :
  all_chars Regex.isdigit s = true -> PyNum.cut_dot s = (s, None).
Proof.
  induction s as [|c s IH]; cbn; intros H; [reflexivity|].
  apply andb_true_iff in H. destruct H as [Hc Hs].
  now rewrite (isdigit_not_dot _ Hc), (IH Hs).
Qed.

Lemma cut_dot_decimal d1 d2 :
  all_chars Regex.isdigit d1 = true ->
  PyNum.cut_dot (d1 ++ "." ++ d2) = (d1, Some d2).
Proof.
  change ("." ++ d2)%string with (String "." d2).
  induction d1 as [|c d1 IH]; cbn; intros H; [reflexivity|].
  apply andb_true_iff in H. destruct H as [Hc Hs].
  now rewrite (isdigit_not_dot _ Hc), (IH Hs).
Qed.

Lemma digits_val_nonneg s :
  forall acc z, (0 <= acc)%Z -> PyNum.digits_val acc s = Some z -> (0 <= z)%Z.
Proof.
  induction s as [|c s IH]; cbn; intros acc z Hacc H.
  - inversion H; subst. exact Hacc.
  - destruct (Regex.isdigit c) eqn:Hc; [|discriminate].
    refine (IH _ _ _ H).
    unfold Regex.isdigit, PyStr.between in Hc. apply andb_true_iff in Hc.
    destruct Hc as [Hlo _]. apply Nat.leb_le in Hlo.
    unfold PyNum.digit_val. lia.
Qed.

Lemma float_of_digits t :
  is_digits_text t ->
  exists z, PyNum.float_of_str t = Some (Dec z 0) /\ (0 <= z)%Z.
Proof.
  intros [Hne Hd]. unfold PyNum.float_of_str. rewrite (cut_dot_digits _ Hd).
  destruct (digits_val_total _ Hd 0%Z) as (z & Hz). rewrite Hz.
  exists z. split.
  - destruct t; [congruence|reflexivity].
  - apply (digits_val_nonneg t 0 z); [lia|exact Hz].
Qed.

Lemma float_of_decimal t :
  is_decimal_text t -> exists v, PyNum.float_of_str t = Some v /\ (0 <= mant v)%Z.
Proof.
  intros [Hd|(d1 & d2 & [Hne H1] & H2 & ->)].
  - destruct (float_of_digits _ Hd) as (z & Hz & Hz0). eauto.
  - unfold PyNum.float_of_str. rewrite (cut_dot_decimal _ _ H1).
    destruct (digits_val_total _ H1 0%Z) as (i & Hi). rewrite Hi.
    destruct (digits_val_total _ H2 i) as (m & Hm). rewrite Hm.
    assert (Hi0 : (0 <= i)%Z) by (apply (digits_val_nonneg d1 0%Z i); [lia|exact Hi]).
    assert (Hm0 : (0 <= m)%Z) by (apply (digits_val_nonneg d2 i m); assumption).
    destruct d1; [congruence|]. cbn. eexists. split; [reflexivity|]. exact Hm0.
Qed.

Lemma round_half_even_close n d :
  (0 < d)%Z -> (2 * Z.abs (n - PyNum.round_half_even n d * d) <= d)%Z.
Proof.
  intros Hd. unfold PyNum.round_half_even.
  pose proof (Z.div_mod n d ltac:(lia)) as Hdm.
  pose proof (Z.mod_pos_bound n d Hd) as Hb.
  set (q := (n / d)%Z) in *. set (r := (n mod d)%Z) in *.
  destruct (2 * r <? d)%Z eqn:H1; [apply Z.ltb_lt in H1|apply Z.ltb_ge in H1].
  - nia.
  - destruct (d <? 2 * r)%Z eqn:H2; [apply Z.ltb_lt in H2|apply Z.ltb_ge in H2].
    + nia.
    + destruct (Z.even q); nia.
Qed.

Lemma round_half_even_whole n : PyNum.round_half_even n 1 = n.
Proof.
  unfold PyNum.round_half_even. rewrite Z.mod_1_r, Z.div_1_r. reflexivity.
Qed.

Lemma nearest_double_pos_den n d : (0 < snd (PyNum.nearest_double_pos n d))%Z.
Proof.
  unfold PyNum.nearest_double_pos.
  destruct (PyNum.scale2 n d (Z.log2 n - Z.log2 d - 53)) as [n0 d0].
  set (e := Z.max _ _).
  destruct (PyNum.scale2 n d e) as [n1 d1].
  destruct (0 <=? e)%Z eqn:He; cbn [snd]; [lia|].
  apply Z.leb_gt in He. apply Z.pow_pos_nonneg; lia.
Qed.

Lemma nearest_double_den v : (0 < snd (PyNum.nearest_double v))%Z.
Proof.
  unfold PyNum.nearest_double.
  destruct (mant v =? 0)%Z; [cbn; lia|].
  destruct (mant v <? 0)%Z; [|apply nearest_double_pos_den].
  pose proof (nearest_double_pos_den (- mant v) (10 ^ Z.of_nat (scale v))) as H.
  destruct (PyNum.nearest_double_pos (- mant v) (10 ^ Z.of_nat (scale v))). exact H.
Qed.

(** [round(x, 1)] of a finite float has one decimal place and is a tenth
    nearest to the float. *)
Lemma py_round1_nearest v :
  PyNum.is_inf v = false ->
  scale (PyNum.py_round1 v) = 1 /\ nearest_tenth v (mant (PyNum.py_round1 v)).
Proof.
  intros Hfin. unfold PyNum.py_round1, nearest_tenth. rewrite Hfin.
  pose proof (nearest_double_den v) as Hd.
  destruct (PyNum.nearest_double v) as [N D]. cbn [snd] in Hd. cbn [scale mant].
  split; [reflexivity|]. split; [exact Hd|].
  apply round_half_even_close. exact Hd.
Qed.

Lemma round_half_even_unique n d t :
  (0 < d)%Z -> (2 * Z.abs (n - t * d) < d)%Z -> PyNum.round_half_even n d = t.
Proof.
  intros Hd Hclose. unfold PyNum.round_half_even.
  pose proof (Z.div_mod n d ltac:(lia)) as Hdm.
  pose proof (Z.mod_pos_bound n d Hd) as Hb.
  set (q := (n / d)%Z) in *. set (r := (n mod d)%Z) in *.
  assert (Hq : (q = t \/ q = t - 1)%Z) by nia.
  destruct (2 * r <? d)%Z eqn:H1; [apply Z.ltb_lt in H1|apply Z.ltb_ge in H1].
  - nia.
  - destruct (d <? 2 * r)%Z eqn:H2; [apply Z.ltb_lt in H2|apply Z.ltb_ge in H2]; nia.
Qed.

Lemma round_half_even_exact t d : (0 < d)%Z -> PyNum.round_half_even (t * d) d = t.
Proof.
  intros Hd. apply round_half_even_unique; [exact Hd|].
  rewrite Z.sub_diag. cbn. lia.
Qed.

(** A whole number below [2^53] is a float: its fraction is [z*P / P]. *)
Lemma nearest_double_whole z :
  (0 < z < 2 ^ 53)%Z ->
  exists P, (0 < P)%Z /\ PyNum.nearest_double (Dec z 0) = ((z * P)%Z, P).
Proof.
  intros [H0 H53]. unfold PyNum.nearest_double. cbn [mant scale].
  destruct (Z.eqb_spec z 0) as [->|Hz]; [lia|].
  destruct (Z.ltb_spec z 0) as [|_]; [lia|].
  change (10 ^ Z.of_nat 0)%Z with 1%Z.
  unfold PyNum.nearest_double_pos. change (Z.log2 1) with 0%Z.
  assert (Hlog : (Z.log2 z < 53)%Z) by (apply Z.log2_lt_pow2; lia).
  pose proof (Z.log2_nonneg z) as Hlog0.
  set (e0 := (Z.log2 z - 0 - 53)%Z).
  assert (He0 : (e0 < 0)%Z) by (unfold e0; lia).
  destruct (PyNum.scale2 z 1 e0) as [n0 d0].
  set (e := Z.max (if (n0 <? 2 ^ 53 * d0)%Z then e0 else (e0 + 1)%Z) (- 1074)).
  assert (He : (e <= 0)%Z) by (unfold e; destruct (n0 <? 2 ^ 53 * d0)%Z; lia).
  unfold PyNum.scale2.
  destruct (Z.leb_spec 0 e) as [Hge|Hlt].
  - assert (He' : e = 0%Z) by lia. rewrite He'. exists 1%Z. split; [lia|].
    cbn. rewrite round_half_even_whole. first [reflexivity | f_equal; lia].
  - exists (2 ^ (- e))%Z. split; [apply Z.pow_pos_nonneg; lia|].
    now rewrite round_half_even_whole.
Qed.

(** Decimals of moderate size are finite floats. *)
Lemma is_inf_small m k : (Z.abs m < 2 ^ 53)%Z -> PyNum.is_inf (Dec m k) = false.
Proof.
  intros Hm. unfold PyNum.is_inf. cbn [mant scale]. apply Z.leb_gt.
  assert (Hbig : (2 ^ 53 <= 2 ^ 1024 - 2 ^ 970)%Z) by (vm_compute; discriminate).
  assert (Hpow : (1 <= 10 ^ Z.of_nat k)%Z).
  { pose proof (Z.pow_pos_nonneg 10 (Z.of_nat k) ltac:(lia) ltac:(lia)). lia. }
  set (T := (2 ^ 1024 - 2 ^ 970)%Z) in *. set (P := (10 ^ Z.of_nat k)%Z) in *.
  set (B := (2 ^ 53)%Z) in *. nia.
Qed.

(** Whole numbers below [2^53] are floats, and [int] gives them back. *)
Lemma py_int_whole z :
  (0 <= z < 2 ^ 53)%Z -> PyNum.py_int (Dec z 0) = Some z.
Proof.
  intros [H0 H53]. unfold PyNum.py_int.
  rewrite is_inf_small by (rewrite Z.abs_eq; lia).
  destruct (Z.eq_dec z 0) as [->|Hz]; [reflexivity|].
  destruct (nearest_double_whole z ltac:(lia)) as (P & HP & Heq).
  rewrite Heq. f_equal. apply Z.quot_mul. lia.
Qed.

(** A tenth [m/10] of moderate size is read as a float within a quarter of
    a unit in the scaled significand: [10*N] is within [5] of [m*D]. *)
Lemma nearest_double_tenth m :
  (0 < m < 2 ^ 49)%Z ->
  exists N D,
    PyNum.nearest_double (Dec m 1) = (N, D) /\
    (16 <= D)%Z /\ (Z.abs (10 * N - m * D) <= 5)%Z.
Proof.
  intros [H0 H49]. unfold PyNum.nearest_double. cbn [mant scale].
  destruct (Z.eqb_spec m 0) as [->|Hz]; [lia|].
  destruct (Z.ltb_spec m 0) as [|_]; [lia|].
  change (10 ^ Z.of_nat 1)%Z with 10%Z.
  unfold PyNum.nearest_double_pos. change (Z.log2 10) with 3%Z.
  assert (Hlog : (Z.log2 m < 49)%Z) by (apply Z.log2_lt_pow2; lia).
  pose proof (Z.log2_nonneg m) as Hlog0.
  set (e0 := (Z.log2 m - 3 - 53)%Z).
  assert (He0 : (e0 <= -8)%Z) by (unfold e0; lia).
  destruct (PyNum.scale2 m 10 e0) as [n0 d0].
  set (e := Z.max (if (n0 <? 2 ^ 53 * d0)%Z then e0 else (e0 + 1)%Z) (- 1074)).
  assert (He : (e <= -7)%Z) by (unfold e; destruct (n0 <? 2 ^ 53 * d0)%Z; lia).
  unfold PyNum.scale2.
  destruct (Z.leb_spec 0 e) as [Hge|Hlt]; [lia|].
  set (P := (2 ^ (- e))%Z).
  assert (HP : (2 ^ 4 <= P)%Z) by (apply Z.pow_le_mono_r; lia).
  change (2 ^ 4)%Z with 16%Z in HP.
  eexists. eexists. split; [reflexivity|]. split; [exact HP|].
  pose proof (round_half_even_close (m * P) 10 ltac:(lia)) as Hc.
  lia.
Qed.

(** [round(x, 1)] leaves a literal with at most one decimal place as it is. *)
Lemma py_round1_short m k :
  k <= 1 -> (0 <= m < 2 ^ 49)%Z ->
  PyNum.py_round1 (Dec m k) = Dec (m * 10 ^ Z.of_nat (1 - k)) 1.
Proof.
  intros Hk [H0 H49].
  assert (H53 : (2 ^ 49 < 2 ^ 53)%Z) by (apply Z.pow_lt_mono_r; lia).
  unfold PyNum.py_round1. rewrite is_inf_small by (rewrite Z.abs_eq; lia).
  destruct (Z.eq_dec m 0) as [->|Hm].
  { destruct k as [|[|k]]; [reflexivity|reflexivity|lia]. }
  destruct k as [|[|k]]; [| |lia].
  - destruct (nearest_double_whole m ltac:(lia)) as (P & HP & Heq).
    rewrite Heq. f_equal.
    change (10 ^ Z.of_nat (1 - 0))%Z with 10%Z.
    replace (10 * (m * P))%Z with (m * 10 * P)%Z by lia.
    now apply round_half_even_exact.
  - destruct (nearest_double_tenth m ltac:(lia)) as (N & D & Heq & HD & Hc).
    rewrite Heq. f_equal.
    change (10 ^ Z.of_nat (1 - 1))%Z with 1%Z. rewrite Z.mul_1_r.
    apply round_half_even_unique; lia.
Qed.

Example rounding_examples :
  PyNum.py_round1 (Dec 1235 2) = Dec 123 1 /\
  PyNum.py_round1 (Dec 25 2) = Dec 2 1 /\
  PyNum.py_round1 (Dec 75 2) = Dec 8 1 /\
  PyNum.py_round1 (Dec 2675 3) = Dec 27 1 /\
  PyNum.py_int (Dec 3509 1) = Some 350%Z /\
  PyNum.py_int (Dec 9007199254740993 0) = Some 9007199254740992%Z /\
  PyNum.py_int (Dec (10 ^ 309) 0) = None /\
  PyNum.py_round1 (Dec (10 ^ 309) 0) = Dec (10 ^ 309) 0 /\
  PyNum.py_int (Dec 1 400) = Some 0%Z /\
  PyNum.py_round1 (Dec 1 400) = Dec 0 1.
Proof. vm_compute. repeat split. Qed.

(** ** Nutrition extraction *)

Ltac solve_groups :=
  cbv [Regex.seqs Regex.lit Patterns.sep Patterns.total Patterns.ws Patterns.ws1
       Patterns.colon groups_sat];
  repeat match goal with
         | |- _ /\ _ => split
         | |- True => exact I
         end;
  intros ic s w Hin.

Lemma calories_patterns_capture ps p :
  In ("calories", ps) Patterns.patterns -> In p ps -> captures is_digits_text p.
Proof.
  unfold Patterns.patterns. intros Hin Hp.
  repeat (destruct Hin as [Hin|Hin]; [inversion Hin; subst; clear Hin|]);
    try destruct Hin.
  repeat (destruct Hp as [<-|Hp]; [|]); try destruct Hp;
    (apply captures_intro; [reflexivity|solve_groups; eapply run_digits; eauto]).
Qed.

Lemma nutrient_patterns_capture nutrient ps p :
  In (nutrient, ps) Patterns.patterns -> In p ps -> captures is_decimal_text p.
Proof.
  unfold Patterns.patterns. intros Hin Hp.
  repeat (destruct Hin as [Hin|Hin]; [inversion Hin; subst; clear Hin|]);
    try destruct Hin;
    repeat (destruct Hp as [<-|Hp]; [|]); try destruct Hp;
    (apply captures_intro;
     [reflexivity
     |solve_groups;
      first [solve [eapply run_decimal; eauto] | left; eapply run_digits; eauto]]).
Qed.

Lemma store_match_spec nutrient m n g v :
  Regex.group1 m = Some g -> PyNum.float_of_str g = Some v ->
  store_match nutrient m n
  = if overflows nutrient (Some m) then Raise overflow_error
    else Ok (apply_match nutrient (Some m) n).
Proof.
  intros Hg Hv.
  unfold store_match, float_of_group, overflows, apply_match, match_value, stored_number,
    py_int_of_float.
  rewrite Hg, Hv. destruct (String.eqb nutrient "calories"); cbn [andb]; [|reflexivity].
  unfold PyNum.py_int. destruct (PyNum.is_inf v); [reflexivity|].
  destruct (PyNum.nearest_double v). reflexivity.
Qed.

Lemma overflows_none nutrient : overflows nutrient None = false.
Proof. unfold overflows. cbn. apply andb_false_r. Qed.

(** The loop over the patterns of a nutrient stores the value of the first
    pattern found, or raises the [OverflowError] of that value. *)
Lemma try_patterns_spec nutrient ps text n :
  (forall p, In p ps -> captures is_decimal_text p) ->
  try_patterns nutrient ps text n
  = if overflows nutrient (first_match ps text) then Raise overflow_error
    else Ok (apply_match nutrient (first_match ps text) n).
Proof.
  induction ps as [|p ps IH]; intros Hcap; cbn [try_patterns first_match].
  - now rewrite overflows_none.
  - destruct (Regex.search true p text) as [m|] eqn:Hs.
    + destruct (Hcap p (or_introl eq_refl) text m Hs) as (g & Hg & Hdec).
      destruct (float_of_decimal g Hdec) as (v & Hv & _).
      rewrite (store_match_spec nutrient m n g v Hg Hv).
      destruct (overflows nutrient (Some m)); reflexivity.
    + apply IH. intros q Hq. apply Hcap. now right.
Qed.

Lemma each_nutrient_spec text :
  forall table n,
    (forall k ps p, In (k, ps) table -> In p ps -> captures is_decimal_text p) ->
    each_nutrient table text n
    = if existsb (fun e : string * list Regex.re =>
                    overflows (fst e) (first_match (snd e) text)) table
      then Raise overflow_error
      else Ok (fold_left (fun n (e : string * list Regex.re) =>
                            apply_match (fst e) (first_match (snd e) text) n)
                         table n).
Proof.
  induction table as [|[k ps] table IH]; intros n Hcap;
    cbn [each_nutrient fold_left existsb fst snd].
  - reflexivity.
  - rewrite try_patterns_spec.
    + destruct (overflows k (first_match ps text)); cbn [orb]; [reflexivity|].
      apply IH. intros k' ps' p H1 H2. eapply Hcap; [right; exact H1|exact H2].
    + intros p Hp. eapply Hcap; [left; reflexivity|exact Hp].
Qed.

Lemma eqb_neq_false (a b : string) : a <> b -> String.eqb a b = false.
Proof. intros H. now apply String.eqb_neq. Qed.

Lemma overflows_other nutrient om : nutrient <> "calories" -> overflows nutrient om = false.
Proof. intros H. unfold overflows. now rewrite (eqb_neq_false _ _ H). Qed.

(** Only the calories can make the loops raise. *)
Lemma patterns_overflow text :
  existsb (fun e : string * list Regex.re => overflows (fst e) (first_match (snd e) text))
          Patterns.patterns
  = calories_overflow text.
Proof.
  unfold Patterns.patterns. cbn [existsb fst snd].
  rewrite (overflows_other "protein"), (overflows_other "carbs"), (overflows_other "fat"),
    (overflows_other "fiber"), (overflows_other "sodium"), (overflows_other "sugars")
    by discriminate.
  rewrite !orb_false_r. reflexivity.
Qed.

Lemma nutrient_value_apply_other k k' om n :
  k <> k' -> nutrient_value (apply_match k om n) k' = nutrient_value n k'.
Proof.
  intros Hne. unfold apply_match.
  destruct (match_value om) as [v|]; [|reflexivity].
  unfold stored_number.
  destruct (String.eqb_spec k "calories") as [->|Hk].
  - destruct (PyNum.py_int v) as [z|]; [|reflexivity]. cbn [option_map set_number].
    unfold nutrient_value.
    rewrite (eqb_neq_false k' "calories") by congruence. reflexivity.
  - cbn [set_number]. unfold nutrient_value, set_rounded.
    cbn [n_calories n_protein n_carbs n_fat n_fiber n_sodium n_sugars].
    repeat match goal with
           | |- context [String.eqb k' ?c] =>
               destruct (String.eqb_spec k' c) as [->|?];
               [rewrite (eqb_neq_false k c) by congruence; reflexivity|]
           end.
    reflexivity.
Qed.

Lemma nutrient_value_apply_same k om n :
  In k nutrient_keys ->
  nutrient_value (apply_match k om n) k
  = match match_value om with
    | Some v =>
        match stored_number k v with
        | Some x => Some x
        | None => nutrient_value n k
        end
    | None => nutrient_value n k
    end.
Proof.
  intros Hk. unfold apply_match.
  destruct (match_value om) as [v|]; [|reflexivity].
  unfold nutrient_keys in Hk.
  repeat (destruct Hk as [<-|Hk];
          [unfold stored_number; cbn [String.eqb Ascii.eqb Bool.eqb andb];
           try (destruct (PyNum.py_int v)); reflexivity|]).
  destruct Hk.
Qed.

Lemma fold_apply_other text :
  forall table n k,
    ~ In k (map fst table) ->
    nutrient_value
      (fold_left (fun n (e : string * list Regex.re) =>
                    apply_match (fst e) (first_match (snd e) text) n) table n) k
    = nutrient_value n k.
Proof.
  induction table as [|[k0 ps0] table IH]; intros n k Hk; cbn [fold_left fst snd].
  - reflexivity.
  - cbn in Hk. rewrite IH by tauto. apply nutrient_value_apply_other. tauto.
Qed.

Lemma fold_apply_same text :
  forall table n k ps,
    NoDup (map fst table) ->
    (forall k', In k' (map fst table) -> In k' nutrient_keys) ->
    In (k, ps) table ->
    nutrient_value
      (fold_left (fun n (e : string * list Regex.re) =>
                    apply_match (fst e) (first_match (snd e) text) n) table n) k
    = nutrient_value (apply_match k (first_match ps text) n) k.
Proof.
  induction table as [|[k0 ps0] table IH]; intros n k ps Hnd Hkeys Hin;
    cbn [fold_left fst snd]; [destruct Hin|].
  cbn in Hnd. inversion Hnd as [|? ? Hnot Hnd']; subst.
  destruct Hin as [Heq|Hin].
  - inversion Heq; subst. apply fold_apply_other. exact Hnot.
  - assert (Hne : k0 <> k).
    { intros ->. apply Hnot. apply in_map_iff. now exists (k, ps). }
    rewrite (IH _ k ps Hnd'); [|intros k' Hk'; apply Hkeys; now right|exact Hin].
    assert (Hk : In k nutrient_keys).
    { apply Hkeys. right. apply in_map_iff. now exists (k, ps). }
    rewrite !nutrient_value_apply_same by exact Hk.
    now rewrite nutrient_value_apply_other by exact Hne.
Qed.

Lemma no_nutrition_value k : nutrient_value no_nutrition k = None.
Proof.
  unfold nutrient_value. cbn.
  repeat match goal with |- context [String.eqb k ?c] => destruct (String.eqb k c) end;
    reflexivity.
Qed.

Lemma patterns_keys :
  NoDup (map fst Patterns.patterns) /\
  forall k, In k (map fst Patterns.patterns) -> In k nutrient_keys.
Proof.
  split.
  - cbn. repeat constructor; cbn; intuition discriminate.
  - cbn. intros k H. exact H.
Qed.

(** What the two loops over the nutrients leave in the dictionary. *)
Lemma each_nutrient_patterns text :
  each_nutrient Patterns.patterns text no_nutrition
  = if calories_overflow text then Raise overflow_error
    else Ok (fold_left (fun n (e : string * list Regex.re) =>
                          apply_match (fst e) (first_match (snd e) text) n)
                       Patterns.patterns no_nutrition).
Proof.
  rewrite (each_nutrient_spec _ _ _ nutrient_patterns_capture).
  now rewrite patterns_overflow.
Qed.

(** A page whose calories are too large for a float makes the extraction
    raise; every other page is processed, and the nutrient keys hold what
    the first matching pattern of each list captured. *)
Lemma nutrition_of_soup_spec soup :
  if calories_overflow (get_text (soup_strings soup))
  then nutrition_of_soup soup = Raise overflow_error
  else
    exists n,
      nutrition_of_soup soup = Ok n /\
      n_allergens n = Some (extract_allergens soup) /\
      n_dietary_tags n = Some (extract_dietary_tags (extract_allergens soup) (Some soup)) /\
      forall k ps,
        In (k, ps) Patterns.patterns ->
        nutrient_value n k
        = nutrient_value
            (apply_match k (first_match ps (get_text (soup_strings soup))) no_nutrition) k.
Proof.
  unfold nutrition_of_soup. rewrite each_nutrient_patterns.
  destruct (calories_overflow (get_text (soup_strings soup))); [reflexivity|].
  set (n0 := fold_left _ Patterns.patterns no_nutrition).
  assert (Hval : forall k ps, In (k, ps) Patterns.patterns ->
            nutrient_value n0 k
            = nutrient_value
                (apply_match k (first_match ps (get_text (soup_strings soup)))
                             no_nutrition) k).
  { intros k ps Hin. destruct patterns_keys as [Hnd Hkeys].
    apply fold_apply_same; assumption. }
  destruct (extract_serving_size (get_text (soup_strings soup))) as [sz|];
    [destruct (PyStr.truthy sz)|];
    (eexists; split; [reflexivity|]; split; [reflexivity|]; split; [reflexivity|];
     exact Hval).
Qed.

(** A record is read from a page exactly when its calories fit a float. *)
Lemma nutrition_of_soup_ok soup n :
  nutrition_of_soup soup = Ok n ->
  calories_overflow (get_text (soup_strings soup)) = false /\
  n_allergens n = Some (extract_allergens soup) /\
  n_dietary_tags n = Some (extract_dietary_tags (extract_allergens soup) (Some soup)) /\
  forall k ps,
    In (k, ps) Patterns.patterns ->
    nutrient_value n k
    = nutrient_value
        (apply_match k (first_match ps (get_text (soup_strings soup))) no_nutrition) k.
Proof.
  intros Hn. pose proof (nutrition_of_soup_spec soup) as Hspec. revert Hspec.
  destruct (calories_overflow (get_text (soup_strings soup))); intros Hspec.
  - rewrite Hn in Hspec. discriminate Hspec.
  - destruct Hspec as (n' & Hn' & H). rewrite Hn in Hn'.
    assert (n = n') by (now inversion Hn'). subst n'. split; [reflexivity|exact H].
Qed.

Lemma first_match_In ps text m :
  first_match ps text = Some m ->
  exists p, In p ps /\ Regex.search true p text = Some m.
Proof.
  induction ps as [|p ps IH]; cbn [first_match]; [discriminate|].
  destruct (Regex.search true p text) as [m'|] eqn:Hs.
  - intros H. inversion H; subst. exists p. split; [now left|exact Hs].
  - intros H. destruct (IH H) as (q & Hq & Hm). exists q. split; [now right|exact Hm].
Qed.

(** The page fetcher hands the record of the page over, and the empty
    dictionary when reading the page raises. *)
Lemma get_nutrition_of_response self url w r :
  fst (make_request self url None w) = Ok (Some r) ->
  fst (get_nutrition_from_item_page self url w)
  = Ok match nutrition_of_soup (content r) with
       | Ok n => n
       | Raise _ => no_nutrition
       end.
Proof.
  intros Hr. unfold get_nutrition_from_item_page, try_except, bind, lift_result,
    is_exception, ret.
  destruct (make_request self url None w) as [res w']. cbn [fst] in Hr. subst res.
  destruct (nutrition_of_soup (content r)); reflexivity.
Qed.

Lemma calories_entry ps :
  In ("calories", ps) Patterns.patterns -> ps = calories_patterns.
Proof.
  unfold Patterns.patterns. intros Hin.
  repeat (destruct Hin as [Hin|Hin]; [inversion Hin; subst; reflexivity || discriminate|]).
  destruct Hin.
Qed.

Lemma calories_overflow_iff text :
  calories_overflow text = true <->
  exists m digits whole,
    first_match calories_patterns text = Some m /\
    Regex.group1 m = Some digits /\
    PyNum.float_of_str digits = Some (Dec whole 0) /\
    (2 ^ 1024 - 2 ^ 970 <= whole)%Z.
Proof.
  unfold calories_overflow, overflows, match_value. cbn [String.eqb Ascii.eqb Bool.eqb andb].
  destruct (first_match calories_patterns text) as [m|] eqn:Hfm.
  - destruct (first_match_In _ _ _ Hfm) as (p & Hp & Hs).
    assert (Hin : In ("calories", calories_patterns) Patterns.patterns) by (now left).
    destruct (calories_patterns_capture _ _ Hin Hp _ _ Hs) as (g & Hg & Hdig).
    destruct (float_of_digits g Hdig) as (z & Hz & Hz0).
    rewrite Hg, Hz. unfold PyNum.is_inf. cbn [mant scale].
    change (10 ^ Z.of_nat 0)%Z with 1%Z. rewrite Z.mul_1_r, Z.abs_eq by exact Hz0.
    rewrite Z.leb_le. split.
    + intros Hle. exists m, g, z. auto.
    + intros (m' & g' & z' & Hm' & Hg' & Hz' & Hle).
      inversion Hm'; subst m'. rewrite Hg in Hg'. inversion Hg'; subst g'.
      rewrite Hz in Hz'. inversion Hz'; subst z'. exact Hle.
  - split; [discriminate|]. intros (m' & _ & _ & Hm' & _). discriminate Hm'.
Qed.

(** C4, as amended, for every page: the patterns of a nutrient are tried in
    order, case-insensitively, against the page text and the first one found
    decides the value.  When the number which that pattern captures for the
    calories is too large for a finite float (at least [2^1024 - 2^970]),
    [int] raises [OverflowError], which the loop does not catch, and the page
    yields the empty dictionary.  On every other page the calories are stored
    as the integer read (exactly, below [2^53]) and every other nutrient as
    the decimal read, rounded to the nearest tenth (a literal with at most
    one decimal place is kept as it is; one too large for a float is stored
    as an infinity); a nutrient none of whose patterns is found stays absent.
    On pages holding "Calories: 350" and "Protein: 20g" the result has
    calories 350, protein 20.0 and no other nutrient. *)
Theorem nutrients_first_match_wins soup :
  let page_text := get_text (soup_strings soup) in
  (calories_overflow page_text = true <->
   exists m digits whole,
     first_match calories_patterns page_text = Some m /\
     Regex.group1 m = Some digits /\
     PyNum.float_of_str digits = Some (Dec whole 0) /\
     (2 ^ 1024 - 2 ^ 970 <= whole)%Z) /\
  (calories_overflow page_text = true ->
   nutrition_of_soup soup = Raise overflow_error /\
   forall self url w r,
     fst (make_request self url None w) = Ok (Some r) -> content r = soup ->
     fst (get_nutrition_from_item_page self url w) = Ok no_nutrition) /\
  (calories_overflow page_text = false ->
   exists n,
     nutrition_of_soup soup = Ok n /\
     (forall self url w r,
         fst (make_request self url None w) = Ok (Some r) -> content r = soup ->
         fst (get_nutrition_from_item_page self url w) = Ok n) /\
     forall nutrient pattern_list,
       In (nutrient, pattern_list) Patterns.patterns ->
       match first_match pattern_list page_text with
       | None => nutrient_value n nutrient = None
       | Some m =>
           exists text v x,
             Regex.group1 m = Some text /\
             PyNum.float_of_str text = Some v /\
             stored_number nutrient v = Some x /\
             nutrient_value n nutrient = Some x /\
             match x with
             | NInt z =>
                 nutrient = "calories" /\
                 exists whole,
                   v = Dec whole 0 /\ (0 <= whole)%Z /\
                   (whole < 2 ^ 53 -> z = whole)%Z
             | NFloat r =>
                 nutrient <> "calories" /\
                 (PyNum.is_inf v = true -> PyNum.is_inf r = true) /\
                 (PyNum.is_inf v = false ->
                  scale r = 1 /\ nearest_tenth v (mant r) /\
                  (scale v <= 1 -> (mant v < 2 ^ 49)%Z ->
                   r = Dec (mant v * 10 ^ Z.of_nat (1 - scale v)) 1))
             end
       end) /\
  Forall (fun page =>
            exists n,
              nutrition_of_soup page = Ok n /\
              n_calories n = Some 350%Z /\ n_protein n = Some (Dec 200 1) /\
              n_carbs n = None /\ n_fat n = None /\ n_fiber n = None /\
              n_sodium n = None /\ n_sugars n = None)
         Demo.scenario_b_pages.
Proof.
  cbn zeta. split; [apply calories_overflow_iff|].
  pose proof (nutrition_of_soup_spec soup) as Hspec. revert Hspec.
  destruct (calories_overflow (get_text (soup_strings soup))) eqn:Hover; intros Hspec.
  - split; [|split; [discriminate|]].
    + intros _. split; [exact Hspec|].
      intros self url w r Hr <-.
      rewrite (get_nutrition_of_response _ _ _ _ Hr), Hspec. reflexivity.
    + unfold Demo.scenario_b_pages.
      repeat constructor; eexists; (split; [vm_compute; reflexivity|]); repeat split.
  - split; [discriminate|]. split.
    + intros _. destruct Hspec as (n & Hn & _ & _ & Hval).
      exists n. split; [exact Hn|]. split.
      { intros self url w r Hr <-.
        rewrite (get_nutrition_of_response _ _ _ _ Hr), Hn. reflexivity. }
      intros nutrient ps Hin. rewrite (Hval _ _ Hin).
      assert (Hk : In nutrient nutrient_keys).
      { apply patterns_keys. apply in_map_iff. now exists (nutrient, ps). }
      rewrite (nutrient_value_apply_same _ _ _ Hk), no_nutrition_value.
      destruct (first_match ps (get_text (soup_strings soup))) as [m|] eqn:Hfm;
        [|reflexivity].
      destruct (first_match_In _ _ _ Hfm) as (p & Hp & Hs).
      destruct (nutrient_patterns_capture _ _ _ Hin Hp _ _ Hs) as (g & Hg & Hdec).
      destruct (float_of_decimal g Hdec) as (v & Hv & Hv0).
      unfold match_value. rewrite Hg, Hv.
      destruct (String.eqb_spec nutrient "calories") as [->|Hne].
      * destruct (calories_patterns_capture _ _ Hin Hp _ _ Hs) as (g' & Hg' & Hdig).
        assert (g' = g) by congruence. subst g'.
        destruct (float_of_digits g Hdig) as (z & Hz & Hz0).
        assert (v = Dec z 0) by congruence. subst v.
        assert (Hfin : PyNum.is_inf (Dec z 0) = false).
        { rewrite (calories_entry _ Hin) in Hfm.
          unfold calories_overflow, overflows, match_value in Hover.
          rewrite Hfm, Hg, Hz in Hover. exact Hover. }
        unfold stored_number. cbn [String.eqb Ascii.eqb Bool.eqb andb].
        destruct (PyNum.py_int (Dec z 0)) as [i|] eqn:Hi.
        -- exists g, (Dec z 0), (NInt i). rewrite Hi. cbn [option_map].
           split; [reflexivity|]. split; [exact Hz|]. split; [reflexivity|].
           split; [reflexivity|]. split; [reflexivity|].
           exists z. split; [reflexivity|]. split; [exact Hz0|].
           intros Hlt. rewrite py_int_whole in Hi by lia. congruence.
        -- exfalso. unfold PyNum.py_int in Hi. rewrite Hfin in Hi.
           destruct (PyNum.nearest_double (Dec z 0)). discriminate Hi.
      * unfold stored_number. rewrite (eqb_neq_false _ _ Hne).
        exists g, v, (NFloat (PyNum.py_round1 v)).
        split; [reflexivity|]. split; [exact Hv|]. split; [reflexivity|].
        split; [reflexivity|]. split; [exact Hne|]. split.
        -- intros Hinf. unfold PyNum.py_round1. now rewrite Hinf.
        -- intros Hfin. destruct (py_round1_nearest v Hfin) as [Hsc Hnear].
           split; [exact Hsc|]. split; [exact Hnear|].
           intros Hshort Hsmall. destruct v as [mv kv]. cbn [mant scale] in *.
           apply py_round1_short; [exact Hshort|lia].
    + unfold Demo.scenario_b_pages.
      repeat constructor; eexists; (split; [vm_compute; reflexivity|]); repeat split.
Qed.

(** The claim of C4 as worded fails on a page whose calories have 310
    digits: the first calories pattern and the first protein pattern are
    found there, yet the record read from the page is empty, without
    calories and without protein. *)
Lemma oversized_calories_leave_no_record :
  let page_text := get_text (soup_strings Demo.oversized_page) in
  option_map Regex.group1 (first_match calories_patterns page_text)
  = Some (Some Demo.huge_number) /\
  option_map Regex.group1
             (first_match (dict_get Patterns.patterns "protein" []) page_text)
  = Some (Some "20") /\
  nutrition_of_soup Demo.oversized_page = Raise overflow_error /\
  fst (get_nutrition_from_item_page Demo.scraper "label.aspx" Demo.oversized_world)
  = Ok no_nutrition /\
  nutrient_value no_nutrition "calories" = None /\
  nutrient_value no_nutrition "protein" = None.
Proof.
  cbv zeta. split; [|split; [|split; [|split; [|split]]]]; vm_compute; reflexivity.
Qed.

Example nutrition_absent_without_text :
  nutrition_of_soup {| soup_tags := []; soup_strings := ["Water"] |}
  = Ok {| n_calories := None; n_protein := None; n_carbs := None; n_fat := None;
          n_fiber := None; n_sodium := None; n_sugars := None;
          n_allergens := Some [];
          n_dietary_tags :=
            Some ["potentially_vegan"; "dairy_free"; "gluten_free"; "nut_free"];
          n_serving_size := None |}.
Proof. vm_compute. reflexivity. Qed.

Example second_pattern_used :
  option_map n_calories
    (match nutrition_of_soup {| soup_tags := []; soup_strings := ["about 120 Calories"] |}
     with Ok n => Some n | Raise _ => None end) = Some (Some 120%Z).
Proof. vm_compute. reflexivity. Qed.

Example get_nutrition_fetch_failure :
  fst (get_nutrition_from_item_page Demo.scraper "u" Demo.dead_world) = Ok no_nutrition.
Proof. vm_compute. reflexivity. Qed.

(** A protein number too large for a float is stored as an infinity. *)
Example oversized_protein_is_stored :
  match try_patterns "protein" (dict_get Patterns.patterns "protein" [])
                     ("Protein: " ++ Demo.huge_number ++ "g") no_nutrition with
  | Ok n => option_map PyNum.is_inf (n_protein n) = Some true
  | Raise _ => False
  end.
Proof. vm_compute. reflexivity. Qed.

(** ** Dietary tags from allergens *)

Lemma indicator_names x kws :
  In (x, kws) dietary_indicators ->
  x <> "potentially_vegan" /\ x <> "dairy_free" /\ x <> "gluten_free" /\ x <> "nut_free".
Proof.
  unfold dietary_indicators. intros H.
  repeat (destruct H as [H|H]; [inversion H; subst; repeat split; discriminate|]).
  destruct H.
Qed.

(** What the allergens decide about the four inferred tags, whatever the page
    says. *)
Lemma inferred_tags allergens soup :
  let has a := PyStr.eqb_in a (map PyStr.lower allergens) in
  let tags := extract_dietary_tags allergens soup in
  (In "potentially_vegan" tags <->
   has "milk" = false /\ has "eggs" = false /\ has "fish" = false /\
   has "shellfish" = false) /\
  (In "dairy_free" tags <-> has "milk" = false) /\
  (In "gluten_free" tags <-> has "wheat" = false) /\
  (In "nut_free" tags <-> has "peanuts" = false /\ has "tree_nuts" = false).
Proof.
  intros has tags. subst tags has. cbv beta.
  pose proof (fun x => dietary_tags_In allergens soup x) as Hin. cbv zeta in Hin.
  assert (Hind : forall x,
            (exists sp kws,
                soup = Some sp /\ In (x, kws) dietary_indicators /\
                any_in kws (PyStr.lower (get_text (soup_strings sp))) = true) ->
            x <> "potentially_vegan" /\ x <> "dairy_free" /\
            x <> "gluten_free" /\ x <> "nut_free").
  { intros x (sp & kws & _ & Hi & _). exact (indicator_names _ _ Hi). }
  split; [|split; [|split]]; rewrite Hin; (split; [|tauto]);
    intros [(E & H)|[(E & H)|[(E & H)|[(E & H)|H]]]];
    try discriminate E; try tauto; try exact H;
    apply Hind in H; exfalso; intuition congruence.
Qed.

(** C9: a page on which no allergen is found gets all four inferred tags:
    dairy_free, gluten_free, nut_free and potentially_vegan.  They are in
    the tag list computed for the page and in the record stored for it,
    which exists unless the calories of the page are too large for a float. *)
Theorem no_allergens_all_inferred_tags soup :
  extract_allergens soup = [] ->
  (forall page,
      let tags := extract_dietary_tags [] page in
      In "dairy_free" tags /\ In "gluten_free" tags /\
      In "nut_free" tags /\ In "potentially_vegan" tags) /\
  (let tags := extract_dietary_tags (extract_allergens soup) (Some soup) in
   In "dairy_free" tags /\ In "gluten_free" tags /\
   In "nut_free" tags /\ In "potentially_vegan" tags) /\
  (forall n,
      nutrition_of_soup soup = Ok n ->
      n_allergens n = Some [] /\
      exists tags,
        n_dietary_tags n = Some tags /\
        In "dairy_free" tags /\ In "gluten_free" tags /\
        In "nut_free" tags /\ In "potentially_vegan" tags) /\
  (calories_overflow (get_text (soup_strings soup)) = false ->
   exists n, nutrition_of_soup soup = Ok n).
Proof.
  intros Hnone.
  assert (Hall : forall page,
            let tags := extract_dietary_tags [] page in
            In "dairy_free" tags /\ In "gluten_free" tags /\
            In "nut_free" tags /\ In "potentially_vegan" tags).
  { intros page tags. subst tags.
    destruct (inferred_tags [] page) as (Hv & Hd & Hg & Hn). cbn in *.
    repeat split; [apply Hd|apply Hg|apply Hn|apply Hv]; repeat split. }
  split; [exact Hall|]. split; [rewrite Hnone; apply Hall|]. split.
  - intros n Hn. destruct (nutrition_of_soup_ok soup n Hn) as (_ & Ha & Ht & _).
    rewrite Hnone in Ha, Ht. split; [exact Ha|].
    exists (extract_dietary_tags [] (Some soup)). split; [exact Ht|]. apply Hall.
  - intros Hfits. pose proof (nutrition_of_soup_spec soup) as Hspec.
    rewrite Hfits in Hspec. destruct Hspec as (n & Hn & _). now exists n.
Qed.

(** C9 on a page that only names the dish. *)
Lemma no_allergens_all_inferred_tags_witness :
  exists n tags,
    nutrition_of_soup Demo.plain_page = Ok n /\
    n_allergens n = Some [] /\
    n_dietary_tags n = Some tags /\
    In "dairy_free" tags /\ In "gluten_free" tags /\
    In "nut_free" tags /\ In "potentially_vegan" tags.
Proof.
  destruct (no_allergens_all_inferred_tags Demo.plain_page eq_refl)
    as (_ & _ & Hrec & Hfits).
  destruct (Hfits eq_refl) as (n & Hn).
  destruct (Hrec n Hn) as (Ha & tags & Ht & Htags).
  exists n, tags. split; [exact Hn|]. split; [exact Ha|]. split; [exact Ht|exact Htags].
Defined.

Lemma scenario_c_allergens :
  PyStr.dedup (parse_allergen_text "Contains: milk, wheat.") = ["milk"; "wheat"] /\
  PyStr.dedup
    (parse_allergen_text (section_after "contains:" (PyStr.lower "Contains: milk, wheat."))
     ++ []) = ["milk"; "wheat"].
Proof. split; vm_compute; reflexivity. Qed.

(** C5: on a page whose allergen text is "Contains: milk, wheat." (in its
    allergen section, or as the page text when there is no such section)
    the allergens are exactly milk and wheat, and the tags contain nut_free
    but neither gluten_free nor dairy_free (nor potentially_vegan).  For any
    allergens: milk blocks dairy_free and potentially_vegan, wheat blocks
    gluten_free, and nut_free is present exactly when neither peanuts nor
    tree_nuts is. *)
Theorem milk_wheat_scenario soup :
  (exists section,
      find_allergen_div soup = Some section /\
      get_text (tag_strings section) = "Contains: milk, wheat.") \/
  (find_allergen_div soup = None /\
   get_text (soup_strings soup) = "Contains: milk, wheat.") ->
  let allergens := extract_allergens soup in
  let tags := extract_dietary_tags allergens (Some soup) in
  (forall a, In a allergens <-> a = "milk" \/ a = "wheat") /\
  NoDup allergens /\
  In "nut_free" tags /\ ~ In "gluten_free" tags /\ ~ In "dairy_free" tags /\
  ~ In "potentially_vegan" tags /\
  forall others page,
    let tags' := extract_dietary_tags others page in
    (In "milk" (map PyStr.lower others) ->
     ~ In "dairy_free" tags' /\ ~ In "potentially_vegan" tags') /\
    (In "wheat" (map PyStr.lower others) -> ~ In "gluten_free" tags') /\
    (In "nut_free" tags' <->
     ~ In "peanuts" (map PyStr.lower others) /\
     ~ In "tree_nuts" (map PyStr.lower others)).
Proof.
  intros Hpage allergens tags.
  assert (Hal : allergens = ["milk"; "wheat"]).
  { subst allergens. unfold extract_allergens.
    destruct Hpage as [(section & -> & ->)|(-> & ->)].
    - apply scenario_c_allergens.
    - vm_compute. reflexivity. }
  assert (Hnd : NoDup allergens).
  { subst allergens. unfold extract_allergens. apply dedup_NoDup. }
  subst tags. rewrite Hal in *.
  split. { cbn. intuition congruence. }
  split. { exact Hnd. }
  destruct (inferred_tags ["milk"; "wheat"] (Some soup)) as (Hv & Hd & Hg & Hn).
  cbv zeta in Hv, Hd, Hg, Hn.
  split. { apply Hn. split; reflexivity. }
  split. { intros H. apply Hg in H. vm_compute in H. discriminate H. }
  split. { intros H. apply Hd in H. vm_compute in H. discriminate H. }
  split. { intros H. apply Hv in H. destruct H as [H _]. vm_compute in H. discriminate H. }
  intros others page tags'. subst tags'.
  destruct (inferred_tags others page) as (Hv' & Hd' & Hg' & Hn').
  cbv zeta in Hv', Hd', Hg', Hn'.
  split; [|split].
  - intros Hm. apply eqb_in_In in Hm. split; intros H.
    + apply Hd' in H. congruence.
    + apply Hv' in H. destruct H as [H _]. congruence.
  - intros Hw. apply eqb_in_In in Hw. intros H. apply Hg' in H. congruence.
  - rewrite Hn', <- !eqb_in_In.
    destruct (PyStr.eqb_in "peanuts" (map PyStr.lower others)),
      (PyStr.eqb_in "tree_nuts" (map PyStr.lower others)); intuition congruence.
Qed.

(** C5 on the page of scenario C. *)
Lemma milk_wheat_scenario_witness :
  (forall a, In a (extract_allergens Demo.scenario_c_page) <-> a = "milk" \/ a = "wheat") /\
  In "nut_free"
     (extract_dietary_tags (extract_allergens Demo.scenario_c_page)
                           (Some Demo.scenario_c_page)).
Proof.
  destruct (milk_wheat_scenario Demo.scenario_c_page) as (Ha & _ & Hn & _).
  - right. split; reflexivity.
  - split; [exact Ha|exact Hn].
Defined.

Example scenario_c_values :
  extract_allergens Demo.scenario_c_page = ["milk"; "wheat"] /\
  extract_dietary_tags ["milk"; "wheat"] (Some Demo.scenario_c_page) = ["nut_free"].
Proof. split; vm_compute; reflexivity. Qed.

(** ** Splitting a recipe identifier *)

Lemma prefix_star c s :
  String.prefix "*" (String c s) = Ascii.eqb c "*"%char.
Proof.
  cbn [String.prefix]. destruct (ascii_dec "*" c) as [<-|Hne].
  - rewrite Ascii.eqb_refl. now destruct s.
  - symmetry. apply Ascii.eqb_neq. congruence.
Qed.

Lemma count_char_app x a b :
  count_char x (a ++ b) = count_char x a + count_char x b.
Proof. induction a as [|c a IH]; cbn; [reflexivity|]. rewrite IH. lia. Qed.

Lemma contains_star s :
  PyStr.contains "*" s = true <-> 0 < count_char "*" s.
Proof.
  induction s as [|c s IH]; cbn [PyStr.contains count_char].
  - cbn. split; [discriminate|lia].
  - rewrite prefix_star. destruct (Ascii.eqb c "*"); cbn.
    + split; [lia|reflexivity].
    + exact IH.
Qed.

Lemma split_from_length s :
  forall cur, List.length (PyStr.split_from "*" 0 cur s) = S (count_char "*" s).
Proof.
  induction s as [|c s IH]; intros cur; cbn [PyStr.split_from count_char].
  - reflexivity.
  - rewrite prefix_star. destruct (Ascii.eqb c "*"); cbn; now rewrite IH.
Qed.

Lemma split_from_nonempty s cur : PyStr.split_from "*" 0 cur s <> [].
Proof.
  intros H. pose proof (split_from_length s cur) as Hl. rewrite H in Hl. discriminate.
Qed.

Lemma append_assoc (a b c : string) : ((a ++ b) ++ c = a ++ (b ++ c))%string.
Proof. induction a as [|x a IH]; cbn; [reflexivity|now rewrite IH]. Qed.

Lemma append_nil_r (a : string) : (a ++ "" = a)%string.
Proof. induction a as [|x a IH]; cbn; [reflexivity|now rewrite IH]. Qed.

Lemma split_from_concat s :
  forall cur, String.concat "*" (PyStr.split_from "*" 0 cur s) = (cur ++ s)%string.
Proof.
  induction s as [|c s IH]; intros cur; cbn [PyStr.split_from].
  - cbn. now rewrite append_nil_r.
  - rewrite prefix_star. destruct (Ascii.eqb c "*") eqn:Hc.
    + apply Ascii.eqb_eq in Hc. subst c. cbn [String.length Nat.sub].
      cbn [String.concat].
      destruct (PyStr.split_from "*" 0 "" s) eqn:Hs.
      * exfalso. eapply split_from_nonempty. exact Hs.
      * rewrite <- Hs, IH. reflexivity.
    + rewrite IH, append_assoc. reflexivity.
Qed.

Lemma split_from_fields s :
  forall cur, count_char "*" cur = 0 ->
              Forall (fun f => count_char "*" f = 0) (PyStr.split_from "*" 0 cur s).
Proof.
  induction s as [|c s IH]; intros cur Hcur; cbn [PyStr.split_from].
  - constructor; [exact Hcur|constructor].
  - rewrite prefix_star. destruct (Ascii.eqb c "*") eqn:Hc.
    + constructor; [exact Hcur|]. apply IH. reflexivity.
    + apply IH. rewrite count_char_app. cbn. rewrite Hc. lia.
Qed.

Lemma concat_snoc sep l x :
  l <> [] -> String.concat sep (l ++ [x]) = (String.concat sep l ++ sep ++ x)%string.
Proof.
  induction l as [|a l IH]; intros Hne; [congruence|].
  destruct l as [|b l].
  - reflexivity.
  - cbn [app String.concat] in *. rewrite IH by discriminate.
    now rewrite !append_assoc.
Qed.

(** The fields of a text with at least one separator: the text is what
    precedes its last ["*"], that ["*"], and the last field. *)
Lemma split_last t :
  0 < count_char "*" t ->
  exists before,
    t = (before ++ "*" ++ List.last (PyStr.split "*" t) "")%string /\
    count_char "*" (List.last (PyStr.split "*" t) "") = 0.
Proof.
  intros Hpos. unfold PyStr.split.
  set (parts := PyStr.split_from "*" 0 "" t).
  assert (Hlen : List.length parts = S (count_char "*" t)) by apply split_from_length.
  assert (Hne : parts <> []) by apply split_from_nonempty.
  pose proof (app_removelast_last "" Hne) as Hparts.
  exists (String.concat "*" (removelast parts)). split.
  - rewrite <- concat_snoc.
    + rewrite <- Hparts. unfold parts. now rewrite split_from_concat.
    + intros Hnil. rewrite Hparts, Hnil in Hlen. cbn in Hlen. lia.
  - pose proof (split_from_fields t "" eq_refl) as Hall. fold parts in Hall.
    rewrite Forall_forall in Hall. apply Hall.
    rewrite Hparts at 2. apply in_or_app. right. now left.
Qed.

Lemma find_from_none hops :
  forall following,
    (forall t, In t (firstn hops following) -> is_marker t = false) ->
    find_recipe_identifier_from hops following = None.
Proof.
  induction hops as [|hops IH]; intros following H; cbn [find_recipe_identifier_from].
  - reflexivity.
  - destruct following as [|t rest]; [reflexivity|].
    cbn [firstn] in H. fold (is_marker t). rewrite (H t (or_introl eq_refl)).
    apply IH. intros t' Ht'. apply H. now right.
Qed.

Lemma normalize_other label :
  label <> "late night" -> dict_get meal_period_map label label = label.
Proof.
  intros Hne. unfold meal_period_map. cbn [dict_get].
  repeat match goal with
         | |- context [String.eqb label ?c] =>
             destruct (String.eqb_spec label c) as [->|?]; [reflexivity || congruence|]
         end.
  reflexivity.
Qed.

(** C3, as amended: a recipe identifier with fewer than three ["*"] (so with
    no ["*"] or fewer than four fields) gives no meal period, and the item is
    dropped; so is an item whose marker is not among the ten elements that
    follow its link.  Otherwise the meal period is the last field,
    lowercased and stripped of surrounding whitespace, then looked up in the
    synonym table, an unknown label passing through. *)
Theorem meal_period_of_recipe_text t :
  List.length (PyStr.split "*" t) = S (count_char "*" t) /\
  (PyStr.contains "*" t = true <-> 0 < count_char "*" t) /\
  (count_char "*" t < 3 -> extract_meal_period t = None) /\
  (3 <= count_char "*" t ->
   exists before label,
     t = (before ++ "*" ++ label)%string /\ count_char "*" label = 0 /\
     extract_meal_period t
     = Some (dict_get meal_period_map (PyStr.strip (PyStr.lower label))
                      (PyStr.strip (PyStr.lower label)))) /\
  (dict_get meal_period_map "late night" "late night" = "late_night" /\
   forall label, label <> "late night" -> dict_get meal_period_map label label = label) /\
  (forall following,
      (forall e, In e (firstn 10 following) -> is_marker e = false) ->
      find_recipe_identifier following = None) /\
  (forall self meal_data link following,
      find_recipe_identifier following = None \/
      (exists marker,
          find_recipe_identifier following = Some marker /\
          count_char "*" (get_text_strip (tag_strings marker)) < 3) ->
      add_food_link self meal_data (link, following) = meal_data).
Proof.
  assert (Hlen : forall u, List.length (PyStr.split "*" u) = S (count_char "*" u)).
  { intros u. apply split_from_length. }
  assert (Hnone : forall u, count_char "*" u < 3 -> extract_meal_period u = None).
  { intros u Hu. unfold extract_meal_period.
    destruct (PyStr.contains "*" u); [|reflexivity].
    rewrite Hlen. destruct (Nat.leb_spec 4 (S (count_char "*" u))); [lia|reflexivity]. }
  split; [apply Hlen|]. split; [apply contains_star|]. split; [apply Hnone|].
  split.
  { intros H3. destruct (split_last t) as (before & Ht & Hlabel); [lia|].
    exists before, (List.last (PyStr.split "*" t) "").
    split; [exact Ht|]. split; [exact Hlabel|].
    unfold extract_meal_period.
    assert (Hc : PyStr.contains "*" t = true) by (apply contains_star; lia).
    rewrite Hc, Hlen.
    destruct (Nat.leb_spec 4 (S (count_char "*" t))); [reflexivity|lia]. }
  split; [split; [reflexivity|apply normalize_other]|].
  split; [intros following H; now apply find_from_none|].
  intros self meal_data link following H. unfold add_food_link. cbn [fst snd].
  destruct (negb (PyStr.truthy (get_text_strip (tag_strings link)))); [reflexivity|].
  destruct H as [->|(marker & -> & Hfew)]; [reflexivity|].
  now rewrite (Hnone _ Hfew).
Qed.

(** The claim of C3 as worded fails: the label is also stripped. *)
Lemma meal_period_is_stripped :
  extract_meal_period "101*1*Entree* Lunch" = Some "lunch" /\
  claimed_meal_period "101*1*Entree* Lunch" = Some " lunch" /\
  extract_meal_period "101*1*Entree* Lunch" <> claimed_meal_period "101*1*Entree* Lunch".
Proof. repeat split. vm_compute. discriminate. Qed.

Example meal_period_examples :
  extract_meal_period "101*1*Entree*Late Night" = Some "late_night" /\
  extract_meal_period "101*1*Entree*Snack" = Some "snack" /\
  extract_meal_period "101*1*Breakfast" = None /\
  extract_meal_period "Breakfast" = None /\
  extract_meal_period "101*1*Entree*" = Some "".
Proof. repeat split. Qed.

Example marker_at_hop_ten_and_eleven :
  let filler := {| tag_name := "span"; tag_attrs := []; tag_class := [];
                   tag_strings := [] |} in
  let m := Demo.marker "101*1*Entree*Lunch" in
  find_recipe_identifier (repeat filler 9 ++ [m]) = Some m /\
  find_recipe_identifier (repeat filler 10 ++ [m]) = None.
Proof. split; reflexivity. Qed.

Example demo_menu :
  let md := fold_left (add_food_link Demo.scraper) (find_all_a label_re Demo.hall_page) [] in
  map (fun e => (fst e, map item_name (snd e))) md
  = [("breakfast", ["Eggs"; "Toast"]); ("lunch", ["Soup"])].
Proof. vm_compute. reflexivity. Qed.

(** ** The food digest *)

Section DigestProofs.

Variable py_title : string -> string.
Variable str_of_int : Z -> string.
Variable str_of_float : dec -> string.

Let bplus := buckets_plus py_title str_of_int str_of_float.
Let clines := class_lines py_title str_of_int str_of_float.

Lemma buckets_plus_nil b : bplus b [] = b.
Proof.
  subst bplus. destruct b. unfold buckets_plus, class_lines. cbn. now rewrite !app_nil_r.
Qed.

Lemma class_lines_app c e1 e2 : clines c (e1 ++ e2) = clines c e1 ++ clines c e2.
Proof. subst clines. unfold class_lines. now rewrite filter_app, map_app. Qed.

Lemma buckets_plus_app b e1 e2 : bplus (bplus b e1) e2 = bplus b (e1 ++ e2).
Proof.
  subst bplus. unfold buckets_plus. cbn. fold clines.
  now rewrite !class_lines_app, !app_assoc.
Qed.

Lemma add_item_plus hall_name meal_period b item :
  add_item py_title str_of_int str_of_float hall_name meal_period b item = bplus b [(hall_name, meal_period, item)].
Proof.
  subst bplus. unfold add_item. cbv zeta.
  change (match item_nutrition item with Some n => n | None => no_nutrition end)
    with (nutrition_or_empty item).
  change (match n_calories (nutrition_or_empty item) with
          | Some c => c | None => 0%Z end)
    with (item_calories item).
  unfold buckets_plus, class_lines, in_class, classify.
  cbn [filter map snd entry_line].
  destruct (item_calories item <? 50)%Z;
    [cbn; destruct b; cbn; now rewrite !app_nil_r|].
  destruct (any_in skip_words _);
    [cbn; destruct b; cbn; now rewrite !app_nil_r|].
  destruct (any_in protein_words _); [cbn; now rewrite !app_nil_r|].
  destruct (any_in carb_words _); cbn; now rewrite !app_nil_r.
Qed.

Lemma fold_items hall_name meal_period items :
  forall b,
    fold_left (add_item py_title str_of_int str_of_float hall_name meal_period) items b
    = bplus b (map (fun item => (hall_name, meal_period, item)) items).
Proof.
  induction items as [|item items IH]; intros b; cbn [fold_left map].
  - now rewrite buckets_plus_nil.
  - rewrite IH, add_item_plus, buckets_plus_app. reflexivity.
Qed.

Lemma fold_periods hall_name periods :
  forall b,
    fold_left (add_period py_title str_of_int str_of_float hall_name) periods b
    = bplus b (flat_map (period_entries hall_name) periods).
Proof.
  induction periods as [|entry periods IH]; intros b; cbn [fold_left flat_map].
  - now rewrite buckets_plus_nil.
  - rewrite IH. unfold add_period. rewrite fold_items, buckets_plus_app.
    reflexivity.
Qed.

Lemma fold_halls halls :
  forall b,
    fold_left (add_hall py_title str_of_int str_of_float) halls b
    = bplus b (flat_map hall_entries halls).
Proof.
  induction halls as [|hall halls IH]; intros b; cbn [fold_left flat_map].
  - now rewrite buckets_plus_nil.
  - rewrite IH. unfold add_hall. rewrite fold_periods, buckets_plus_app.
    reflexivity.
Qed.

Lemma fill_buckets_spec menu_data :
  fill_buckets py_title str_of_int str_of_float menu_data
  = {| proteins := clines Protein (menu_entries menu_data);
       carbs := clines Carb (menu_entries menu_data);
       other_foods := clines Other (menu_entries menu_data) |}.
Proof. unfold fill_buckets. rewrite fold_halls. reflexivity. Qed.

End DigestProofs.

Lemma classify_spec item :
  let name := PyStr.lower (item_name item) in
  let kept := (50 <=? item_calories item)%Z && negb (any_in skip_words name) in
  (classify item = None <-> kept = false) /\
  (classify item = Some Protein <-> kept = true /\ any_in protein_words name = true) /\
  (classify item = Some Carb <->
   kept = true /\ any_in protein_words name = false /\ any_in carb_words name = true) /\
  (classify item = Some Other <->
   kept = true /\ any_in protein_words name = false /\ any_in carb_words name = false).
Proof.
  intros name kept. subst kept. unfold classify. fold name.
  rewrite (Z.leb_antisym (item_calories item) 50).
  destruct (item_calories item <? 50)%Z, (any_in skip_words name),
    (any_in protein_words name), (any_in carb_words name); cbn;
    repeat split; intros; try discriminate; try tauto; intuition discriminate.
Qed.

(** C8: the digest lists the protein items first, then the carbohydrate
    staples, then everything else, each group in the order of the snapshot
    and cut at 80, 40 and 30 lines: at most 150 lines in all. *)
Theorem digest_order_and_bound py_title str_of_int str_of_float menu_data :
  let lines c :=
    class_lines py_title str_of_int str_of_float c (menu_entries menu_data) in
  let foods := all_foods py_title str_of_int str_of_float menu_data in
  foods = firstn 80 (lines Protein) ++ firstn 40 (lines Carb) ++ firstn 30 (lines Other) /\
  List.length foods <= 150 /\
  format_foods_for_ai py_title str_of_int str_of_float menu_data
  = String.concat (String "010"%char EmptyString) foods /\
  forall item,
    let name := PyStr.lower (item_name item) in
    let kept := (50 <=? item_calories item)%Z && negb (any_in skip_words name) in
    (in_class Protein item = true <-> kept = true /\ any_in protein_words name = true) /\
    (in_class Carb item = true <->
     kept = true /\ any_in protein_words name = false /\ any_in carb_words name = true) /\
    (in_class Other item = true <->
     kept = true /\ any_in protein_words name = false /\ any_in carb_words name = false).
Proof.
  intros lines foods. subst lines foods. unfold all_foods, format_foods_for_ai.
  rewrite fill_buckets_spec. cbn [proteins carbs other_foods].
  split; [reflexivity|]. split.
  { rewrite !length_app, !length_firstn. lia. }
  split; [unfold all_foods; now rewrite fill_buckets_spec|].
  intros item.
  destruct (classify_spec item) as (H0 & H1 & H2 & H3). cbv zeta in H0, H1, H2, H3.
  unfold in_class.
  destruct (classify item) as [[]|]; cbn [food_class_eqb];
    (split; [|split]); (split; [intros H|intros H]);
    try discriminate H; try reflexivity;
    try (apply H1; reflexivity); try (apply H2; reflexivity);
    try (apply H3; reflexivity);
    try (apply H1 in H; discriminate H); try (apply H2 in H; discriminate H);
    try (apply H3 in H; discriminate H).
Qed.

Example digest_of_three_items :
  let item name cal :=
    {| item_name := name; item_url := ""; item_recipe_id := "";
       item_nutrition := Some (set_calories no_nutrition cal) |} in
  let period items :=
    {| mp_items := items; mp_total_available := 0; mp_scraped_count := 0 |} in
  let hall :=
    {| hd_name := "D2"; hd_location_num := "15"; hd_url := "";
       hd_meal_periods :=
         [("lunch", period [item "Brown Rice" 200%Z; item "Ketchup" 20%Z;
                            item "Grilled Chicken" 300%Z; item "Chocolate Milk" 150%Z;
                            item "Salad" 90%Z])];
       hd_scrape_status := "completed"; hd_items_scraped := Some 5%Z; hd_error := None |} in
  let snap :=
    {| last_updated := 0; dining_halls := [hall]; config_max_items_per_meal := 10;
       config_request_delay := Dec 10 1; scrape_summary := None |} in
  all_foods (fun s => s) (fun _ => "n") (fun _ => "x") snap
  = [ "Grilled Chicken (D2, lunch) - Cal: n, P: ng, C: ng, F: ng";
      "Brown Rice (D2, lunch) - Cal: n, P: ng, C: ng, F: ng";
      "Salad (D2, lunch) - Cal: n, P: ng, C: ng, F: ng" ].
Proof. vm_compute. reflexivity. Qed.

(** ** Strings: prefixes, occurrences, stripping *)

Lemma prefix_spec p s :
  String.prefix p s = true <-> exists rest, s = (p ++ rest)%string.
Proof.
  revert s. induction p as [|a p IH]; intros s.
  - destruct s; cbn; split; eauto.
  - destruct s as [|b s]; cbn [String.prefix append].
    + split; [discriminate|]. intros (rest & H). discriminate H.
    + destruct (ascii_dec a b) as [->|Hab].
      * rewrite IH. split; intros (rest & H); exists rest.
        -- now rewrite H.
        -- now inversion H.
      * split; [discriminate|]. intros (rest & H). inversion H. subst. now elim Hab.
Qed.

Lemma contains_spec sub s : PyStr.contains sub s = true <-> occurs_in sub s.
Proof.
  unfold occurs_in. induction s as [|c s IH]; cbn [PyStr.contains].
  - rewrite prefix_spec. split.
    + intros (rest & H). exists "", rest. exact H.
    + intros (before & after & H). destruct before; [|discriminate H].
      cbn in H. now exists after.
  - rewrite orb_true_iff, prefix_spec, IH. split.
    + intros [(rest & H)|(before & after & H)].
      * exists "", rest. exact H.
      * exists (String c before), after. cbn. now rewrite H.
    + intros (before & after & H). destruct before as [|b before]; cbn in H.
      * left. now exists after.
      * right. inversion H. now exists before, after.
Qed.

Lemma lower_app a b : PyStr.lower (a ++ b) = (PyStr.lower a ++ PyStr.lower b)%string.
Proof. induction a as [|c a IH]; cbn; [reflexivity|now rewrite IH]. Qed.

Lemma occurs_in_trans a b c : occurs_in a b -> occurs_in b c -> occurs_in a c.
Proof.
  intros (p1 & q1 & ->) (p2 & q2 & ->).
  exists (p2 ++ p1)%string, (q1 ++ q2)%string.
  now rewrite !append_assoc.
Qed.

Lemma occurs_in_lower a b : occurs_in a b -> occurs_in (PyStr.lower a) (PyStr.lower b).
Proof.
  intros (p & q & ->). exists (PyStr.lower p), (PyStr.lower q).
  now rewrite !lower_app.
Qed.

Lemma rstrip_rstrip s : PyStr.rstrip (PyStr.rstrip s) = PyStr.rstrip s.
Proof.
  induction s as [|c s IH]; cbn [PyStr.rstrip]; [reflexivity|].
  destruct (PyStr.rstrip s) as [|d r] eqn:Hr.
  - destruct (PyStr.isspace c) eqn:Hc; cbn [PyStr.rstrip]; [reflexivity|].
    now rewrite Hc.
  - cbn [PyStr.rstrip]. cbn [PyStr.rstrip] in IH.
    destruct (match PyStr.rstrip r with
              | "" => if PyStr.isspace d then "" else String d ""
              | String a s0 => String d (String a s0)
              end) eqn:Hm; [discriminate IH|].
    now rewrite IH.
Qed.

Lemma lstrip_clean s : starts_clean (PyStr.lstrip s).
Proof.
  induction s as [|c s IH]; cbn; [exact I|].
  destruct (PyStr.isspace c) eqn:Hc; [exact IH|exact Hc].
Qed.

Lemma lstrip_of_clean s : starts_clean s -> PyStr.lstrip s = s.
Proof. destruct s as [|c s]; cbn; [reflexivity|]. now intros ->. Qed.

Lemma rstrip_clean s : starts_clean s -> starts_clean (PyStr.rstrip s).
Proof.
  destruct s as [|c s]; cbn [PyStr.rstrip starts_clean]; [auto|].
  intros Hc. destruct (PyStr.rstrip s); [rewrite Hc|]; exact Hc.
Qed.

Lemma strip_strip s : PyStr.strip (PyStr.strip s) = PyStr.strip s.
Proof.
  unfold PyStr.strip.
  rewrite (lstrip_of_clean (PyStr.rstrip (PyStr.lstrip s))).
  - apply rstrip_rstrip.
  - apply rstrip_clean, lstrip_clean.
Qed.

Lemma truthy_nonempty s : PyStr.truthy s = true <-> s <> EmptyString.
Proof. destruct s; cbn; split; congruence. Qed.

(** ** Dictionaries built by appending *)

Lemma dict_find_append {A} (d : list (string * list A)) k x p :
  dict_find (dict_append d k x) p
  = if String.eqb p k
    then Some (match dict_find d k with Some l => l ++ [x] | None => [x] end)
    else dict_find d p.
Proof.
  induction d as [|[k' l] d IH]; cbn [dict_append dict_find].
  - destruct (String.eqb p k); reflexivity.
  - destruct (String.eqb k k') eqn:Hk; cbn [dict_find].
    + apply String.eqb_eq in Hk. subst k'.
      destruct (String.eqb p k); reflexivity.
    + rewrite IH. destruct (String.eqb p k') eqn:Hp; [|reflexivity].
      apply String.eqb_eq in Hp. subst k'.
      destruct (String.eqb p k) eqn:Hpk; [|reflexivity].
      apply String.eqb_eq in Hpk. subst p. rewrite String.eqb_refl in Hk. discriminate.
Qed.

Lemma dict_append_keys {A} (d : list (string * list A)) k x :
  map fst (dict_append d k x)
  = if PyStr.eqb_in k (map fst d) then map fst d else map fst d ++ [k].
Proof.
  induction d as [|[k' l] d IH]; cbn [dict_append map fst]; [reflexivity|].
  unfold PyStr.eqb_in in *. cbn [existsb].
  destruct (String.eqb k k') eqn:Hk; cbn [map fst orb]; [reflexivity|].
  rewrite IH. destruct (existsb (String.eqb k) (map fst d)); reflexivity.
Qed.

Lemma fromkeys_step_NoDup keys k :
  NoDup keys -> NoDup (if PyStr.eqb_in k keys then keys else keys ++ [k]).
Proof.
  intros H. destruct (PyStr.eqb_in k keys) eqn:Hk; [exact H|].
  apply NoDup_app; [exact H|repeat constructor; intros []|].
  intros x Hx [<-|[]]. apply eqb_in_In in Hx. congruence.
Qed.

Lemma fromkeys_fold_NoDup l :
  forall keys, NoDup keys ->
    NoDup (fold_left (fun keys k => if PyStr.eqb_in k keys then keys else keys ++ [k]) l keys).
Proof.
  induction l as [|k l IH]; intros keys H; cbn [fold_left]; [exact H|].
  apply IH, fromkeys_step_NoDup, H.
Qed.

Lemma fromkeys_fold_In l x :
  forall keys,
    In x (fold_left (fun keys k => if PyStr.eqb_in k keys then keys else keys ++ [k]) l keys)
    <-> In x keys \/ In x l.
Proof.
  induction l as [|k l IH]; intros keys; cbn [fold_left].
  - cbn. tauto.
  - rewrite IH. destruct (PyStr.eqb_in k keys) eqn:Hk.
    + apply eqb_in_In in Hk. cbn. split; [tauto|]. intros [H|[<-|H]]; auto.
    + rewrite in_app_iff. cbn. tauto.
Qed.

Lemma dict_fromkeys_NoDup l : NoDup (dict_fromkeys l).
Proof. apply fromkeys_fold_NoDup. constructor. Qed.

Lemma dict_fromkeys_In l x : In x (dict_fromkeys l) <-> In x l.
Proof. unfold dict_fromkeys. rewrite fromkeys_fold_In. cbn. tauto. Qed.

(** The dictionary built from [d] by appending each entry under its key. *)
Lemma grouped_find {A} (entries : list (string * A)) p :
  forall d,
    dict_find (fold_left (fun d e => dict_append d (fst e) (snd e)) entries d) p
    = match dict_find d p, map snd (filter (fun e => String.eqb p (fst e)) entries) with
      | Some l, more => Some (l ++ more)
      | None, [] => None
      | None, more => Some more
      end.
Proof.
  induction entries as [|[k x] entries IH]; intros d; cbn [fold_left filter map fst snd].
  - destruct (dict_find d p); [now rewrite app_nil_r|reflexivity].
  - rewrite IH, dict_find_append. destruct (String.eqb p k) eqn:Hpk.
    + apply String.eqb_eq in Hpk. subst k. cbn [map snd].
      destruct (dict_find d p) as [l|]; [now rewrite <- app_assoc|reflexivity].
    + destruct (dict_find d p); reflexivity.
Qed.

Lemma grouped_keys {A} (entries : list (string * A)) :
  forall d,
    map fst (fold_left (fun d e => dict_append d (fst e) (snd e)) entries d)
    = fold_left (fun keys k => if PyStr.eqb_in k keys then keys else keys ++ [k])
                (map fst entries) (map fst d).
Proof.
  induction entries as [|[k x] entries IH]; intros d; cbn [fold_left map fst snd];
    [reflexivity|].
  now rewrite IH, dict_append_keys.
Qed.

Lemma dict_find_In {A} (d : list (string * A)) p x :
  NoDup (map fst d) -> In (p, x) d -> dict_find d p = Some x.
Proof.
  induction d as [|[k v] d IH]; cbn [map fst dict_find]; [intros _ []|].
  intros Hnd [Heq|Hin].
  - inversion Heq; subst. now rewrite String.eqb_refl.
  - inversion Hnd as [|? ? Hk Hnd']; subst.
    destruct (String.eqb p k) eqn:Hpk; [|auto].
    apply String.eqb_eq in Hpk. subst k. exfalso. apply Hk.
    change p with (fst (p, x)). now apply in_map.
Qed.

(** ** The recipe identifier of a food link *)

(** X1: [find_recipe_identifier] returns the first recipe-identifier [div]
    that comes after the link, provided fewer than ten other elements stand
    between them; it returns nothing in every other case. *)
Theorem recipe_identifier_is_first_marker following m :
  find_recipe_identifier following = Some m <->
  exists before after,
    following = before ++ m :: after /\
    List.length before < 10 /\
    is_marker m = true /\
    Forall (fun t => is_marker t = false) before.
Proof.
  unfold find_recipe_identifier. generalize 10 as hops. intros hops.
  revert following m.
  induction hops as [|hops IH]; intros following m; cbn [find_recipe_identifier_from].
  - split; [discriminate|]. intros (before & after & _ & H & _). lia.
  - destruct following as [|t rest].
    + split; [discriminate|]. intros (before & after & H & _).
      destruct before; discriminate H.
    + fold (is_marker t). destruct (is_marker t) eqn:Ht.
      * split.
        -- intros H. inversion H; subst. exists [], rest. cbn.
           repeat split; [lia|exact Ht|constructor].
        -- intros (before & after & H & _ & _ & Hb).
           destruct before as [|b before]; cbn in H; inversion H; subst; [reflexivity|].
           inversion Hb; subst. congruence.
      * rewrite IH. split.
        -- intros (before & after & -> & Hlen & Hm & Hb).
           exists (t :: before), after. cbn. repeat split; [lia|exact Hm|].
           constructor; assumption.
        -- intros (before & after & H & Hlen & Hm & Hb).
           destruct before as [|b before]; cbn in H; inversion H; subst; [congruence|].
           exists before, after. cbn in Hlen. inversion Hb; subst.
           repeat split; [lia|exact Hm|assumption].
Qed.

(** ** The menu of a hall *)

Lemma add_food_link_entry self meal_data lf :
  add_food_link self meal_data lf
  = match food_entry self lf with
    | Some e => dict_append meal_data (fst e) (snd e)
    | None => meal_data
    end.
Proof.
  unfold food_entry, add_food_link.
  destruct (negb (PyStr.truthy (get_text_strip (tag_strings (fst lf))))); [reflexivity|].
  destruct (find_recipe_identifier (snd lf)) as [recipe_div|]; [|reflexivity].
  destruct (extract_meal_period (get_text_strip (tag_strings recipe_div)))
    as [meal_period|]; [|reflexivity].
  destruct (PyStr.truthy meal_period); reflexivity.
Qed.

Lemma fold_food_links self links :
  forall meal_data,
    fold_left (add_food_link self) links meal_data
    = fold_left (fun d e => dict_append d (fst e) (snd e)) (food_entries self links)
                meal_data.
Proof.
  induction links as [|lf links IH]; intros meal_data; [reflexivity|].
  cbn [fold_left food_entries flat_map]. rewrite fold_left_app, IH, add_food_link_entry.
  destruct (food_entry self lf); reflexivity.
Qed.

Lemma food_entry_item self lf p item :
  food_entry self lf = Some (p, item) ->
  p <> EmptyString /\
  item_name item = get_text_strip (tag_strings (fst lf)) /\
  item_name item <> EmptyString /\
  extract_meal_period (item_recipe_id item) = Some p /\
  item_nutrition item = None /\
  (exists marker, find_recipe_identifier (snd lf) = Some marker /\
                  item_recipe_id item = get_text_strip (tag_strings marker)) /\
  (PyStr.startswith "http" (item_url item) = true \/
   PyStr.startswith (base_url self ++ "/menus/") (item_url item) = true).
Proof.
  unfold food_entry, add_food_link.
  destruct (PyStr.truthy (get_text_strip (tag_strings (fst lf)))) eqn:Hname;
    cbn [negb]; [|discriminate].
  destruct (find_recipe_identifier (snd lf)) as [recipe_div|]; [|discriminate].
  destruct (extract_meal_period (get_text_strip (tag_strings recipe_div)))
    as [meal_period|] eqn:Hp; [|discriminate].
  destruct (PyStr.truthy meal_period) eqn:Hmp; [|discriminate].
  cbn [dict_append]. intros H. inversion H; subst; clear H. cbn.
  apply truthy_nonempty in Hmp, Hname.
  repeat split; try assumption.
  - now exists recipe_div.
  - destruct (PyStr.startswith "http" (dict_get (tag_attrs (fst lf)) "href" "")) eqn:Hh;
      cbn [negb]; [now left|right].
    unfold PyStr.startswith. apply prefix_spec.
    exists (dict_get (tag_attrs (fst lf)) "href" "").
    now rewrite append_assoc.
Qed.

Lemma food_entries_In self links p item :
  In (p, item) (food_entries self links) ->
  exists lf, In lf links /\ food_entry self lf = Some (p, item).
Proof.
  unfold food_entries. rewrite in_flat_map. intros (lf & Hlf & Hin).
  exists lf. split; [exact Hlf|].
  destruct (food_entry self lf) as [e|]; [|destruct Hin].
  destruct Hin as [->|[]]. reflexivity.
Qed.

Lemma menu_of_page self url w :
  exists w',
    get_meal_periods_and_categories self url w
    = (Ok (fold_left (add_food_link self) (food_links_at self url w) []), w').
Proof.
  unfold get_meal_periods_and_categories, food_links_at, fetched_page, try_except, bind,
    is_exception, ret.
  destruct (make_request self url None w) as [[[r|]|e] w']; cbn [fst]; eauto.
Qed.

(** X2: the menu of a hall is the kept food links of its page grouped by
    meal period: the keys are the meal periods in the order they first
    occur, each once, and a key holds the items of that period in document
    order.  When the page cannot be fetched the menu is empty. *)
Theorem menu_grouped_by_meal_period self url w :
  let entries := food_entries self (food_links_at self url w) in
  exists meal_data w',
    get_meal_periods_and_categories self url w = (Ok meal_data, w') /\
    map fst meal_data = dict_fromkeys (map fst entries) /\
    NoDup (map fst meal_data) /\
    (forall meal_period,
        dict_find meal_data meal_period
        = match items_of_period meal_period entries with
          | [] => None
          | items => Some items
          end) /\
    (fetched_page self url w = None -> meal_data = []).
Proof.
  intros entries. destruct (menu_of_page self url w) as (w' & Hrun).
  eexists. exists w'. split; [exact Hrun|].
  rewrite fold_food_links. fold entries. repeat split.
  - now rewrite grouped_keys.
  - rewrite grouped_keys. apply fromkeys_fold_NoDup. constructor.
  - intros meal_period. now rewrite grouped_find.
  - intros Hnone. subst entries. unfold food_links_at. now rewrite Hnone.
Qed.

(** X3: every item of a hall's menu has a non-empty name, carries the
    recipe identifier whose last field gives the meal period it is filed
    under, has no nutrition yet, and has an absolute URL: its own when that
    begins with "http", else one under the site's [/menus/]. No meal period
    is empty-named or without items. *)
Theorem menu_items_wellformed self url w :
  exists meal_data w',
    get_meal_periods_and_categories self url w = (Ok meal_data, w') /\
    forall meal_period items,
      In (meal_period, items) meal_data ->
      meal_period <> EmptyString /\ items <> [] /\
      Forall (fun item =>
                item_name item <> EmptyString /\
                extract_meal_period (item_recipe_id item) = Some meal_period /\
                item_nutrition item = None /\
                (PyStr.startswith "http" (item_url item) = true \/
                 PyStr.startswith (base_url self ++ "/menus/") (item_url item) = true))
             items.
Proof.
  destruct (menu_of_page self url w) as (w' & Hrun).
  eexists. exists w'. split; [exact Hrun|].
  intros meal_period items Hin.
  assert (Hfind : dict_find (fold_left (add_food_link self) (food_links_at self url w) [])
                            meal_period = Some items).
  { apply dict_find_In; [|exact Hin].
    rewrite fold_food_links, grouped_keys. apply fromkeys_fold_NoDup. constructor. }
  rewrite fold_food_links, grouped_find in Hfind. cbn [dict_find] in Hfind.
  set (entries := food_entries self (food_links_at self url w)) in *.
  assert (Hitems : items = items_of_period meal_period entries /\ items <> []).
  { unfold items_of_period.
    destruct (map snd (filter (fun e => String.eqb meal_period (fst e)) entries));
      [discriminate Hfind|].
    inversion Hfind. split; [reflexivity|discriminate]. }
  destruct Hitems as [Hitems Hne].
  assert (Hall : forall item, In item items ->
                   exists lf, food_entry self lf = Some (meal_period, item)).
  { intros item Hi. rewrite Hitems in Hi. unfold items_of_period in Hi.
    apply in_map_iff in Hi. destruct Hi as ([p it] & Heq & Hf). cbn in Heq. subst it.
    apply filter_In in Hf. destruct Hf as [Hf Hp]. cbn in Hp.
    apply String.eqb_eq in Hp. subst p.
    destruct (food_entries_In _ _ _ _ Hf) as (lf & _ & He). now exists lf. }
  assert (Hp : meal_period <> EmptyString).
  { destruct items as [|item items']; [congruence|].
    destruct (Hall item (or_introl eq_refl)) as (lf & He).
    apply (food_entry_item _ _ _ _ He). }
  repeat split; try assumption.
  apply Forall_forall. intros item Hi. destruct (Hall item Hi) as (lf & He).
  destruct (food_entry_item _ _ _ _ He) as (_ & _ & H1 & H2 & H3 & _ & H4). auto.
Qed.

(** ** Matches of a pattern *)

Lemma run_consumes ic r :
  forall s c rest g, In (c, rest, g) (Regex.run ic r s) -> s = (c ++ rest)%string.
Proof.
  induction r as [|x|k|r1 IH1 r2 IH2|r1 IH1 r2 IH2|r1 IH1|k|k|r1 IH1];
    intros s c rest g Hin.
  - cbn in Hin. destruct Hin as [H|[]]. now inversion H.
  - cbn in Hin. destruct s as [|y s]; [destruct Hin|].
    destruct (Regex.chr_eqb ic x y); [|destruct Hin].
    destruct Hin as [H|[]]. now inversion H.
  - cbn in Hin. destruct s as [|y s]; [destruct Hin|].
    destruct (Regex.in_class ic k y); [|destruct Hin].
    destruct Hin as [H|[]]. now inversion H.
  - apply run_seq in Hin.
    destruct Hin as (c1 & rest1 & g1 & c2 & rest2 & g2 & H1 & H2 & Heq).
    inversion Heq; subst. apply IH1 in H1. apply IH2 in H2. subst.
    now rewrite append_assoc.
  - cbn [Regex.run] in Hin. apply in_app_or in Hin. destruct Hin; eauto.
  - cbn [Regex.run] in Hin. apply in_app_or in Hin. destruct Hin as [H|[H|[]]]; eauto.
    now inversion H.
  - cbn [Regex.run] in Hin. apply in_map_iff in Hin.
    destruct Hin as ([a b] & Heq & Hin). inversion Heq; subst.
    now apply star_runs_spec in Hin.
  - cbn [Regex.run] in Hin. apply in_map_iff in Hin.
    destruct Hin as ([a b] & Heq & Hin). inversion Heq; subst.
    now apply plus_runs_spec in Hin.
  - cbn [Regex.run] in Hin. apply in_map_iff in Hin.
    destruct Hin as ([[c' rest'] g'] & Heq & Hin). inversion Heq; subst. eauto.
Qed.

(** A found match is the first way of matching at some position. *)
Lemma search_at ic r s m :
  Regex.search ic r s = Some m ->
  exists before rest others,
    s = (before ++ Regex.group0 m ++ rest)%string /\
    Regex.run ic r (Regex.group0 m ++ rest)
    = (Regex.group0 m, rest, Regex.group1 m) :: others.
Proof.
  induction s as [|x s IH].
  - cbn [Regex.search]. destruct (Regex.run ic r "") as [|[[c rest] g] others] eqn:Hrun;
      [discriminate|].
    intros H. inversion H; subst; clear H. cbn [Regex.group0 Regex.group1].
    assert (Hs : "" = (c ++ rest)%string).
    { apply (run_consumes ic r "" c rest g). rewrite Hrun. now left. }
    exists "", rest, others. cbn [append]. split; [exact Hs|]. now rewrite <- Hs.
  - cbn [Regex.search].
    destruct (Regex.run ic r (String x s)) as [|[[c rest] g] others] eqn:Hrun.
    + intros H. destruct (IH H) as (before & rest & others & Hs & Hr).
      exists (String x before), rest, others. cbn [append]. now rewrite <- Hs.
    + intros H. inversion H; subst; clear H. cbn [Regex.group0 Regex.group1].
      assert (Hs : String x s = (c ++ rest)%string).
      { apply (run_consumes ic r _ c rest g). rewrite Hrun. now left. }
      exists "", rest, others. cbn [append]. split; [exact Hs|]. now rewrite <- Hs.
Qed.

(** Without [re.IGNORECASE] a literal matches itself only, in one way. *)
Lemma run_lit t :
  forall s,
    Regex.run false (Regex.lit t) s = [] \/
    exists rest, Regex.run false (Regex.lit t) s = [(t, rest, None)] /\
                 s = (t ++ rest)%string.
Proof.
  induction t as [|x t IH]; intros s.
  - right. now exists s.
  - assert (Hx : forall s,
               Regex.run false (Regex.RChar x) s = [] \/
               exists rest, Regex.run false (Regex.RChar x) s = [(String x "", rest, None)] /\
                            s = String x rest).
    { intros s0. cbn. destruct s0 as [|y s0]; [now left|].
      destruct (Ascii.eqb x y) eqn:Hxy; [|now left].
      apply Ascii.eqb_eq in Hxy. subst y. right. now exists s0. }
    destruct t as [|y t]; [exact (Hx s)|].
    change (Regex.lit (String x (String y t)))
      with (Regex.RSeq (Regex.RChar x) (Regex.lit (String y t))).
    specialize (Hx s). revert Hx IH.
    generalize (Regex.RChar x) (Regex.lit (String y t)). intros rx rt Hx IH.
    cbn [Regex.run].
    destruct Hx as [->|(rest1 & -> & ->)]; [now left|].
    cbn [flat_map]. rewrite app_nil_r.
    destruct (IH rest1) as [->|(rest2 & -> & ->)]; [now left|].
    right. now exists rest2.
Qed.

(** The first run of [+] over a class is the longest one. *)
Lemma star_runs_head p s :
  exists a b others,
    Regex.star_runs p s = (a, b) :: others /\
    match b with EmptyString => True | String x _ => p x = false end.
Proof.
  induction s as [|x s IH]; cbn [Regex.star_runs].
  - now exists "", "", [].
  - destruct (p x) eqn:Hx.
    + destruct IH as (a & b & others & -> & Hb). cbn [map fst snd app].
      now exists (String x a), b, (map (fun ab => (String x (fst ab), snd ab)) others
                                    ++ [("", String x s)]).
    + exists "", (String x s), []. now split.
Qed.

Lemma plus_runs_head p s a b others :
  Regex.plus_runs p s = (a, b) :: others ->
  match b with EmptyString => True | String x _ => p x = false end.
Proof.
  unfold Regex.plus_runs. destruct s as [|x s]; [discriminate|].
  destruct (p x); [|discriminate].
  destruct (star_runs_head p s) as (a' & b' & others' & -> & Hb).
  cbn [map fst snd]. intros H. now inversion H; subst.
Qed.

Lemma no_amp_count s :
  all_chars (Regex.in_class false (Regex.CNoneOf ["&"%char])) s = true ->
  count_char "&" s = 0.
Proof.
  induction s as [|x s IH]; cbn; [reflexivity|].
  unfold Regex.chr_eqb. rewrite orb_false_r, andb_true_iff, negb_true_iff.
  intros [Hx Hs]. now rewrite Hx, IH.
Qed.

(** What [location_re] finds in an [href]. *)
Lemma location_match href m :
  Regex.search false location_re href = Some m ->
  exists before num after,
    Regex.group1 m = Some num /\
    href = (before ++ "locationNum=" ++ num ++ after)%string /\
    num <> EmptyString /\ count_char "&" num = 0 /\
    (after = EmptyString \/ exists after', after = String "&" after').
Proof.
  intros Hs. destruct (search_at _ _ _ _ Hs) as (before & rest & others & Hhref & Hrun).
  unfold location_re in Hrun. cbn [Regex.run] in Hrun.
  destruct (run_lit "locationNum=" (Regex.group0 m ++ rest)) as [H1|(rest1 & H1 & Hsplit)];
    rewrite H1 in Hrun; [discriminate Hrun|].
  cbn [flat_map] in Hrun. rewrite app_nil_r in Hrun.
  destruct (Regex.plus_runs (Regex.in_class false (Regex.CNoneOf ["&"%char])) rest1)
    as [|[a b] runs] eqn:Hp; [discriminate Hrun|].
  cbn in Hrun. inversion Hrun as [[H0 Hrest Hg]]. clear Hrun.
  assert (Hab : In (a, b) (Regex.plus_runs
                             (Regex.in_class false (Regex.CNoneOf ["&"%char])) rest1))
    by (rewrite Hp; now left).
  apply plus_runs_spec in Hab. destruct Hab as (Hr1 & Hall & Hne).
  pose proof (plus_runs_head _ _ _ _ _ Hp) as Hhead.
  exists before, a, b.
  split; [now symmetry|]. split; [|split; [exact Hne|split; [now apply no_amp_count|]]].
  - now rewrite Hhref, Hsplit, Hr1.
  - destruct b as [|x b']; [now left|right].
    cbn in Hhead. unfold Regex.chr_eqb in Hhead.
    rewrite orb_false_r, negb_false_iff in Hhead. apply Ascii.eqb_eq in Hhead.
    subst x. now exists b'.
Qed.

(** ** The hall directory *)

Lemma add_hall_link_hall self dining_halls lf :
  add_hall_link self dining_halls lf
  = dining_halls ++ match hall_of_link self lf with Some h => [h] | None => [] end.
Proof.
  unfold hall_of_link, add_hall_link.
  destruct (dict_find (tag_attrs (fst lf)) "href") as [href|]; [|now rewrite app_nil_r].
  destruct (PyStr.truthy (PyStr.strip (dict_get (tag_attrs (fst lf)) "title" ""))
            && PyStr.truthy href); [|now rewrite app_nil_r].
  destruct (Regex.search false location_re href) as [m|]; [|now rewrite app_nil_r].
  destruct (Regex.group1 m); [reflexivity|now rewrite app_nil_r].
Qed.

Lemma fold_hall_links self links :
  forall dining_halls,
    fold_left (add_hall_link self) links dining_halls
    = dining_halls ++ halls_of_links self links.
Proof.
  induction links as [|lf links IH]; intros dining_halls; cbn [fold_left].
  - cbn. now rewrite app_nil_r.
  - rewrite IH, add_hall_link_hall. unfold halls_of_links. cbn [flat_map].
    now rewrite <- app_assoc.
Qed.

Lemma hall_of_link_wellformed self lf hall :
  hall_of_link self lf = Some hall -> hall_wellformed self hall.
Proof.
  unfold hall_of_link, add_hall_link.
  destruct (dict_find (tag_attrs (fst lf)) "href") as [href|]; [|discriminate].
  destruct (PyStr.truthy (PyStr.strip (dict_get (tag_attrs (fst lf)) "title" "")))
    eqn:Htitle; cbn [andb]; [|discriminate].
  destruct (PyStr.truthy href); [|discriminate].
  destruct (Regex.search false location_re href) as [m|] eqn:Hm; [|discriminate].
  destruct (location_match _ _ Hm) as (before & num & after & Hg & Hhref & Hne & Hamp & Hafter).
  rewrite Hg. cbn [app]. intros H. inversion H; subst hall; clear H.
  unfold hall_wellformed. cbn.
  split; [now apply truthy_nonempty|]. split; [apply strip_strip|].
  split; [exact Hne|]. split; [exact Hamp|].
  exists before, after. split; [|exact Hafter]. now rewrite Hhref.
Qed.

Lemma fallback_wellformed self : Forall (hall_wellformed self) (get_fallback_dining_halls self).
Proof.
  unfold get_fallback_dining_halls.
  repeat constructor; cbn; try discriminate;
    (exists "MenuAtLocation.aspx?", "&naFlag=1"; split; [reflexivity|right; eauto]).
Qed.

(** X4: [discover_dining_halls] never returns an empty list.  It returns
    either the four fallback halls or the halls read from the links of the
    directory page, in document order; in both cases every hall has a
    non-empty name without surrounding whitespace and a URL under the site's
    [/menus/] in which its non-empty location number follows "locationNum="
    and runs up to the next "&" or the end. *)
Theorem discovered_halls_wellformed self w :
  exists halls w',
    discover_dining_halls self w = (Ok halls, w') /\
    halls <> [] /\
    (halls = get_fallback_dining_halls self \/
     exists soup,
       fetched_page self (menu_base self ++ "/") w = Some soup /\
       halls = halls_of_links self (find_all_a hall_link_re soup)) /\
    Forall (hall_wellformed self) halls.
Proof.
  unfold discover_dining_halls, fetched_page, try_except, bind, is_exception, ret.
  destruct (make_request self (menu_base self ++ "/") None w) as [[[r|]|e] w'];
    cbn [fst].
  - rewrite fold_hall_links. cbn [app].
    destruct (halls_of_links self (find_all_a hall_link_re (content r)))
      as [|hall halls] eqn:Hh.
    + do 2 eexists. split; [reflexivity|]. split; [discriminate|].
      split; [now left|apply fallback_wellformed].
    + do 2 eexists. split; [reflexivity|]. split; [discriminate|]. split.
      * right. exists (content r). split; [reflexivity|now symmetry].
      * rewrite <- Hh. apply Forall_forall. intros h Hin.
        unfold halls_of_links in Hin. apply in_flat_map in Hin.
        destruct Hin as (lf & _ & Hin).
        destruct (hall_of_link self lf) as [h'|] eqn:Hl; [|destruct Hin].
        destruct Hin as [<-|[]]. eapply hall_of_link_wellformed, Hl.
  - do 2 eexists. split; [reflexivity|]. split; [discriminate|].
    split; [now left|apply fallback_wellformed].
  - do 2 eexists. split; [reflexivity|]. split; [discriminate|].
    split; [now left|apply fallback_wellformed].
Qed.

(** ** The serving size *)

Lemma count_char_lstrip x s : count_char x (PyStr.lstrip s) <= count_char x s.
Proof.
  induction s as [|c s IH]; cbn [PyStr.lstrip]; [lia|].
  destruct (PyStr.isspace c); [cbn; lia|lia].
Qed.

Lemma count_char_rstrip x s : count_char x (PyStr.rstrip s) <= count_char x s.
Proof.
  induction s as [|c s IH]; cbn [PyStr.rstrip]; [lia|].
  destruct (PyStr.rstrip s) as [|d r].
  - destruct (PyStr.isspace c); cbn in *; lia.
  - cbn [count_char] in *. lia.
Qed.

Lemma count_char_strip x s : count_char x (PyStr.strip s) <= count_char x s.
Proof.
  unfold PyStr.strip.
  pose proof (count_char_rstrip x (PyStr.lstrip s)). pose proof (count_char_lstrip x s). lia.
Qed.

Lemma not_comma_count s : all_chars not_comma s = true -> count_char "," s = 0.
Proof.
  induction s as [|c s IH]; cbn; [reflexivity|].
  unfold not_comma. rewrite andb_true_iff, negb_true_iff. intros [-> Hs]. now rewrite IH.
Qed.

Lemma consumes_eps P : consumes P Regex.REps.
Proof. intros ic s w [<-|[]]. reflexivity. Qed.

Lemma consumes_char c :
  (forall ic, Regex.chr_eqb ic c "," = false) -> consumes not_comma (Regex.RChar c).
Proof.
  intros Hc ic s w Hin. cbn in Hin. destruct s as [|x s]; [destruct Hin|].
  destruct (Regex.chr_eqb ic c x) eqn:Hx; [|destruct Hin].
  destruct Hin as [<-|[]]. cbn. rewrite andb_true_r. unfold not_comma.
  destruct (Ascii.eqb x ",") eqn:He; [|reflexivity].
  apply Ascii.eqb_eq in He. subst x. now rewrite Hc in Hx.
Qed.

Lemma class_not_comma k :
  (forall ic, Regex.in_class ic k "," = false) ->
  forall ic s, all_chars (Regex.in_class ic k) s = true -> all_chars not_comma s = true.
Proof.
  intros Hk ic s. induction s as [|x s IH]; cbn; [reflexivity|].
  rewrite !andb_true_iff. intros [Hx Hs]. split; [|auto]. unfold not_comma.
  destruct (Ascii.eqb x ",") eqn:He; [|reflexivity].
  apply Ascii.eqb_eq in He. subst x. now rewrite Hk in Hx.
Qed.

Lemma consumes_class k :
  (forall ic, Regex.in_class ic k "," = false) -> consumes not_comma (Regex.RClass k).
Proof.
  intros Hk ic s w Hin. cbn in Hin. destruct s as [|x s]; [destruct Hin|].
  destruct (Regex.in_class ic k x) eqn:Hx; [|destruct Hin].
  destruct Hin as [<-|[]]. cbn [fst].
  apply (class_not_comma k Hk ic). cbn. now rewrite Hx.
Qed.

Lemma consumes_star k :
  (forall ic, Regex.in_class ic k "," = false) -> consumes not_comma (Regex.RStar k).
Proof.
  intros Hk ic s w Hin. cbn in Hin. apply in_map_iff in Hin.
  destruct Hin as ([a b] & <- & Hin). apply star_runs_spec in Hin.
  cbn. apply (class_not_comma k Hk ic), Hin.
Qed.

Lemma consumes_plus k :
  (forall ic, Regex.in_class ic k "," = false) -> consumes not_comma (Regex.RPlus k).
Proof.
  intros Hk ic s w Hin. cbn in Hin. apply in_map_iff in Hin.
  destruct Hin as ([a b] & <- & Hin). apply plus_runs_spec in Hin.
  cbn. apply (class_not_comma k Hk ic), Hin.
Qed.

Lemma consumes_seq P r1 r2 : consumes P r1 -> consumes P r2 -> consumes P (Regex.RSeq r1 r2).
Proof.
  intros H1 H2 ic s w Hin. apply run_seq in Hin.
  destruct Hin as (c1 & rest1 & g1 & c2 & rest2 & g2 & Hi1 & Hi2 & ->).
  cbn [fst]. rewrite all_chars_app.
  apply H1 in Hi1. apply H2 in Hi2. cbn [fst] in Hi1, Hi2. now rewrite Hi1, Hi2.
Qed.

Lemma consumes_alt P r1 r2 : consumes P r1 -> consumes P r2 -> consumes P (Regex.RAlt r1 r2).
Proof.
  intros H1 H2 ic s w Hin. cbn [Regex.run] in Hin. apply in_app_or in Hin.
  destruct Hin; eauto.
Qed.

Lemma consumes_opt P r : consumes P r -> consumes P (Regex.ROpt r).
Proof.
  intros H ic s w Hin. cbn [Regex.run] in Hin. apply in_app_or in Hin.
  destruct Hin as [Hin|[<-|[]]]; [eauto|reflexivity].
Qed.

Lemma consumes_group P r : consumes P r -> consumes P (Regex.RGroup r).
Proof.
  intros H ic s w Hin. cbn [Regex.run] in Hin. apply in_map_iff in Hin.
  destruct Hin as ([[c rest] g] & <- & Hin). apply (H _ _ _ Hin).
Qed.

Ltac solve_consumes :=
  cbv [Regex.seqs Regex.lit Patterns.sep Patterns.ws Patterns.ws1 Patterns.colon
       Patterns.decimal Patterns.unit_word Patterns.to_comma_or_newline];
  repeat first
    [ apply consumes_seq | apply consumes_alt | apply consumes_opt | apply consumes_group
    | apply consumes_eps
    | apply consumes_char; intros []; reflexivity
    | apply consumes_class; intros []; reflexivity
    | apply consumes_star; intros []; reflexivity
    | apply consumes_plus; intros []; reflexivity ].

Lemma serving_patterns_capture p :
  In p Patterns.serving_patterns -> captures (fun g => count_char "," g = 0) p.
Proof.
  unfold Patterns.serving_patterns. intros Hp.
  repeat (destruct Hp as [<-|Hp]; [|]); try destruct Hp;
    (apply captures_intro; [reflexivity|]; solve_groups; apply not_comma_count;
     revert ic s w Hin;
     match goal with
     | |- forall ic s w, In w (Regex.run ic ?r s) -> _ => change (consumes not_comma r)
     end;
     solve_consumes).
Qed.

Lemma first_serving_spec ps text :
  (forall p, In p ps -> captures (fun g => count_char "," g = 0) p) ->
  first_serving ps text
  = match first_match ps text with
    | Some m => option_map PyStr.strip (Regex.group1 m)
    | None => None
    end.
Proof.
  induction ps as [|p ps IH]; intros Hcap; cbn [first_serving first_match]; [reflexivity|].
  destruct (Regex.search true p text) as [m|] eqn:Hs.
  - destruct (Regex.group1 m); reflexivity.
  - apply IH. intros q Hq. apply Hcap. now right.
Qed.

Lemma serving_match_captures page_text m :
  first_match Patterns.serving_patterns page_text = Some m ->
  exists g, Regex.group1 m = Some g /\ count_char "," g = 0.
Proof.
  intros Hm. destruct (first_match_In _ _ _ Hm) as (p & Hp & Hs).
  exact (serving_patterns_capture p Hp page_text m Hs).
Qed.

Lemma extract_serving_size_clean page_text serving_size :
  extract_serving_size page_text = Some serving_size ->
  PyStr.strip serving_size = serving_size /\ count_char "," serving_size = 0.
Proof.
  unfold extract_serving_size.
  rewrite (first_serving_spec _ _ serving_patterns_capture).
  destruct (first_match Patterns.serving_patterns page_text) as [m|] eqn:Hm; [|discriminate].
  destruct (serving_match_captures _ _ Hm) as (g & -> & Hg). cbn.
  intros H. inversion H; subst.
  split; [apply strip_strip|].
  pose proof (count_char_strip "," g). lia.
Qed.

(** X5: [extract_serving_size] returns the text captured by the first of
    its three patterns that is found in the page, stripped; every pattern
    that is found does capture.  What is returned therefore has no
    surrounding whitespace and holds no comma. *)
Theorem serving_size_is_stripped_capture page_text :
  extract_serving_size page_text
  = match first_match Patterns.serving_patterns page_text with
    | Some m => option_map PyStr.strip (Regex.group1 m)
    | None => None
    end /\
  (forall m, first_match Patterns.serving_patterns page_text = Some m ->
             Regex.group1 m <> None) /\
  (forall serving_size,
      extract_serving_size page_text = Some serving_size ->
      PyStr.strip serving_size = serving_size /\ count_char "," serving_size = 0).
Proof.
  split; [apply first_serving_spec, serving_patterns_capture|]. split.
  - intros m Hm. destruct (serving_match_captures _ _ Hm) as (g & -> & _). discriminate.
  - apply extract_serving_size_clean.
Qed.

(** ** Allergen categories *)

Lemma fold_keywords_filter (text : string) (table : list (string * list string)) :
  forall tags,
    fold_left
      (fun tags (entry : string * list string) =>
         if any_in (snd entry) text then tags ++ [fst entry] else tags)
      table tags
    = tags ++ map fst (filter (fun entry => any_in (snd entry) text) table).
Proof.
  induction table as [|e table IH]; intros tags; cbn [fold_left filter].
  - cbn. now rewrite app_nil_r.
  - rewrite IH. destruct (any_in (snd e) text); [|reflexivity].
    cbn [map]. now rewrite <- app_assoc.
Qed.

Lemma NoDup_map_filter {A B} (f : A -> B) (p : A -> bool) l :
  NoDup (map f l) -> NoDup (map f (filter p l)).
Proof.
  induction l as [|x l IH]; cbn [map filter]; [auto|].
  intros H. inversion H as [|? ? Hx Hl]; subst.
  destruct (p x); [|auto]. cbn [map]. constructor; [|auto].
  intros Hin. apply Hx. apply in_map_iff in Hin. destruct Hin as (y & Hy & Hf).
  apply filter_In in Hf. apply in_map_iff. exists y. tauto.
Qed.

Lemma any_in_occurs keywords text :
  any_in keywords text = true <-> exists keyword, In keyword keywords /\ occurs_in keyword text.
Proof.
  unfold any_in. rewrite existsb_exists.
  split; intros (k & Hk & H); exists k; (split; [exact Hk|]); now apply contains_spec.
Qed.

Lemma allergen_names_NoDup : NoDup allergen_names.
Proof.
  unfold allergen_names, allergen_keywords. cbn [map fst].
  repeat (constructor; [cbn; intuition discriminate|]). constructor.
Qed.

(** X6: [parse_allergen_text] lists, in the order of its table and each at
    most once, exactly the categories one of whose keywords occurs in the
    lowercased text.  It is monotone: a text that occurs inside another
    yields no category that the larger text does not yield; and since "fish"
    occurs in "shellfish", a text naming shellfish is also filed under fish. *)
Theorem parse_allergen_text_spec text :
  parse_allergen_text text
  = map fst (filter (fun entry => any_in (snd entry) (PyStr.lower text)) allergen_keywords) /\
  NoDup (parse_allergen_text text) /\
  (forall allergen,
      In allergen (parse_allergen_text text) <->
      exists keywords keyword,
        In (allergen, keywords) allergen_keywords /\ In keyword keywords /\
        occurs_in keyword (PyStr.lower text)) /\
  (forall larger, occurs_in text larger ->
                  incl (parse_allergen_text text) (parse_allergen_text larger)) /\
  (occurs_in "shellfish" (PyStr.lower text) ->
   In "fish" (parse_allergen_text text) /\ In "shellfish" (parse_allergen_text text)).
Proof.
  assert (Hin : forall t allergen,
             In allergen (parse_allergen_text t) <->
             exists keywords keyword,
               In (allergen, keywords) allergen_keywords /\ In keyword keywords /\
               occurs_in keyword (PyStr.lower t)).
  { intros t allergen. unfold parse_allergen_text. rewrite fold_keywords_In. split.
    - intros [[]|(kws & H1 & H2)]. apply any_in_occurs in H2.
      destruct H2 as (k & Hk & Ho). now exists kws, k.
    - intros (kws & k & H1 & Hk & Ho). right. exists kws. split; [exact H1|].
      apply any_in_occurs. now exists k. }
  assert (Heq : parse_allergen_text text
                = map fst (filter (fun entry => any_in (snd entry) (PyStr.lower text))
                                  allergen_keywords)).
  { unfold parse_allergen_text. now rewrite fold_keywords_filter. }
  split; [exact Heq|]. split; [|split; [apply Hin|split]].
  - rewrite Heq. apply NoDup_map_filter. exact allergen_names_NoDup.
  - intros larger Hocc allergen Ha. apply Hin in Ha. apply Hin.
    destruct Ha as (kws & k & H1 & Hk & Ho). exists kws, k.
    split; [exact H1|]. split; [exact Hk|].
    eapply occurs_in_trans; [exact Ho|]. now apply occurs_in_lower.
  - intros Hshell. split; apply Hin.
    + exists ["fish"], "fish". split; [cbn; tauto|]. split; [now left|].
      eapply occurs_in_trans; [|exact Hshell]. now exists "shell", "".
    + exists ["shellfish"; "shrimp"; "crab"; "lobster"], "shellfish".
      split; [cbn; tauto|]. split; [now left|exact Hshell].
Qed.

Lemma parse_allergen_names text allergen :
  In allergen (parse_allergen_text text) -> In allergen allergen_names.
Proof.
  unfold parse_allergen_text. rewrite fold_keywords_In.
  intros [[]|(kws & H & _)]. unfold allergen_names.
  change allergen with (fst (allergen, kws)). now apply in_map.
Qed.

Lemma allergen_names_lower allergen :
  In allergen allergen_names -> PyStr.lower allergen = allergen.
Proof.
  unfold allergen_names, allergen_keywords. cbn [map fst In].
  intros H. repeat (destruct H as [<-|H]; [reflexivity|]). destruct H.
Qed.

Lemma extract_allergens_names soup allergen :
  In allergen (extract_allergens soup) -> In allergen allergen_names.
Proof.
  unfold extract_allergens. rewrite dedup_In.
  destruct (find_allergen_div soup) as [section|].
  - apply parse_allergen_names.
  - rewrite in_app_iff.
    destruct (PyStr.contains "contains:" _), (PyStr.contains "allergens:" _);
      intros [H|H]; try destruct H; eapply parse_allergen_names; eassumption.
Qed.

Lemma map_lower_names l :
  (forall a, In a l -> In a allergen_names) -> map PyStr.lower l = l.
Proof.
  induction l as [|a l IH]; intros H; cbn [map]; [reflexivity|].
  rewrite allergen_names_lower, IH; [reflexivity| |].
  - intros b Hb. apply H. now right.
  - apply H. now left.
Qed.

(** X7: [extract_allergens] always returns a duplicate-free list of
    categories of the fixed table.  When the page has an allergen [div],
    only the text of that [div] is read; otherwise only the passages after
    "contains:" and "allergens:" are, and a page with neither marker has no
    allergens. *)
Theorem allergens_from_vocabulary soup :
  let allergens := extract_allergens soup in
  let page_text := PyStr.lower (get_text (soup_strings soup)) in
  NoDup allergens /\
  incl allergens allergen_names /\
  (forall section,
      find_allergen_div soup = Some section ->
      forall allergen,
        In allergen allergens <->
        In allergen (parse_allergen_text (get_text (tag_strings section)))) /\
  (find_allergen_div soup = None ->
   (forall allergen,
       In allergen allergens ->
       (PyStr.contains "contains:" page_text = true /\
        In allergen (parse_allergen_text (section_after "contains:" page_text))) \/
       (PyStr.contains "allergens:" page_text = true /\
        In allergen (parse_allergen_text (section_after "allergens:" page_text)))) /\
   (PyStr.contains "contains:" page_text = false ->
    PyStr.contains "allergens:" page_text = false -> allergens = [])).
Proof.
  cbn zeta. split; [apply dedup_NoDup|]. split.
  { intros a. apply extract_allergens_names. }
  split.
  - intros section Hdiv allergen. unfold extract_allergens. rewrite Hdiv.
    apply dedup_In.
  - intros Hdiv. unfold extract_allergens. rewrite Hdiv. split.
    + intros allergen. rewrite dedup_In, in_app_iff.
      destruct (PyStr.contains "contains:" _), (PyStr.contains "allergens:" _);
        intros [H|H]; try destruct H; auto.
    + intros -> ->. reflexivity.
Qed.

(** ** Nutrition records *)

Lemma eqb_in_false a l : PyStr.eqb_in a l = false <-> ~ In a l.
Proof.
  rewrite <- eqb_in_In. destruct (PyStr.eqb_in a l); split; congruence.
Qed.

(** X8: in every nutrition record read from a page the dietary tags agree
    with the allergens stored beside them: [dairy_free] is present exactly
    when milk is absent, [gluten_free] exactly when wheat is absent,
    [nut_free] exactly when peanuts and tree nuts are absent, and
    [potentially_vegan] exactly when milk, eggs, fish and shellfish are; the
    tags are duplicate-free and drawn from the eleven known names.  (A page
    whose calories are too large for a float yields no record.) *)
Theorem stored_tags_agree_with_allergens soup n :
  nutrition_of_soup soup = Ok n ->
  exists allergens tags,
    n_allergens n = Some allergens /\ n_dietary_tags n = Some tags /\
    NoDup tags /\ incl tags dietary_tag_names /\
    (In "dairy_free" tags <-> ~ In "milk" allergens) /\
    (In "gluten_free" tags <-> ~ In "wheat" allergens) /\
    (In "nut_free" tags <-> ~ In "peanuts" allergens /\ ~ In "tree_nuts" allergens) /\
    (In "potentially_vegan" tags <->
     ~ In "milk" allergens /\ ~ In "eggs" allergens /\
     ~ In "fish" allergens /\ ~ In "shellfish" allergens) /\
    (In "potentially_vegan" tags -> In "dairy_free" tags).
Proof.
  intros Hn. destruct (nutrition_of_soup_ok soup n Hn) as (_ & Hal & Htags & _).
  exists (extract_allergens soup),
    (extract_dietary_tags (extract_allergens soup) (Some soup)).
  split; [exact Hal|]. split; [exact Htags|].
  split; [apply dedup_NoDup|].
  pose proof (inferred_tags (extract_allergens soup) (Some soup)) as Hinf.
  cbv zeta in Hinf.
  rewrite (map_lower_names (extract_allergens soup) (extract_allergens_names soup)) in Hinf.
  destruct Hinf as (Hv & Hd & Hg & Hnut).
  pose proof (eqb_in_false "milk" (extract_allergens soup)) as E1.
  pose proof (eqb_in_false "eggs" (extract_allergens soup)) as E2.
  pose proof (eqb_in_false "fish" (extract_allergens soup)) as E3.
  pose proof (eqb_in_false "shellfish" (extract_allergens soup)) as E4.
  pose proof (eqb_in_false "wheat" (extract_allergens soup)) as E5.
  pose proof (eqb_in_false "peanuts" (extract_allergens soup)) as E6.
  pose proof (eqb_in_false "tree_nuts" (extract_allergens soup)) as E7.
  split.
  { intros tag Htag. apply dietary_tags_In in Htag.
    unfold dietary_tag_names, inferred_tag_names. apply in_or_app.
    destruct Htag as [(-> & _)|[(-> & _)|[(-> & _)|[(-> & _)|(sp & kws & _ & Hk & _)]]]].
    - left. cbn. auto.
    - left. cbn. auto.
    - left. cbn. auto.
    - left. cbn. auto 6.
    - right. change tag with (fst (tag, kws)). now apply in_map. }
  rewrite E1, E2, E3, E4 in Hv. rewrite E1 in Hd. rewrite E5 in Hg.
  rewrite E6, E7 in Hnut.
  split; [exact Hd|]. split; [exact Hg|]. split; [exact Hnut|]. split; [exact Hv|].
  intros H. apply Hd. apply Hv in H. apply H.
Qed.

(** X8 on the label page of the demo site, which names milk and wheat. *)
Lemma stored_tags_agree_with_allergens_witness :
  exists n allergens tags,
    nutrition_of_soup Demo.item_page = Ok n /\
    n_allergens n = Some allergens /\ n_dietary_tags n = Some tags /\
    (In "dairy_free" tags <-> ~ In "milk" allergens) /\
    (In "gluten_free" tags <-> ~ In "wheat" allergens) /\
    (In "nut_free" tags <-> ~ In "peanuts" allergens /\ ~ In "tree_nuts" allergens).
Proof.
  assert (Hn : nutrition_of_soup Demo.item_page
               = Ok match nutrition_of_soup Demo.item_page with
                    | Ok n => n
                    | Raise _ => no_nutrition
                    end) by (vm_compute; reflexivity).
  destruct (stored_tags_agree_with_allergens Demo.item_page _ Hn)
    as (allergens & tags & Ha & Ht & _ & _ & Hd & Hg & Hnut & _).
  eexists. exists allergens, tags.
  split; [exact Hn|]. split; [exact Ha|]. split; [exact Ht|].
  split; [exact Hd|]. split; [exact Hg|exact Hnut].
Defined.

(** *** Stored numbers are not negative *)

Lemma round_half_even_nonneg n d :
  (0 <= n)%Z -> (0 < d)%Z -> (0 <= PyNum.round_half_even n d)%Z.
Proof.
  intros Hn Hd. unfold PyNum.round_half_even.
  assert (0 <= n / d)%Z by (apply Z.div_pos; lia).
  destruct (2 * (n mod d) <? d)%Z; [lia|].
  destruct (d <? 2 * (n mod d))%Z; [lia|].
  destruct (Z.even (n / d)); lia.
Qed.

Lemma scale2_nonneg n d e :
  (0 <= n)%Z -> (0 < d)%Z ->
  (0 <= fst (PyNum.scale2 n d e))%Z /\ (0 < snd (PyNum.scale2 n d e))%Z.
Proof.
  intros Hn Hd. unfold PyNum.scale2. destruct (0 <=? e)%Z eqn:He; cbn [fst snd].
  - apply Z.leb_le in He. split; [lia|]. apply Z.mul_pos_pos; [lia|].
    apply Z.pow_pos_nonneg; lia.
  - apply Z.leb_gt in He. split; [|lia]. apply Z.mul_nonneg_nonneg; [lia|].
    apply Z.pow_nonneg. lia.
Qed.

Lemma nearest_double_pos_nonneg n d :
  (0 <= n)%Z -> (0 < d)%Z -> (0 <= fst (PyNum.nearest_double_pos n d))%Z.
Proof.
  intros Hn Hd. unfold PyNum.nearest_double_pos.
  destruct (PyNum.scale2 n d (Z.log2 n - Z.log2 d - 53)) as [n0 d0].
  set (e := Z.max _ _).
  pose proof (scale2_nonneg n d e Hn Hd) as [H1 H2].
  destruct (PyNum.scale2 n d e) as [n1 d1]. cbn [fst snd] in H1, H2.
  pose proof (round_half_even_nonneg n1 d1 H1 H2) as Hm.
  destruct (0 <=? e)%Z eqn:He; cbn [fst]; [|exact Hm].
  apply Z.mul_nonneg_nonneg; [exact Hm|]. apply Z.pow_nonneg. lia.
Qed.

Lemma nearest_double_nonneg v :
  (0 <= mant v)%Z ->
  (0 <= fst (PyNum.nearest_double v))%Z /\ (0 < snd (PyNum.nearest_double v))%Z.
Proof.
  intros Hv. split; [|apply nearest_double_den].
  unfold PyNum.nearest_double.
  destruct (mant v =? 0)%Z; [cbn; lia|].
  destruct (mant v <? 0)%Z eqn:Hneg; [apply Z.ltb_lt in Hneg; lia|].
  apply nearest_double_pos_nonneg; [exact Hv|].
  apply Z.pow_pos_nonneg; lia.
Qed.

Lemma stored_number_nonneg nutrient v x :
  (0 <= mant v)%Z -> stored_number nutrient v = Some x -> number_nonneg x.
Proof.
  intros Hv. destruct (nearest_double_nonneg v Hv) as [HN HD].
  unfold stored_number, PyNum.py_int, PyNum.py_round1.
  destruct (PyNum.nearest_double v) as [N D]. cbn [fst snd] in HN, HD.
  destruct (String.eqb nutrient "calories"), (PyNum.is_inf v); cbn [option_map];
    intros Hx; inversion Hx; subst x; cbn [number_nonneg mant].
  - apply Z.quot_pos; lia.
  - exact Hv.
  - apply round_half_even_nonneg; [|lia]. change (0 <= 10 * N)%Z. lia.
Qed.

Lemma nutrient_value_key n nutrient x :
  nutrient_value n nutrient = Some x -> In nutrient nutrient_keys.
Proof.
  unfold nutrient_value, nutrient_keys.
  destruct (String.eqb nutrient "calories") eqn:E1;
    [apply String.eqb_eq in E1; subst; cbn; auto|].
  destruct (String.eqb nutrient "protein") eqn:E2;
    [apply String.eqb_eq in E2; subst; cbn; auto|].
  destruct (String.eqb nutrient "carbs") eqn:E3;
    [apply String.eqb_eq in E3; subst; cbn; auto|].
  destruct (String.eqb nutrient "fat") eqn:E4;
    [apply String.eqb_eq in E4; subst; cbn; auto|].
  destruct (String.eqb nutrient "fiber") eqn:E5;
    [apply String.eqb_eq in E5; subst; cbn; auto 6|].
  destruct (String.eqb nutrient "sodium") eqn:E6;
    [apply String.eqb_eq in E6; subst; cbn; auto 7|].
  destruct (String.eqb nutrient "sugars") eqn:E7;
    [apply String.eqb_eq in E7; subst; cbn; auto 8|].
  discriminate.
Qed.

Lemma nutrition_of_soup_nonneg soup n nutrient x :
  nutrition_of_soup soup = Ok n ->
  nutrient_value n nutrient = Some x -> number_nonneg x.
Proof.
  intros Hn Hx.
  destruct (nutrition_of_soup_ok soup n Hn) as (_ & _ & _ & Hval).
  assert (Hkey : exists ps, In (nutrient, ps) Patterns.patterns).
  { pose proof (nutrient_value_key _ _ _ Hx) as Hk.
    change nutrient_keys with (map fst Patterns.patterns) in Hk.
    apply in_map_iff in Hk. destruct Hk as ([k ps] & Hk & Hin). cbn in Hk. subst k.
    now exists ps. }
  destruct Hkey as (ps & Hps).
  rewrite (Hval _ _ Hps) in Hx.
  assert (Hk : In nutrient nutrient_keys).
  { apply patterns_keys. change nutrient with (fst (nutrient, ps)). now apply in_map. }
  rewrite (nutrient_value_apply_same _ _ _ Hk), no_nutrition_value in Hx.
  destruct (first_match ps (get_text (soup_strings soup))) as [m|] eqn:Hm; [|discriminate].
  destruct (first_match_In _ _ _ Hm) as (p & Hp & Hs).
  destruct (nutrient_patterns_capture _ _ _ Hps Hp _ _ Hs) as (g & Hg & Hdec).
  unfold match_value in Hx.
  rewrite Hg in Hx. destruct (float_of_decimal g Hdec) as (v & Hv & Hpos).
  rewrite Hv in Hx.
  destruct (stored_number nutrient v) as [y|] eqn:Hy; [|discriminate Hx].
  inversion Hx; subst x.
  eapply stored_number_nonneg; eassumption.
Qed.

Lemma apply_match_serving nutrient om n :
  n_serving_size (apply_match nutrient om n) = n_serving_size n.
Proof.
  unfold apply_match. destruct (match_value om) as [v|]; [|reflexivity].
  destruct (stored_number nutrient v) as [[z|r]|]; reflexivity.
Qed.

Lemma fold_apply_serving text (table : list (string * list Regex.re)) :
  forall n,
    n_serving_size
      (fold_left (fun n (e : string * list Regex.re) =>
                    apply_match (fst e) (first_match (snd e) text) n) table n)
    = n_serving_size n.
Proof.
  induction table as [|e table IH]; intros n; cbn [fold_left]; [reflexivity|].
  now rewrite IH, apply_match_serving.
Qed.

Lemma nutrition_of_page self url w :
  exists w',
    get_nutrition_from_item_page self url w
    = (Ok match fetched_page self url w with
          | Some soup =>
              match nutrition_of_soup soup with Ok n => n | Raise _ => no_nutrition end
          | None => no_nutrition
          end, w').
Proof.
  unfold get_nutrition_from_item_page, fetched_page, try_except, bind, is_exception, ret,
    lift_result.
  destruct (make_request self url None w) as [[[r|]|e] w']; cbn [fst]; eauto.
  destruct (nutrition_of_soup (content r)); eauto.
Qed.

(** X9: [get_nutrition_from_item_page] never raises.  It returns the empty
    dictionary when the page cannot be fetched and when the calories of the
    page are too large for a float, so that reading it raises; otherwise the
    record holds the allergen list and the tag list of the page.  In every
    case no nutrient value of the record is negative, and a serving size,
    when stored, is a non-empty stripped text without a comma. *)
Theorem nutrition_record_wellformed self item_url w :
  exists n w',
    get_nutrition_from_item_page self item_url w = (Ok n, w') /\
    (fetched_page self item_url w = None -> n = no_nutrition) /\
    (forall soup,
        fetched_page self item_url w = Some soup ->
        (calories_overflow (get_text (soup_strings soup)) = true ->
         nutrition_of_soup soup = Raise overflow_error /\ n = no_nutrition) /\
        (calories_overflow (get_text (soup_strings soup)) = false ->
         nutrition_of_soup soup = Ok n /\
         n_allergens n = Some (extract_allergens soup) /\
         n_dietary_tags n
         = Some (extract_dietary_tags (extract_allergens soup) (Some soup)))) /\
    (forall nutrient x, nutrient_value n nutrient = Some x -> number_nonneg x) /\
    (forall serving_size,
        n_serving_size n = Some serving_size ->
        serving_size <> EmptyString /\ PyStr.strip serving_size = serving_size /\
        count_char "," serving_size = 0).
Proof.
  destruct (nutrition_of_page self item_url w) as (w' & Hrun).
  eexists. exists w'. split; [exact Hrun|].
  assert (Hempty :
    (forall nutrient x, nutrient_value no_nutrition nutrient = Some x -> number_nonneg x) /\
    (forall serving_size,
        n_serving_size no_nutrition = Some serving_size ->
        serving_size <> EmptyString /\ PyStr.strip serving_size = serving_size /\
        count_char "," serving_size = 0)).
  { split.
    - intros nutrient x. rewrite no_nutrition_value. discriminate.
    - cbn. discriminate. }
  destruct (fetched_page self item_url w) as [soup|].
  - pose proof (nutrition_of_soup_spec soup) as Hspec. revert Hspec.
    destruct (calories_overflow (get_text (soup_strings soup))) eqn:Hover; intros Hspec.
    + rewrite Hspec. split; [discriminate|]. split; [|exact Hempty].
      intros soup' H. inversion H; subst soup'. rewrite Hover.
      split; [intros _; split; [exact Hspec|reflexivity]|discriminate].
    + destruct Hspec as (n & Hn & Hal & Htags & _).
      rewrite Hn. split; [discriminate|]. split.
      { intros soup' H. inversion H; subst soup'. rewrite Hover.
        split; [discriminate|]. auto. }
      split.
      { intros nutrient x. apply (nutrition_of_soup_nonneg soup n nutrient x Hn). }
      intros serving_size Hs.
      unfold nutrition_of_soup in Hn. rewrite each_nutrient_patterns, Hover in Hn.
      set (n0 := fold_left _ Patterns.patterns no_nutrition) in Hn.
      assert (H0 : n_serving_size n0 = None) by apply fold_apply_serving.
      clearbody n0.
      assert (Hinj : forall a b : Nutrition, Ok a = Ok b -> a = b)
        by (intros a b H; now inversion H).
      apply Hinj in Hn. subst n.
      destruct (extract_serving_size (get_text (soup_strings soup))) as [sz|] eqn:Hext.
      * destruct (PyStr.truthy sz) eqn:Ht; cbn in Hs.
        -- inversion Hs; subst sz.
           split; [now apply truthy_nonempty|].
           now apply (extract_serving_size_clean (get_text (soup_strings soup))).
        -- rewrite H0 in Hs. discriminate.
      * cbn in Hs. rewrite H0 in Hs. discriminate.
  - split; [reflexivity|]. split; [discriminate|]. exact Hempty.
Qed.

(** ** The counters of [scrape_all_data] *)

Lemma sleep_raises_negative d w e w' :
  sleep d w = (Raise e, w') -> (mant d < 0)%Z.
Proof.
  unfold sleep. destruct (mant d <? 0)%Z eqn:Hd; [intros _; now apply Z.ltb_lt|].
  discriminate.
Qed.

Lemma nutrition_loop_count self dh hd s :
  forall limited acc count t,
    triple (locals_are dh hd s t)
           (nutrition_loop self limited acc count)
           (fun r l =>
              locals_are dh hd s (t + Z.of_nat (List.length limited)) l /\
              snd r = (count + Z.of_nat (List.length limited))%Z /\
              List.length (fst r) = List.length acc + List.length limited)
           (fun e l =>
              l_dining_halls l = dh /\ l_hall_data l = hd /\ l_successful_halls l = s /\
              (t <= l_total_items_scraped l)%Z /\ (mant (request_delay self) < 0)%Z).
Proof.
  induction limited as [|item rest IH]; intros acc count t.
  - cbn [nutrition_loop]. apply triple_ret. intros l Hl. cbn.
    rewrite !Z.add_0_r, Nat.add_0_r. auto.
  - cbn [nutrition_loop].
    apply triple_bind with (Q1 := fun _ l => locals_are dh hd s t l).
    { apply triple_in_world. intros w l Hl.
      destruct (get_nutrition_total self (item_url item) w) as (n & w' & ->).
      exact Hl. }
    intros nutrition.
    apply triple_bind with (Q1 := fun _ l => locals_are dh hd s (t + 1) l).
    { apply triple_set_local. intros l (H1 & H2 & H3 & H4). unfold locals_are. cbn.
      rewrite H4. auto. }
    intros _.
    apply triple_bind with (Q1 := fun _ l => locals_are dh hd s (t + 1) l).
    { apply triple_in_world. intros w l Hl.
      destruct (sleep (request_delay self) w) as [[a|e] w'] eqn:Hs; [exact Hl|].
      apply sleep_raises_negative in Hs. destruct Hl as (H1 & H2 & H3 & H4).
      repeat split; try assumption. lia. }
    intros _.
    eapply triple_weaken; [apply IH| | |].
    + intros l Hl. exact Hl.
    + intros r l ((H1 & H2 & H3 & H4) & Hc & Hlen). cbn [List.length].
      split; [|split].
      * repeat split; try assumption. rewrite H4. lia.
      * rewrite Hc. lia.
      * rewrite Hlen, length_app. cbn. lia.
    + intros e l (H1 & H2 & H3 & H4 & H5). repeat split; try assumption. lia.
Qed.

Lemma dict_set_fresh {A} (d : list (string * A)) k v :
  ~ In k (map fst d) -> dict_set d k v = d ++ [(k, v)].
Proof.
  induction d as [|[k' v'] d IH]; cbn [dict_set map fst app]; [reflexivity|].
  intros Hk. destruct (String.eqb k k') eqn:E.
  - apply String.eqb_eq in E. subst. exfalso. apply Hk. now left.
  - rewrite IH; [reflexivity|]. intros H. apply Hk. now right.
Qed.

Lemma periods_scraped_app a b :
  periods_scraped (a ++ b) = (periods_scraped a + periods_scraped b)%Z.
Proof.
  unfold periods_scraped. induction a as [|e a IH]; cbn; [reflexivity|].
  rewrite IH. lia.
Qed.

Lemma period_loop_count self dh s :
  forall rest count hd t,
    NoDup (map fst rest) ->
    (forall k, In k (map fst rest) -> ~ In k (map fst (hd_meal_periods hd))) ->
    triple (locals_are dh hd s t)
           (period_loop self rest count)
           (fun c l =>
              l_dining_halls l = dh /\ l_successful_halls l = s /\
              hd_scrape_status (l_hall_data l) = hd_scrape_status hd /\
              hd_error (l_hall_data l) = hd_error hd /\
              hd_items_scraped (l_hall_data l) = hd_items_scraped hd /\
              (count <= c)%Z /\
              periods_scraped (hd_meal_periods (l_hall_data l))
              = (periods_scraped (hd_meal_periods hd) + (c - count))%Z /\
              l_total_items_scraped l = (t + (c - count))%Z)
           (fun e l =>
              l_dining_halls l = dh /\ l_successful_halls l = s /\
              hd_items_scraped (l_hall_data l) = hd_items_scraped hd /\
              (t <= l_total_items_scraped l)%Z /\ (mant (request_delay self) < 0)%Z).
Proof.
  induction rest as [|[meal_period items] rest IH]; intros count hd t Hnd Hfresh.
  - cbn [period_loop]. apply triple_ret. intros l (H1 & H2 & H3 & H4). subst.
    repeat split; lia.
  - cbn [period_loop].
    set (limited := slice_to items (max_items_per_meal self)).
    apply triple_bind
      with (Q1 := fun r l =>
                    locals_are dh hd s (t + Z.of_nat (List.length limited)) l /\
                    snd r = (count + Z.of_nat (List.length limited))%Z /\
                    List.length (fst r) = List.length limited).
    { eapply triple_weaken; [apply (nutrition_loop_count self dh hd s limited [] count t)| | |].
      - auto.
      - intros r l (Hl & Hc & Hlen). auto.
      - intros e l (H1 & H2 & H3 & H4 & H5). subst. auto. }
    intros r. apply triple_pure. intros [Hc Hlen]. 
    set (data := {| mp_items := fst r;
                    mp_total_available := Z.of_nat (List.length items);
                    mp_scraped_count := Z.of_nat (List.length (fst r)) |}).
    apply triple_bind
      with (Q1 := fun _ l =>
                    locals_are dh (put_meal_period meal_period data hd) s
                               (t + Z.of_nat (List.length limited)) l).
    { apply triple_set_local. intros l (H1 & H2 & H3 & H4).
      unfold locals_are. cbn. rewrite H2. auto. }
    intros _.
    inversion Hnd as [|? ? Hk Hnd']; subst.
    assert (Hset : hd_meal_periods (put_meal_period meal_period data hd)
                   = hd_meal_periods hd ++ [(meal_period, data)]).
    { cbn. apply dict_set_fresh. apply Hfresh. now left. }
    eapply triple_weaken;
      [apply (IH (snd r) (put_meal_period meal_period data hd)
                 (t + Z.of_nat (List.length limited))%Z Hnd')| | |].
    + intros k Hin. rewrite Hset, map_app, in_app_iff. cbn.
      intros [H|[<-|[]]]; [|contradiction].
      apply (Hfresh k); [now right|exact H].
    + auto.
    + intros c l (H1 & H2 & H3 & H4 & H5 & H6 & H7 & H8). cbn in H3, H4, H5.
      rewrite Hset, periods_scraped_app in H7. cbn in H7. rewrite Hlen in H7.
      repeat split; try assumption; lia.
    + intros e l (H1 & H2 & H3 & H4 & H5). cbn in H3.
      repeat split; try assumption. lia.
Qed.

Lemma menu_keys_NoDup self url w md w' :
  get_meal_periods_and_categories self url w = (Ok md, w') -> NoDup (map fst md).
Proof.
  destruct (menu_of_page self url w) as (w1 & Hrun). rewrite Hrun.
  intros H. inversion H; subst.
  rewrite fold_food_links, grouped_keys. apply fromkeys_fold_NoDup. constructor.
Qed.

Lemma hall_try_count self hall dh s t :
  triple (locals_are dh (pending_hall hall) s t)
         (hall_try self hall)
         (fun _ l =>
            l_dining_halls l = dh /\ l_successful_halls l = (s + 1)%Z /\
            hd_scrape_status (l_hall_data l) = "completed" /\
            hd_error (l_hall_data l) = None /\
            hd_items_scraped (l_hall_data l)
            = Some (periods_scraped (hd_meal_periods (l_hall_data l))) /\
            (0 <= periods_scraped (hd_meal_periods (l_hall_data l)))%Z /\
            l_total_items_scraped l
            = (t + periods_scraped (hd_meal_periods (l_hall_data l)))%Z)
         (fun e l =>
            l_dining_halls l = dh /\ l_successful_halls l = s /\
            hd_items_scraped (l_hall_data l) = None /\
            (t <= l_total_items_scraped l)%Z /\ (mant (request_delay self) < 0)%Z).
Proof.
  unfold hall_try.
  apply triple_bind
    with (Q1 := fun md l => locals_are dh (pending_hall hall) s t l /\
                            NoDup (map fst md)).
  { apply triple_in_world. intros w l Hl.
    destruct (get_meal_periods_and_categories self (hall_url hall) w) as [[md|e] w'] eqn:Hrun.
    - split; [exact Hl|]. eapply menu_keys_NoDup, Hrun.
    - destruct (get_meal_periods_total self (hall_url hall) w) as (md & w1 & Heq).
      rewrite Heq in Hrun. discriminate. }
  intros md. apply triple_pure. intros Hnd.
  apply triple_bind
    with (Q1 := fun c l =>
                  l_dining_halls l = dh /\ l_successful_halls l = s /\
                  hd_error (l_hall_data l) = None /\
                  (0 <= c)%Z /\
                  periods_scraped (hd_meal_periods (l_hall_data l)) = c /\
                  l_total_items_scraped l = (t + c)%Z).
  { eapply triple_weaken;
      [apply (period_loop_count self dh s md 0%Z (pending_hall hall) t Hnd)| | |].
    - intros k _ [].
    - auto.
    - intros c l (H1 & H2 & H3 & H4 & H5 & H6 & H7 & H8). cbn in H4, H7.
      repeat split; try assumption; lia.
    - intros e l H. exact H. }
  intros c. apply triple_set_local.
  intros l (H1 & H2 & H3 & H4 & H5 & H6). cbn -[periods_scraped Z.add].
  rewrite H5. repeat split; try assumption; try lia.
Qed.

Lemma count_status_app status a b :
  count_status status (a ++ b) = (count_status status a + count_status status b)%Z.
Proof. unfold count_status. rewrite filter_app, length_app. lia. Qed.

Lemma items_total_app a b : items_total (a ++ b) = (items_total a + items_total b)%Z.
Proof.
  unfold items_total. induction a as [|h a IH]; cbn; [reflexivity|]. rewrite IH. lia.
Qed.

Lemma count_status_single status h :
  count_status status [h] = if has_status status h then 1%Z else 0%Z.
Proof. unfold count_status. cbn. now destruct (has_status status h). Qed.

Lemma count_status_nonneg status halls : (0 <= count_status status halls)%Z.
Proof. unfold count_status. lia. Qed.

Lemma scrape_hall_count self hall :
  triple (counters_agree self)
         (scrape_hall self hall)
         (fun _ l => counters_agree self l)
         (fun _ _ => False).
Proof.
  intros w l Hinv.
  set (dh := l_dining_halls l). set (s := l_successful_halls l).
  set (t := l_total_items_scraped l).
  assert (Hgoal :
    triple (fun l0 => l0 = l) (scrape_hall self hall)
           (fun _ l => counters_agree self l) (fun _ _ => False));
    [|exact (Hgoal w l eq_refl)].
  unfold scrape_hall.
  apply triple_bind with (Q1 := fun _ l0 => locals_are dh (pending_hall hall) s t l0).
  { apply triple_set_local. intros l0 ->. repeat split. }
  intros _.
  apply triple_bind
    with (Q1 := fun _ l0 =>
                  l_dining_halls l0 = dh /\
                  ((hall_counted (l_hall_data l0) /\
                    hd_scrape_status (l_hall_data l0) = "completed" /\
                    l_successful_halls l0 = (s + 1)%Z /\
                    l_total_items_scraped l0
                    = (t + items_of_hall (l_hall_data l0))%Z) \/
                   (hall_counted (l_hall_data l0) /\
                    hd_scrape_status (l_hall_data l0) = "failed" /\
                    l_successful_halls l0 = s /\
                    (t <= l_total_items_scraped l0)%Z /\
                    (mant (request_delay self) < 0)%Z))).
  { eapply triple_try.
    - eapply triple_weaken; [apply (hall_try_count self hall dh s t)| | |].
      + auto.
      + intros _ l0 (H1 & H2 & H3 & H4 & H5 & H6 & H7). split; [exact H1|]. left.
        split; [left; auto|]. split; [exact H3|]. split; [exact H2|].
        unfold items_of_hall. now rewrite H5.
      + intros e l0 H. exact H.
    - intros e. apply triple_set_local.
      intros l0 (H1 & H2 & H3 & H4 & H5). cbn. split; [exact H1|]. right.
      split; [right; cbn; auto|]. auto. }
  intros _. apply triple_set_local.
  intros l0 (Hdh & Hcase). unfold counters_agree. cbn [l_dining_halls l_successful_halls
    l_total_items_scraped]. rewrite Hdh.
  destruct Hinv as (HF & Hs & Hsum & Hle & Heq & Hdelay).
  fold dh s t in HF, Hs, Hsum, Hle, Heq, Hdelay.
  rewrite !count_status_app, items_total_app, length_app, Forall_app.
  rewrite !count_status_single. cbn [List.length items_total fold_right].
  unfold has_status.
  destruct Hcase as [(Hc & Hst & Hs' & Ht')|(Hc & Hst & Hs' & Ht' & Hneg)];
    rewrite Hst; cbn [String.eqb Ascii.eqb Bool.eqb andb List.length].
  - split; [split; [exact HF|constructor; [exact Hc|constructor]]|].
    split; [lia|]. split; [lia|]. split; [lia|]. split.
    + intros H. assert (H0 : count_status "failed" dh = 0%Z) by lia.
      specialize (Heq H0). lia.
    + intros H. specialize (Hdelay H). lia.
  - pose proof (count_status_nonneg "failed" dh).
    assert (items_of_hall (l_hall_data l0) = 0%Z) as Hz.
    { destruct Hc as [(Hx & _)|(_ & Hx)]; [congruence|]. unfold items_of_hall. now rewrite Hx. }
    split; [split; [exact HF|constructor; [exact Hc|constructor]]|].
    split; [lia|]. split; [lia|]. split; [lia|]. split; intros; lia.
Qed.

Lemma hall_loop_count self :
  forall halls k,
    triple (fun l => counters_agree self l /\ List.length (l_dining_halls l) = k)
           (hall_loop self halls)
           (fun _ l => counters_agree self l /\
                       List.length (l_dining_halls l) = k + List.length halls)
           (fun _ _ => False).
Proof.
  induction halls as [|hall rest IH]; intros k.
  - cbn [hall_loop]. apply triple_ret. intros l [H1 H2]. cbn. split; [exact H1|lia].
  - cbn [hall_loop].
    apply triple_bind
      with (Q1 := fun _ l => counters_agree self l /\ List.length (l_dining_halls l) = S k).
    + intros w l [Hinv Hlen].
      pose proof (scrape_hall_count self hall w l Hinv) as Hc.
      pose proof (scrape_hall_triple self hall (l_dining_halls l) w l eq_refl) as Hr.
      destruct (scrape_hall self hall (w, l)) as [[a|e] [w' l']]; [|exact Hc].
      split; [exact Hc|]. destruct Hr as (h & -> & _). rewrite length_app. cbn. lia.
    + intros _. eapply triple_weaken; [apply (IH (S k))| | |]; auto.
      intros _ l [H1 H2]. split; [exact H1|]. cbn. lia.
Qed.

(** ** The clock and the file during a scrape *)

Lemma same_refl w : same_clock_and_file w w.
Proof. repeat split. Qed.

Lemma same_trans w1 w2 w3 :
  same_clock_and_file w1 w2 -> same_clock_and_file w2 w3 -> same_clock_and_file w1 w3.
Proof.
  intros (A1 & A2 & A3 & A4) (B1 & B2 & B3 & B4).
  repeat split; congruence.
Qed.

Lemma leaves_ret {A} (a : A) : leaves_file (ret a).
Proof. intros w. apply same_refl. Qed.

Lemma leaves_raise {A} e : leaves_file (@raise World A e).
Proof. intros w. apply same_refl. Qed.

Lemma leaves_bind {A B} (m : M World A) (f : A -> M World B) :
  leaves_file m -> (forall a, leaves_file (f a)) -> leaves_file (bind m f).
Proof.
  intros Hm Hf w. unfold bind. specialize (Hm w).
  destruct (m w) as [[a|e] w1]; cbn [snd] in *; [|exact Hm].
  eapply same_trans; [exact Hm|apply Hf].
Qed.

Lemma leaves_try {A} (body : M World A) classes handler :
  leaves_file body -> (forall e, leaves_file (handler e)) ->
  leaves_file (try_except body classes handler).
Proof.
  intros Hb Hh w. unfold try_except. specialize (Hb w).
  destruct (body w) as [[a|e] w1]; cbn [snd] in *; [exact Hb|].
  destruct (classes e); [|exact Hb].
  eapply same_trans; [exact Hb|apply Hh].
Qed.

Lemma leaves_session_get url : leaves_file (session_get url).
Proof.
  intros w. unfold session_get.
  destruct (web w (List.length (requested w)) url); repeat split.
Qed.

Lemma leaves_raise_for_status r : leaves_file (raise_for_status r).
Proof.
  unfold raise_for_status.
  destruct ((400 <=? status_code r) && (status_code r <? 600))%Z;
    [apply leaves_raise|apply leaves_ret].
Qed.

Lemma leaves_sleep d : leaves_file (sleep d).
Proof.
  unfold sleep. destruct (mant d <? 0)%Z; [apply leaves_raise|].
  intros w. repeat split.
Qed.

Lemma leaves_lift_result {A} (r : result A) : leaves_file (lift_result r).
Proof. intros w. apply same_refl. Qed.

Lemma leaves_one_attempt self url retries attempt :
  leaves_file (one_attempt self url retries attempt).
Proof.
  unfold one_attempt. apply leaves_try.
  - apply leaves_bind; [apply leaves_session_get|]. intros r.
    apply leaves_bind; [apply leaves_raise_for_status|]. intros _. apply leaves_ret.
  - intros e. destruct (attempt <? retries)%Z; [|apply leaves_ret].
    apply leaves_bind; [apply leaves_sleep|]. intros _. apply leaves_ret.
Qed.

Lemma leaves_attempts self url retries :
  forall todo attempt, leaves_file (attempts self url retries todo attempt).
Proof.
  induction todo as [|todo IH]; intros attempt; cbn [attempts]; [apply leaves_ret|].
  apply leaves_bind; [apply leaves_one_attempt|].
  intros [v|]; [apply leaves_ret|apply IH].
Qed.

Lemma leaves_make_request self url retries : leaves_file (make_request self url retries).
Proof. apply leaves_attempts. Qed.

Lemma leaves_discover self : leaves_file (discover_dining_halls self).
Proof.
  unfold discover_dining_halls. apply leaves_try.
  - apply leaves_bind; [apply leaves_make_request|].
    intros [r|]; apply leaves_ret.
  - intros e. apply leaves_ret.
Qed.

Lemma leaves_get_meal_periods self url :
  leaves_file (get_meal_periods_and_categories self url).
Proof.
  unfold get_meal_periods_and_categories. apply leaves_try.
  - apply leaves_bind; [apply leaves_make_request|].
    intros [r|]; apply leaves_ret.
  - intros e. apply leaves_ret.
Qed.

Lemma leaves_get_nutrition self url :
  leaves_file (get_nutrition_from_item_page self url).
Proof.
  unfold get_nutrition_from_item_page. apply leaves_try.
  - apply leaves_bind; [apply leaves_make_request|].
    intros [r|]; [apply leaves_lift_result|apply leaves_ret].
  - intros e. apply leaves_ret.
Qed.

Lemma leaves_l_ret {A} (a : A) : leaves_file_l (ret a).
Proof. intros w l. apply same_refl. Qed.

Lemma leaves_l_bind {A B} (m : M (World * Locals) A) (f : A -> M (World * Locals) B) :
  leaves_file_l m -> (forall a, leaves_file_l (f a)) -> leaves_file_l (bind m f).
Proof.
  intros Hm Hf w l. unfold bind. specialize (Hm w l).
  destruct (m (w, l)) as [[a|e] [w1 l1]]; cbn [fst snd] in *; [|exact Hm].
  eapply same_trans; [exact Hm|apply Hf].
Qed.

Lemma leaves_l_try {A} (body : M (World * Locals) A) classes handler :
  leaves_file_l body -> (forall e, leaves_file_l (handler e)) ->
  leaves_file_l (try_except body classes handler).
Proof.
  intros Hb Hh w l. unfold try_except. specialize (Hb w l).
  destruct (body (w, l)) as [[a|e] [w1 l1]]; cbn [fst snd] in *; [exact Hb|].
  destruct (classes e); [|exact Hb].
  eapply same_trans; [exact Hb|apply Hh].
Qed.

Lemma leaves_l_in_world {A} (m : M World A) :
  leaves_file m -> leaves_file_l (@in_world Locals A m).
Proof.
  intros Hm w l. unfold in_world. specialize (Hm w).
  destruct (m w) as [r w1]. exact Hm.
Qed.

Lemma leaves_l_set_local f : leaves_file_l (@set_local Locals f).
Proof. intros w l. apply same_refl. Qed.

Lemma leaves_nutrition_loop self :
  forall limited acc count, leaves_file_l (nutrition_loop self limited acc count).
Proof.
  induction limited as [|item rest IH]; intros acc count; cbn [nutrition_loop].
  - apply leaves_l_ret.
  - apply leaves_l_bind; [apply leaves_l_in_world, leaves_get_nutrition|]. intros n.
    apply leaves_l_bind; [apply leaves_l_set_local|]. intros _.
    apply leaves_l_bind; [apply leaves_l_in_world, leaves_sleep|]. intros _.
    apply IH.
Qed.

Lemma leaves_period_loop self :
  forall meal_data count, leaves_file_l (period_loop self meal_data count).
Proof.
  induction meal_data as [|[p items] rest IH]; intros count; cbn [period_loop].
  - apply leaves_l_ret.
  - apply leaves_l_bind; [apply leaves_nutrition_loop|]. intros r.
    apply leaves_l_bind; [apply leaves_l_set_local|]. intros _. apply IH.
Qed.

Lemma leaves_scrape_hall self hall : leaves_file_l (scrape_hall self hall).
Proof.
  unfold scrape_hall, hall_try.
  apply leaves_l_bind; [apply leaves_l_set_local|]. intros _.
  apply leaves_l_bind; [|intros _; apply leaves_l_set_local].
  apply leaves_l_try; [|intros e; apply leaves_l_set_local].
  apply leaves_l_bind; [apply leaves_l_in_world, leaves_get_meal_periods|]. intros md.
  apply leaves_l_bind; [apply leaves_period_loop|]. intros c. apply leaves_l_set_local.
Qed.

Lemma leaves_hall_loop self : forall halls, leaves_file_l (hall_loop self halls).
Proof.
  induction halls as [|hall rest IH]; cbn [hall_loop]; [apply leaves_l_ret|].
  apply leaves_l_bind; [apply leaves_scrape_hall|]. intros _. apply IH.
Qed.

(** ** What a run of [scrape_all_data] amounts to *)

Lemma initial_counters self : counters_agree self initial_locals.
Proof.
  unfold counters_agree, initial_locals. cbn.
  split; [constructor|]. repeat split; auto; lia.
Qed.

Lemma discover_nonempty self w halls w' :
  discover_dining_halls self w = (Ok halls, w') -> halls <> [].
Proof.
  unfold discover_dining_halls, try_except, bind, is_exception, ret.
  destruct (make_request self (menu_base self ++ "/") None w) as [[[r|]|e] w1].
  - destruct (fold_left (add_hall_link self) (find_all_a hall_link_re (content r)) []);
      intros H; inversion H; discriminate.
  - intros H. inversion H. discriminate.
  - intros H. inversion H. discriminate.
Qed.

(** The snapshot and the final world of a run, from the locals the loop
    over the halls ends with. *)
Lemma scrape_all_data_run self w :
  exists (halls : list Hall) l snap w',
    scrape_all_data self w = (Ok snap, w') /\
    halls <> [] /\
    counters_agree self l /\
    List.length (l_dining_halls l) = List.length halls /\
    snap = {| last_updated := clock w (clock_reads w);
              dining_halls := l_dining_halls l;
              config_max_items_per_meal := max_items_per_meal self;
              config_request_delay := request_delay self;
              scrape_summary :=
                Some {| total_halls := Z.of_nat (List.length halls);
                        successful_halls := l_successful_halls l;
                        failed_halls :=
                          Z.of_nat (List.length halls) - l_successful_halls l;
                        total_items_scraped := l_total_items_scraped l;
                        scrape_duration :=
                          clock w (S (clock_reads w)) - clock w (clock_reads w) |} |} /\
    clock w' = clock w /\ clock_reads w' = S (S (clock_reads w)) /\
    disk_writable w' = disk_writable w /\
    disk w' = (if disk_writable w then Some snap else disk w).
Proof.
  unfold scrape_all_data, bind at 1.
  unfold datetime_now at 1. cbn [fst snd].
  set (wa := {| web := web w; requested := requested w; slept := slept w;
                clock := clock w; clock_reads := S (clock_reads w);
                disk_writable := disk_writable w; disk := disk w |}).
  destruct (discover_total self wa) as (halls & w1 & Hd).
  pose proof (leaves_discover self wa) as Hf1. rewrite Hd in Hf1. cbn [snd] in Hf1.
  unfold bind at 1. rewrite Hd.
  unfold bind at 1, with_locals.
  pose proof (hall_loop_count self halls 0 w1 initial_locals
                (conj (initial_counters self) eq_refl)) as Hloop.
  pose proof (leaves_hall_loop self halls w1 initial_locals) as Hf2.
  destruct (hall_loop self halls (w1, initial_locals)) as [[[]|e] [w2 l2]];
    [|destruct Hloop].
  cbn [fst snd] in Hf2. destruct Hloop as [Hinv Hlen].
  pose proof (same_trans _ _ _ Hf1 Hf2) as (C1 & C2 & C3 & C4). cbn in C1, C2, C3, C4.
  unfold bind at 1. unfold datetime_now at 1. cbn [snd fst].
  rewrite C1, C2.
  exists halls, l2.
  unfold bind, try_except, save_json, is_exception, ret. cbn [disk_writable].
  rewrite C3.
  destruct (disk_writable w) eqn:Hw; do 2 eexists;
    (split; [reflexivity|]);
    (split; [eapply discover_nonempty, Hd|]);
    (split; [exact Hinv|]); (split; [exact Hlen|]);
    (split; [reflexivity|]); cbn; rewrite ?C1, ?C2, ?C3, ?C4; auto.
Qed.

Lemma count_status_zero status halls h :
  count_status status halls = 0%Z -> In h halls -> hd_scrape_status h <> status.
Proof.
  unfold count_status. intros Hz Hin Hst.
  assert (Hf : In h (filter (has_status status) halls)).
  { apply filter_In. split; [exact Hin|]. unfold has_status. rewrite Hst.
    apply String.eqb_refl. }
  destruct (filter (has_status status) halls); [destruct Hf|cbn in Hz; lia].
Qed.

(** X10: the summary of a snapshot agrees with its hall records.  There is
    at least one hall; [total_halls] is the number of records,
    [successful_halls] the number of completed ones and [failed_halls] the
    number of failed ones, and every record is one or the other.  A
    completed record has no error and its [items_scraped] is the sum of the
    [scraped_count] of its meal periods; a failed record has no
    [items_scraped].  [total_items_scraped] is at least the sum of
    [items_scraped] over the records, and equal to it when no hall failed. *)
Theorem summary_agrees_with_records self w :
  exists snap w' summary,
    scrape_all_data self w = (Ok snap, w') /\
    scrape_summary snap = Some summary /\
    (1 <= total_halls summary)%Z /\
    total_halls summary = Z.of_nat (List.length (dining_halls snap)) /\
    successful_halls summary = count_status "completed" (dining_halls snap) /\
    failed_halls summary = count_status "failed" (dining_halls snap) /\
    (successful_halls summary + failed_halls summary = total_halls summary)%Z /\
    Forall hall_counted (dining_halls snap) /\
    (items_total (dining_halls snap) <= total_items_scraped summary)%Z /\
    (failed_halls summary = 0%Z ->
     total_items_scraped summary = items_total (dining_halls snap)).
Proof.
  destruct (scrape_all_data_run self w)
    as (halls & l & snap & w' & Hrun & Hne & Hinv & Hlen & Hsnap & _).
  destruct Hinv as (HF & Hs & Hsum & Hle & Heq & _).
  exists snap, w'. rewrite Hsnap in *. eexists. split; [exact Hrun|].
  cbn [scrape_summary dining_halls total_halls successful_halls failed_halls
       total_items_scraped].
  split; [reflexivity|]. cbn [total_halls successful_halls failed_halls total_items_scraped].
  rewrite <- Hlen.
  assert (0 < List.length halls) by (destruct halls; [congruence|cbn; lia]).
  repeat split; try assumption; try lia.
Qed.

(** X11: with a request delay that [time.sleep] takes (not negative, and at
    most a million seconds) no hall fails: every record of the snapshot is
    completed without an error, [failed_halls] is 0, [successful_halls]
    equals [total_halls], and [total_items_scraped] is the sum of the
    [items_scraped] of the halls, each of which is the sum of the
    [scraped_count] of its meal periods. *)
Theorem nonnegative_delay_completes_every_hall self w :
  sleep_accepts (request_delay self) ->
  exists snap w' summary,
    scrape_all_data self w = (Ok snap, w') /\
    scrape_summary snap = Some summary /\
    failed_halls summary = 0%Z /\
    successful_halls summary = total_halls summary /\
    total_items_scraped summary = items_total (dining_halls snap) /\
    Forall (fun h =>
              hd_scrape_status h = "completed" /\ hd_error h = None /\
              hd_items_scraped h = Some (periods_scraped (hd_meal_periods h)))
           (dining_halls snap).
Proof.
  intros [Hdelay _].
  destruct (scrape_all_data_run self w)
    as (halls & l & snap & w' & Hrun & Hne & Hinv & Hlen & Hsnap & _).
  destruct Hinv as (HF & Hs & Hsum & Hle & Heq & Hnofail).
  specialize (Hnofail Hdelay). specialize (Heq Hnofail).
  exists snap, w'. rewrite Hsnap in *. eexists. split; [exact Hrun|].
  cbn [scrape_summary dining_halls]. split; [reflexivity|].
  cbn [total_halls successful_halls failed_halls total_items_scraped].
  rewrite <- Hlen. repeat split; try assumption; try lia.
  apply Forall_forall. intros h Hin.
  pose proof (count_status_zero _ _ h Hnofail Hin) as Hnot.
  rewrite Forall_forall in HF.
  destruct (HF h Hin) as [(H1 & H2 & H3 & _)|(H1 & _)]; [auto|contradiction].
Qed.

(** A run of X11 with the delay of one second in the demo world. *)
Lemma nonnegative_delay_completes_every_hall_witness :
  exists snap w' summary,
    scrape_all_data Demo.scraper Demo.world = (Ok snap, w') /\
    scrape_summary snap = Some summary /\
    failed_halls summary = 0%Z /\
    successful_halls summary = total_halls summary /\
    total_items_scraped summary = items_total (dining_halls snap) /\
    Forall (fun h =>
              hd_scrape_status h = "completed" /\ hd_error h = None /\
              hd_items_scraped h = Some (periods_scraped (hd_meal_periods h)))
           (dining_halls snap).
Proof.
  apply (nonnegative_delay_completes_every_hall Demo.scraper Demo.world).
  unfold sleep_accepts. cbn. lia.
Defined.

(** X12: [scrape_all_data] reads the clock exactly twice, first for
    [last_updated] and last for the duration, and touches the file only in
    its final step: when the file can be written it then holds exactly the
    snapshot that is returned, and when it cannot the snapshot is returned
    all the same and the file is left as it was.  The snapshot records the
    cap and the delay of the scraper. *)
Theorem snapshot_is_saved_at_the_end self w :
  exists snap w' summary,
    scrape_all_data self w = (Ok snap, w') /\
    disk w' = (if disk_writable w then Some snap else disk w) /\
    disk_writable w' = disk_writable w /\
    clock_reads w' = S (S (clock_reads w)) /\
    last_updated snap = clock w (clock_reads w) /\
    scrape_summary snap = Some summary /\
    scrape_duration summary = (clock w (S (clock_reads w)) - clock w (clock_reads w))%Z /\
    config_max_items_per_meal snap = max_items_per_meal self /\
    config_request_delay snap = request_delay self.
Proof.
  destruct (scrape_all_data_run self w)
    as (halls & l & snap & w' & Hrun & _ & _ & _ & Hsnap & C1 & C2 & C3 & C4).
  exists snap, w'. eexists. split; [exact Hrun|]. split; [exact C4|].
  split; [exact C3|]. split; [exact C2|]. rewrite Hsnap. cbn. repeat split.
Qed.

Example summary_of_failing_run :
  match fst (scrape_all_data Demo.hasty_scraper Demo.world) with
  | Ok snap =>
      option_map (fun s => (total_halls s, successful_halls s, failed_halls s,
                            total_items_scraped s)) (scrape_summary snap)
      = Some (4%Z, 3%Z, 1%Z, 1%Z) /\
      map items_of_hall (dining_halls snap) = [0%Z; 0%Z; 0%Z; 0%Z]
  | Raise _ => False
  end.
Proof. vm_compute. split; reflexivity. Qed.

(** ** The cap outside its intended range *)



(** ** [make_request] at the edges *)

(** X24: with a negative number of retries [make_request] makes no request
    and returns [None]; with zero retries it makes exactly one request and
    never sleeps; and, for every scraper, a first attempt that succeeds is
    answered at once.  When the retry delay is negative and a retry is due,
    the failure of the first attempt makes [time.sleep] raise, and the
    exception leaves [make_request]. *)
Theorem make_request_edge_cases self url w :
  let first := web w (List.length (requested w)) url in
  (forall retries, (retries < 0)%Z ->
                   make_request self url (Some retries) w = (Ok None, w)) /\
  (make_request self url (Some 0%Z) w
   = (Ok match first with
         | GetResponse r => if get_fails first then None else Some r
         | GetRaises _ => None
         end, world_after w [url] [])) /\
  (forall retries r,
      (0 <= retries)%Z -> first = GetResponse r -> get_fails first = false ->
      make_request self url (Some retries) w = (Ok (Some r), world_after w [url] [])) /\
  (forall retries,
      (retry_delay self < 0)%Z -> (0 < retries)%Z -> get_fails first = true ->
      make_request self url (Some retries) w = (Raise sleep_error, world_after w [url] [])).
Proof.
  cbn zeta.
  assert (Hw : world_after w [url] []
               = {| web := web w; requested := requested w ++ [url]; slept := slept w;
                    clock := clock w; clock_reads := clock_reads w;
                    disk_writable := disk_writable w; disk := disk w |}).
  { unfold world_after. now rewrite app_nil_r. }
  rewrite Hw. clear Hw.
  split; [|split; [|split]].
  - intros retries Hneg. unfold make_request.
    replace (Z.to_nat (retries + 1)) with 0 by lia. reflexivity.
  - unfold make_request. change (Z.to_nat (0 + 1)) with 1. cbn [attempts].
    unfold one_attempt, try_except, bind, session_get, raise_for_status, raise,
      ret, is_request_exception.
    destruct (web w (List.length (requested w)) url) as [r|msg]; cbn [get_fails].
    + destruct ((400 <=? status_code r) && (status_code r <? 600))%Z; reflexivity.
    + reflexivity.
  - intros retries r Hr Hfirst Hok. unfold make_request.
    destruct (Z.to_nat (retries + 1)) as [|todo] eqn:Htodo; [lia|].
    cbn [attempts].
    unfold one_attempt, try_except, bind, session_get, raise_for_status, raise,
      ret, is_request_exception.
    rewrite Hfirst in *. cbn [get_fails] in Hok. rewrite Hok. reflexivity.
  - intros retries Hdelay Hr Hfail. unfold make_request.
    destruct (Z.to_nat (retries + 1)) as [|todo] eqn:Htodo; [lia|].
    cbn [attempts].
    assert (Hlt : (0 <? retries)%Z = true) by (apply Z.ltb_lt; lia).
    assert (Hneg : (retry_delay self * (0 + 1) <? 0)%Z = true) by (apply Z.ltb_lt; lia).
    unfold one_attempt, try_except, bind, session_get, raise_for_status, raise,
      ret, is_request_exception, sleep, sleep_error.
    destruct (web w (List.length (requested w)) url) as [r|msg]; cbn [get_fails] in Hfail.
    + rewrite Hfail. cbn [exn_cls mant]. rewrite Hlt, Hneg. reflexivity.
    + cbn [exn_cls mant]. rewrite Hlt, Hneg. reflexivity.
Qed.

(** ** The fallback meal plan *)

Lemma meal_items_app m e1 e2 :
  meal_items m (e1 ++ e2) = meal_items m e1 ++ meal_items m e2.
Proof. unfold meal_items. now rewrite filter_app, map_app. Qed.

Lemma lists_plus_nil b : lists_plus b [] = b.
Proof. destruct b. unfold lists_plus. cbn. now rewrite !app_nil_r. Qed.

Lemma lists_plus_app b e1 e2 : lists_plus (lists_plus b e1) e2 = lists_plus b (e1 ++ e2).
Proof.
  unfold lists_plus. cbn. now rewrite !meal_items_app, !app_assoc.
Qed.

Lemma add_plan_item_plus hall_name meal_period b item :
  add_plan_item hall_name meal_period b item
  = lists_plus b [(hall_name, meal_period, item)].
Proof.
  unfold add_plan_item, lists_plus, meal_items, feeds, meal_of_period. cbn [filter fst snd].
  destruct (0 <? item_calories item)%Z; cbn [andb].
  - destruct (PyStr.contains "breakfast" (PyStr.lower meal_period));
      [cbn; now rewrite !app_nil_r|].
    destruct (PyStr.contains "lunch" (PyStr.lower meal_period));
      [cbn; now rewrite !app_nil_r|].
    destruct (PyStr.contains "dinner" (PyStr.lower meal_period));
      cbn; rewrite !app_nil_r; [reflexivity|now destruct b].
  - cbn. rewrite !app_nil_r. now destruct b.
Qed.

Lemma fold_plan_items hall_name meal_period items :
  forall b,
    fold_left (add_plan_item hall_name meal_period) items b
    = lists_plus b (map (fun item => (hall_name, meal_period, item)) items).
Proof.
  induction items as [|item items IH]; intros b; cbn [fold_left map].
  - now rewrite lists_plus_nil.
  - rewrite IH, add_plan_item_plus, lists_plus_app. reflexivity.
Qed.

Lemma fold_plan_periods hall_name periods :
  forall b,
    fold_left (add_plan_period hall_name) periods b
    = lists_plus b
        (flat_map (fun entry : string * MealPeriodData =>
                     map (fun item => (hall_name, fst entry, item))
                         (firstn 3 (mp_items (snd entry)))) periods).
Proof.
  induction periods as [|entry periods IH]; intros b; cbn [fold_left flat_map].
  - now rewrite lists_plus_nil.
  - rewrite IH. unfold add_plan_period. now rewrite fold_plan_items, lists_plus_app.
Qed.

Lemma fallback_lists_spec menu_data :
  fallback_lists menu_data
  = {| breakfast_items := meal_items Breakfast (plan_entries menu_data);
       lunch_items := meal_items Lunch (plan_entries menu_data);
       dinner_items := meal_items Dinner (plan_entries menu_data) |}.
Proof.
  unfold fallback_lists, plan_entries.
  assert (H : forall halls b,
             fold_left add_plan_hall halls b
             = lists_plus b
                 (flat_map
                    (fun hall =>
                       flat_map
                         (fun entry : string * MealPeriodData =>
                            map (fun item => (hd_name hall, fst entry, item))
                                (firstn 3 (mp_items (snd entry))))
                         (hd_meal_periods hall)) halls)).
  { induction halls as [|hall halls IH]; intros b; cbn [fold_left flat_map].
    - now rewrite lists_plus_nil.
    - rewrite IH. unfold add_plan_hall. now rewrite fold_plan_periods, lists_plus_app. }
  rewrite H. reflexivity.
Qed.

Lemma meal_items_calories m entries :
  Forall (fun p => (0 < pi_calories p)%Z) (meal_items m entries).
Proof.
  unfold meal_items. apply Forall_forall. intros p Hin.
  apply in_map_iff in Hin. destruct Hin as ([[h mp] item] & <- & Hf).
  apply filter_In in Hf. destruct Hf as [_ Hf]. unfold feeds in Hf.
  apply andb_prop in Hf. destruct Hf as [Hc _]. cbn in *. now apply Z.ltb_lt.
Qed.

Lemma In_firstn {A} (x : A) n :
  forall l, In x (firstn n l) -> In x l.
Proof.
  induction n as [|n IH]; intros [|y l]; cbn; try tauto.
  intros [H|H]; auto.
Qed.

Lemma Forall_firstn {A} (P : A -> Prop) n l : Forall P l -> Forall P (firstn n l).
Proof.
  rewrite !Forall_forall. intros H x Hx. apply H. eapply In_firstn, Hx.
Qed.

Lemma NoDup_firstn {A} n : forall l : list A, NoDup l -> NoDup (firstn n l).
Proof.
  induction n as [|n IH]; intros [|y l] H; cbn; try constructor.
  - inversion H; subst. intros Hin. apply In_firstn in Hin. contradiction.
  - inversion H; subst. auto.
Qed.

Lemma fold_add_calories l :
  forall acc, fold_left Z.add (map pi_calories l) acc = (acc + sum_calories l)%Z.
Proof.
  induction l as [|p l IH]; intros acc; cbn [map fold_left]; [cbn; lia|].
  rewrite IH. cbn [sum_calories fold_right]. fold (sum_calories l). lia.
Qed.

Lemma sum_calories_lower l :
  Forall (fun p => (0 < pi_calories p)%Z) l ->
  (Z.of_nat (List.length l) <= sum_calories l)%Z.
Proof.
  induction 1 as [|p l Hp _ IH]; cbn [sum_calories fold_right List.length]; [lia|].
  fold (sum_calories l). lia.
Qed.

(** X13: the fallback meal plan is made of the first two items for
    breakfast, for lunch and for dinner among the first three items of every
    meal period of the snapshot, in its order, an item counting only when its
    calories are positive and going to the first of breakfast, lunch, dinner
    whose name occurs in its lowercased meal period.  So the plan holds at
    most six items, none for snacks, its calorie total is their exact sum
    and at least their number, and the target calories play no part. *)
Theorem fallback_plan_spec menu_data target_calories :
  let entries := plan_entries menu_data in
  let breakfast := firstn 2 (meal_items Breakfast entries) in
  let lunch := firstn 2 (meal_items Lunch entries) in
  let dinner := firstn 2 (meal_items Dinner entries) in
  let chosen := breakfast ++ lunch ++ dinner in
  py_getitem (create_fallback_meal_plan menu_data target_calories) "meal_plan"
  = Returned (VDict [ ("breakfast", VList (map plan_item_val breakfast));
                      ("lunch", VList (map plan_item_val lunch));
                      ("dinner", VList (map plan_item_val dinner));
                      ("snacks", VList []) ]) /\
  py_getitem (create_fallback_meal_plan menu_data target_calories) "totals"
  = Returned (VDict [ ("calories", VInt (sum_calories chosen));
                      ("protein",
                       number_val (py_round1_number (py_sum (map pi_protein chosen))));
                      ("carbs",
                       number_val (py_round1_number (py_sum (map pi_carbs chosen))));
                      ("fat",
                       number_val (py_round1_number (py_sum (map pi_fat chosen)))) ]) /\
  py_getitem (create_fallback_meal_plan menu_data target_calories) "notes"
  = Returned (VStr fallback_notes) /\
  List.length chosen <= 6 /\
  Forall (fun p => (0 < pi_calories p)%Z) chosen /\
  (Z.of_nat (List.length chosen) <= sum_calories chosen)%Z /\
  forall other_target,
    create_fallback_meal_plan menu_data other_target
    = create_fallback_meal_plan menu_data target_calories.
Proof.
  cbn zeta. unfold create_fallback_meal_plan. rewrite fallback_lists_spec.
  cbn [breakfast_items lunch_items dinner_items py_getitem dict_find String.eqb
       Ascii.eqb Bool.eqb].
  rewrite fold_add_calories, Z.add_0_l.
  assert (HF : Forall (fun p => (0 < pi_calories p)%Z)
                 (firstn 2 (meal_items Breakfast (plan_entries menu_data)) ++
                  firstn 2 (meal_items Lunch (plan_entries menu_data)) ++
                  firstn 2 (meal_items Dinner (plan_entries menu_data)))).
  { rewrite !Forall_app. repeat split; apply Forall_firstn, meal_items_calories. }
  split; [reflexivity|]. split; [reflexivity|]. split; [reflexivity|].
  split; [|split; [exact HF|split; [now apply sum_calories_lower|reflexivity]]].
  rewrite !length_app.
  pose proof (firstn_le_length 2 (meal_items Breakfast (plan_entries menu_data))).
  pose proof (firstn_le_length 2 (meal_items Lunch (plan_entries menu_data))).
  pose proof (firstn_le_length 2 (meal_items Dinner (plan_entries menu_data))).
  lia.
Qed.

(** ** Validation of meal plans *)

Lemma fallback_plan_valid menu_data target_calories :
  validate_meal_plan_structure (create_fallback_meal_plan menu_data target_calories)
  = Returned true.
Proof. reflexivity. Qed.

(** X14: whatever [create_ai_meal_plan] returns passes
    [validate_meal_plan_structure]: the reply of the model when it parses and
    validates, the fallback plan in every other case (no client, no food to
    offer, a failed call, a reply without content, text that is not JSON, a
    structure that is rejected or on which validation raises).  The call
    raises only while building the prompt, when a restriction is not a string
    or the macros are not a dictionary. *)
Theorem ai_meal_plan_is_valid py_title str_of_int str_of_float json_loads
        openai_client reply menu_data calories restrictions macros preferences :
  let outcome :=
    create_ai_meal_plan py_title str_of_int str_of_float json_loads openai_client reply
                        menu_data calories restrictions macros preferences in
  let fallback := create_fallback_meal_plan menu_data calories in
  validate_meal_plan_structure fallback = Returned true /\
  (forall plan,
      outcome = Returned plan ->
      validate_meal_plan_structure plan = Returned true /\
      (plan = fallback \/
       exists text, reply = Content text /\
                    json_loads (clean_ai_response text) = Some plan)) /\
  (forall exception,
      outcome = Raised exception ->
      openai_client = true /\
      format_foods_for_ai py_title str_of_int str_of_float menu_data <> EmptyString /\
      ((exception = "TypeError" /\ forallb is_str restrictions = false) \/
       (exception = "AttributeError" /\ is_dict macros = false))) /\
  (forallb is_str restrictions = true -> is_dict macros = true ->
   exists plan, outcome = Returned plan) /\
  (openai_client = false -> outcome = Returned fallback).
Proof.
  cbn zeta. unfold create_ai_meal_plan.
  pose proof (fallback_plan_valid menu_data calories) as Hfb.
  split; [exact Hfb|].
  destruct openai_client; cbn [negb].
  2:{ split; [intros p H; inversion H; subst; split; [exact Hfb|now left]|].
      split; [intros e H; discriminate H|].
      split; [intros _ _; eexists; reflexivity|reflexivity]. }
  destruct (PyStr.truthy (format_foods_for_ai py_title str_of_int str_of_float menu_data))
    eqn:Hfoods; cbn [negb].
  2:{ split; [intros p H; inversion H; subst; split; [exact Hfb|now left]|].
      split; [intros e H; discriminate H|].
      split; [intros _ _; eexists; reflexivity|discriminate]. }
  apply truthy_nonempty in Hfoods.
  destruct (forallb is_str restrictions) eqn:Hr; cbn [negb].
  2:{ split; [intros p H; discriminate H|].
      split; [intros e H; inversion H; subst; auto|].
      split; [discriminate|discriminate]. }
  destruct (is_dict macros) eqn:Hm; cbn [negb].
  2:{ split; [intros p H; discriminate H|].
      split; [intros e H; inversion H; subst; auto|].
      split; [discriminate|discriminate]. }
  split; [|split; [|split; [|discriminate]]].
  - intros p. destruct reply as [| |text];
      try (intros H; inversion H; subst; split; [exact Hfb|now left]).
    destruct (json_loads (clean_ai_response text)) as [meal_plan|] eqn:Hj;
      [|intros H; inversion H; subst; split; [exact Hfb|now left]].
    destruct (validate_meal_plan_structure meal_plan) as [[|]|e] eqn:Hv;
      intros H; inversion H; subst; try (split; [exact Hfb|now left]).
    split; [exact Hv|]. right. now exists text.
  - intros exception H. exfalso.
    destruct reply as [| |text]; try discriminate H.
    destruct (json_loads (clean_ai_response text)) as [meal_plan|]; [|discriminate H].
    destruct (validate_meal_plan_structure meal_plan) as [[|]|e]; discriminate H.
  - intros _ _.
    destruct reply as [| |text]; try (eexists; reflexivity).
    destruct (json_loads (clean_ai_response text)) as [meal_plan|];
      [|eexists; reflexivity].
    destruct (validate_meal_plan_structure meal_plan) as [[|]|e]; eexists; reflexivity.
Qed.

(** ** The cleaning of the reply *)

Lemma str_from_app a b : str_from (String.length a) (a ++ b) = b.
Proof.
  induction a as [|c a IH]; cbn [String.length append str_from]; [now destruct b|exact IH].
Qed.

Lemma str_to_app a b : str_to (String.length a) (a ++ b) = a.
Proof.
  induction a as [|c a IH]; cbn [String.length append str_to]; [now destruct b|].
  now rewrite IH.
Qed.

Lemma length_append a b : String.length (a ++ b) = String.length a + String.length b.
Proof. induction a as [|c a IH]; cbn; [reflexivity|now rewrite IH]. Qed.

Lemma endswith_app a suffix : endswith suffix (a ++ suffix) = true.
Proof.
  unfold endswith. rewrite length_append.
  replace (String.length a + String.length suffix - String.length suffix)
    with (String.length a) by lia.
  rewrite str_from_app, String.eqb_refl, andb_true_r. apply Nat.leb_le. lia.
Qed.

Lemma rstrip_ends_clean a c :
  PyStr.isspace c = false ->
  PyStr.rstrip (a ++ String c "") = (a ++ String c "")%string.
Proof.
  intros Hc. induction a as [|x a IH]; cbn [append PyStr.rstrip].
  - now rewrite Hc.
  - rewrite IH. destruct a; reflexivity.
Qed.

(** X15: a reply wrapped in a [```json] ... [```] fence is reduced to the
    stripped text between the fences, whatever that text is, and a reply
    whose stripped text neither begins with [```json] nor ends with [```] is
    only stripped. *)
Theorem code_fence_is_removed body :
  clean_ai_response ("```json" ++ body ++ "```") = PyStr.strip body /\
  (forall content,
      PyStr.startswith "```json" (PyStr.strip content) = false ->
      endswith "```" (PyStr.strip content) = false ->
      clean_ai_response content = PyStr.strip content).
Proof.
  assert (Hstrip : forall prefix,
             PyStr.strip ("```" ++ prefix ++ "```") = ("```" ++ prefix ++ "```")%string).
  { intros prefix. unfold PyStr.strip.
    change (PyStr.lstrip ("```" ++ prefix ++ "```"))
      with ("```" ++ prefix ++ "```")%string.
    replace ("```" ++ prefix ++ "```")%string
      with (("```" ++ prefix ++ "``") ++ String "`" "")%string
      by (now rewrite !append_assoc).
    now apply rstrip_ends_clean. }
  split.
  - unfold clean_ai_response.
    change ("```json" ++ body ++ "```")%string
      with ("```" ++ ("json" ++ body) ++ "```")%string.
    rewrite Hstrip.
    change (PyStr.startswith "```json" ("```" ++ ("json" ++ body) ++ "```")) with
      (PyStr.startswith "" (body ++ "```")).
    replace (PyStr.startswith "" (body ++ "```")) with true
      by (unfold PyStr.startswith; now destruct (body ++ "```")%string).
    change (str_from 7 ("```" ++ ("json" ++ body) ++ "```")) with (body ++ "```")%string.
    rewrite endswith_app, length_append.
    replace (String.length body + String.length "```" - 3) with (String.length body)
      by (cbn; lia).
    now rewrite str_to_app.
  - intros content H1 H2. unfold clean_ai_response. rewrite H1, H2. apply strip_strip.
Qed.

Example fence_examples :
  clean_ai_response "  ```json
{}
```  " = "{}" /\
  clean_ai_response "```
{}
```" = "```
{}" /\
  clean_ai_response " {} " = "{}" /\
  clean_ai_response "```json```" = "".
Proof. repeat split. Qed.

(** ** Quick suggestions *)

Section QuickSuggestionsProofs.

Variable str_of_int : Z -> string.
Variable str_of_float : dec -> string.
Variables flexed_biceps high_voltage green_salad cookie fork_and_knife_with_plate : string.

Let collected :=
  collected_suggestions str_of_int str_of_float flexed_biceps high_voltage green_salad
                        cookie.
Let suggest :=
  suggest_item str_of_int str_of_float flexed_biceps high_voltage green_salad cookie.

Lemma suggest_item_silent message_lower hall_name suggestions item :
  any_in workout_words message_lower = false ->
  any_in hurry_words message_lower = false ->
  any_in healthy_words message_lower = false ->
  any_in sweet_words message_lower = false ->
  suggest message_lower hall_name suggestions item = suggestions.
Proof.
  intros H1 H2 H3 H4. subst suggest. unfold suggest_item. now rewrite H1, H2, H3, H4.
Qed.

Lemma fold_left_fixed {A B} (f : A -> B -> A) (l : list B) (a : A) :
  (forall x, f a x = a) -> fold_left f l a = a.
Proof.
  intros H. induction l as [|x l IH]; cbn [fold_left]; [reflexivity|]. now rewrite H.
Qed.

Lemma collected_silent message menu_data :
  any_in workout_words (PyStr.lower message) = false ->
  any_in hurry_words (PyStr.lower message) = false ->
  any_in healthy_words (PyStr.lower message) = false ->
  any_in sweet_words (PyStr.lower message) = false ->
  collected message menu_data = [].
Proof.
  intros H1 H2 H3 H4. subst collected. unfold collected_suggestions.
  apply fold_left_fixed. intros hall. unfold suggest_hall.
  apply fold_left_fixed. intros entry. unfold suggest_period.
  apply fold_left_fixed. intros item.
  apply (suggest_item_silent _ _ _ _ H1 H2 H3 H4).
Qed.

(** X16: [generate_quick_suggestions] always returns between one and five
    suggestions, all different.  They are the first five distinct lines the
    loops collect, in order, or the single default line when nothing is
    collected, which is the case whenever the lowercased message mentions
    none of the fifteen keywords. *)
Theorem quick_suggestions_bounds message menu_data :
  let result :=
    generate_quick_suggestions str_of_int str_of_float flexed_biceps high_voltage
                               green_salad cookie fork_and_knife_with_plate
                               message menu_data in
  let lines := collected message menu_data in
  1 <= List.length result <= 5 /\
  NoDup result /\
  (lines <> [] -> result = firstn 5 (dict_fromkeys lines) /\ incl result lines) /\
  (lines = [] -> result = [default_suggestion fork_and_knife_with_plate]) /\
  (any_in workout_words (PyStr.lower message) = false ->
   any_in hurry_words (PyStr.lower message) = false ->
   any_in healthy_words (PyStr.lower message) = false ->
   any_in sweet_words (PyStr.lower message) = false ->
   lines = []).
Proof.
  cbn zeta. unfold generate_quick_suggestions. fold collected.
  set (lines := collected message menu_data).
  pose proof (dict_fromkeys_NoDup lines) as Hnd.
  pose proof (firstn_le_length 5 (dict_fromkeys lines)) as Hlen.
  assert (Hne : lines <> [] -> firstn 5 (dict_fromkeys lines) <> []).
  { intros Hl. destruct lines as [|x lines']; [congruence|].
    assert (Hx : In x (dict_fromkeys (x :: lines'))) by (apply dict_fromkeys_In; now left).
    destruct (dict_fromkeys (x :: lines')); [destruct Hx|cbn; discriminate]. }
  split; [|split; [|split; [|split]]].
  - destruct (firstn 5 (dict_fromkeys lines)) as [|s l]; cbn in *; lia.
  - destruct (firstn 5 (dict_fromkeys lines)) as [|s l] eqn:Hf.
    + repeat constructor. intros [].
    + rewrite <- Hf. now apply NoDup_firstn.
  - intros Hl. specialize (Hne Hl).
    destruct (firstn 5 (dict_fromkeys lines)) as [|s l] eqn:Hf; [congruence|].
    split; [reflexivity|]. rewrite <- Hf. intros x Hx.
    apply In_firstn in Hx. exact (proj1 (dict_fromkeys_In lines x) Hx).
  - intros ->. reflexivity.
  - apply collected_silent.
Qed.

End QuickSuggestionsProofs.

(** ** The rate limiter *)

Lemma dict_get_set_same {A} (d : list (string * A)) k v default :
  dict_get (dict_set d k v) k default = v.
Proof.
  induction d as [|[k' v'] d IH]; cbn [dict_set dict_get].
  - now rewrite String.eqb_refl.
  - destruct (String.eqb k k') eqn:E; cbn [dict_get]; rewrite E; [reflexivity|exact IH].
Qed.

Lemma dict_get_set_other {A} (d : list (string * A)) k v k' default :
  k' <> k -> dict_get (dict_set d k v) k' default = dict_get d k' default.
Proof.
  intros Hne. induction d as [|[k0 v0] d IH]; cbn [dict_set dict_get].
  - now rewrite eqb_neq_false.
  - destruct (String.eqb k k0) eqn:E; cbn [dict_get].
    + apply String.eqb_eq in E. subst k0. now rewrite eqb_neq_false.
    + now rewrite IH.
Qed.

Lemma rate_limit_step max_requests now client_ip calls :
  let recent :=
    filter (fun call_time => float_gtb call_time (float_sub now (Dec 60 0)))
           (dict_get calls client_ip []) in
  let step := rate_limit_wrapper max_requests now client_ip calls in
  fst step = (Z.of_nat (List.length recent) <? max_requests)%Z /\
  dict_get (snd step) client_ip [] = (if fst step then recent ++ [now] else recent) /\
  (forall other, other <> client_ip ->
                 dict_get (snd step) other [] = dict_get calls other []).
Proof.
  cbn zeta. unfold rate_limit_wrapper. rewrite dict_get_set_same.
  set (recent := filter _ (dict_get calls client_ip [])).
  rewrite Z.ltb_antisym.
  destruct (max_requests <=? Z.of_nat (List.length recent))%Z; cbn [fst snd negb].
  - split; [reflexivity|]. split; [apply dict_get_set_same|].
    intros other Hne. now apply dict_get_set_other.
  - split; [reflexivity|]. split; [apply dict_get_set_same|].
    intros other Hne. now rewrite !dict_get_set_other.
Qed.

Lemma rate_limit_step_bound max_requests now client_ip calls :
  (forall ip, (Z.of_nat (List.length (dict_get calls ip [])) <= Z.max max_requests 0)%Z) ->
  forall ip,
    (Z.of_nat (List.length
                 (dict_get (snd (rate_limit_wrapper max_requests now client_ip calls)) ip []))
     <= Z.max max_requests 0)%Z.
Proof.
  intros Hb ip.
  destruct (rate_limit_step max_requests now client_ip calls) as (Hs & Hsame & Hother).
  destruct (String.eqb ip client_ip) eqn:E.
  - apply String.eqb_eq in E. subst ip. rewrite Hsame, Hs.
    pose proof (filter_length_le
                  (fun call_time => float_gtb call_time (float_sub now (Dec 60 0)))
                  (dict_get calls client_ip [])) as Hle.
    specialize (Hb client_ip).
    destruct (Z.of_nat _ <? max_requests)%Z eqn:Hlt.
    + apply Z.ltb_lt in Hlt. rewrite length_app. cbn [List.length]. lia.
    + lia.
  - rewrite Hother; [apply Hb|]. intros ->. rewrite String.eqb_refl in E. discriminate.
Qed.

Lemma rate_limit_run_spec max_requests :
  forall requests calls,
    (forall ip, (Z.of_nat (List.length (dict_get calls ip [])) <= Z.max max_requests 0)%Z) ->
    let run := rate_limit_run max_requests requests calls in
    List.length (fst run) = List.length requests /\
    (forall ip,
        (Z.of_nat (List.length (dict_get (snd run) ip [])) <= Z.max max_requests 0)%Z) /\
    ((max_requests <= 0)%Z -> Forall (fun served => served = false) (fst run)) /\
    (forall ip call_time,
        In call_time (dict_get (snd run) ip []) ->
        In call_time (dict_get calls ip []) \/
        In (call_time, ip, true) (combine requests (fst run))).
Proof.
  induction requests as [|[now client_ip] rest IH]; intros calls Hb; cbn zeta.
  - cbn. repeat split; auto.
  - cbn [rate_limit_run].
    pose proof (rate_limit_step max_requests now client_ip calls) as Hstep.
    pose proof (rate_limit_step_bound max_requests now client_ip calls Hb) as Hb'.
    destruct (rate_limit_wrapper max_requests now client_ip calls) as [served calls'].
    cbn zeta in Hstep. cbn [fst snd] in Hstep, Hb'.
    destruct Hstep as (Hs & Hsame & Hother).
    specialize (IH calls' Hb'). cbn zeta in IH.
    destruct (rate_limit_run max_requests rest calls') as [answers calls''].
    cbn [fst snd] in *. destruct IH as (Hlen & Hbound & Hnone & Hrec).
    cbn [List.length combine].
    split; [now rewrite Hlen|]. split; [exact Hbound|]. split.
    + intros Hmax. constructor; [|auto].
      rewrite Hs. apply Z.ltb_ge. lia.
    + intros ip call_time Hin. destruct (Hrec ip call_time Hin) as [Hold|Hnew].
      * destruct (String.eqb ip client_ip) eqn:E.
        -- apply String.eqb_eq in E. subst ip. rewrite Hsame in Hold.
           destruct served.
           ++ apply in_app_or in Hold. destruct Hold as [Hold|[<-|[]]].
              ** left. apply filter_In in Hold. tauto.
              ** right. now left.
           ++ left. apply filter_In in Hold. tauto.
        -- left. rewrite Hother in Hold; [exact Hold|].
           intros ->. rewrite String.eqb_refl in E. discriminate.
      * right. now right.
Qed.

(** X17: the rate limiter lets a request through exactly when the client
    has fewer than the limit of recorded calls that are later than one
    minute before; it then records the time, and it records nothing for a
    request it turns away.  Other clients are not affected.  So over any
    sequence of requests no client ever has more recorded calls than the
    limit, every recorded time is the time of a request of that client that
    was let through, and with a limit of zero or less none is. *)
Theorem rate_limit_keeps_bound max_requests requests :
  let run := rate_limit_run max_requests requests [] in
  List.length (fst run) = List.length requests /\
  (forall ip,
      (Z.of_nat (List.length (dict_get (snd run) ip [])) <= Z.max max_requests 0)%Z) /\
  ((max_requests <= 0)%Z -> Forall (fun served => served = false) (fst run)) /\
  (forall ip call_time,
      In call_time (dict_get (snd run) ip []) ->
      In (call_time, ip, true) (combine requests (fst run))) /\
  (forall now client_ip calls,
      let recent :=
        filter (fun call_time => float_gtb call_time (float_sub now (Dec 60 0)))
               (dict_get calls client_ip []) in
      let step := rate_limit_wrapper max_requests now client_ip calls in
      fst step = (Z.of_nat (List.length recent) <? max_requests)%Z /\
      dict_get (snd step) client_ip [] = (if fst step then recent ++ [now] else recent) /\
      (forall other, other <> client_ip ->
                     dict_get (snd step) other [] = dict_get calls other [])).
Proof.
  cbn zeta.
  destruct (rate_limit_run_spec max_requests requests [])
    as (H1 & H2 & H3 & H4); [intros ip; cbn; lia|].
  split; [exact H1|]. split; [exact H2|]. split; [exact H3|]. split.
  - intros ip call_time Hin. destruct (H4 ip call_time Hin) as [[]|H]. exact H.
  - intros now client_ip calls. apply rate_limit_step.
Qed.

Example rate_limit_of_two :
  fst (rate_limit_run 2 [(Dec 1000 0, "a"); (Dec 1001 0, "a"); (Dec 1002 0, "a");
                         (Dec 1002 0, "b"); (Dec 1061 0, "a"); (Dec 1062 0, "a")] [])
  = [true; true; false; true; true; true].
Proof. vm_compute. reflexivity. Qed.

(** ** Refreshing the menu *)

(** X18: [update_menu_data] never raises.  It replaces the menu in memory by
    the snapshot [scrape_all_data] returns and sets [last_update] to the
    next reading of the clock; when the file can be written, the file then
    holds the same snapshot as the memory. *)
Theorem update_menu_data_refreshes scraper w app :
  exists snapshot w1 w',
    scrape_all_data scraper w = (Ok snapshot, w1) /\
    update_menu_data scraper (w, app)
    = (Ok tt, (w', {| current_menu_data := Some snapshot;
                      last_update := Some (clock w (S (S (clock_reads w)))) |})) /\
    clock_reads w' = S (S (S (clock_reads w))) /\
    disk w' = (if disk_writable w then Some snapshot else disk w).
Proof.
  destruct (scrape_all_data_run scraper w)
    as (halls & l & snap & w1 & Hrun & _ & _ & _ & _ & C1 & C2 & C3 & C4).
  exists snap, w1. eexists. split; [exact Hrun|].
  unfold update_menu_data, try_except, bind, in_world, set_local, datetime_now.
  rewrite Hrun. cbn [fst snd current_menu_data last_update].
  rewrite C1, C2. split; [reflexivity|]. cbn. split; [reflexivity|exact C4].
Qed.

(** X22: [refresh_data] answers 401 and changes nothing, neither the menu in
    memory nor the file nor the log of requests, unless the [X-API-Key]
    header equals the expected key, which is the value of ADMIN_API_KEY or,
    when that is unset, the built-in default.  With the right key it always
    answers 200, never 500: the menu in memory is replaced by a fresh
    snapshot and [updated_at] is the time set by the update. *)
Theorem refresh_data_needs_the_key scraper env api_key w app :
  let expected_key := dict_get env "ADMIN_API_KEY" "default-admin-key-change-me" in
  (dict_find env "ADMIN_API_KEY" = None -> expected_key = "default-admin-key-change-me") /\
  (api_key <> Some expected_key ->
   refresh_data scraper env api_key (w, app) = (Ok (401%Z, None), (w, app))) /\
  (api_key = Some expected_key ->
   exists snapshot w1 w',
     scrape_all_data scraper w = (Ok snapshot, w1) /\
     refresh_data scraper env api_key (w, app)
     = (Ok (200%Z, Some (clock w (S (S (clock_reads w))))),
        (w', {| current_menu_data := Some snapshot;
                last_update := Some (clock w (S (S (clock_reads w)))) |}))) /\
  exists answer state,
    refresh_data scraper env api_key (w, app) = (Ok answer, state) /\
    (fst answer = 401%Z \/ fst answer = 200%Z).
Proof.
  cbn zeta.
  set (expected_key := dict_get env "ADMIN_API_KEY" "default-admin-key-change-me").
  assert (Hdefault : dict_find env "ADMIN_API_KEY" = None ->
                     expected_key = "default-admin-key-change-me").
  { subst expected_key. clear.
    induction env as [|[k v] env IH]; cbn [dict_find dict_get]; [reflexivity|].
    destruct (String.eqb "ADMIN_API_KEY" k); [discriminate|exact IH]. }
  assert (Hdenied : api_key <> Some expected_key ->
                    refresh_data scraper env api_key (w, app) = (Ok (401%Z, None), (w, app))).
  { intros Hne. unfold refresh_data. fold expected_key.
    destruct api_key as [key|]; [|reflexivity].
    destruct (String.eqb_spec key expected_key) as [->|Hk]; [congruence|reflexivity]. }
  assert (Hgranted :
    api_key = Some expected_key ->
    exists snapshot w1 w',
      scrape_all_data scraper w = (Ok snapshot, w1) /\
      refresh_data scraper env api_key (w, app)
      = (Ok (200%Z, Some (clock w (S (S (clock_reads w))))),
         (w', {| current_menu_data := Some snapshot;
                 last_update := Some (clock w (S (S (clock_reads w)))) |}))).
  { intros ->.
    destruct (scrape_all_data_run scraper w)
      as (halls & l & snap & w1 & Hrun & _ & _ & _ & _ & C1 & C2 & _).
    exists snap, w1. eexists. split; [exact Hrun|].
    unfold refresh_data. fold expected_key. rewrite String.eqb_refl. cbn [negb].
    unfold update_menu_data, try_except, bind, in_world, set_local, datetime_now, get_local,
      is_exception, ret.
    rewrite Hrun. cbn [fst snd current_menu_data last_update]. rewrite C1, C2.
    reflexivity. }
  split; [exact Hdefault|]. split; [exact Hdenied|]. split; [exact Hgranted|].
  destruct api_key as [key|].
  - destruct (String.eqb_spec key expected_key) as [->|Hk].
    + destruct (Hgranted eq_refl) as (s & w1 & w' & _ & ->).
      do 2 eexists. split; [reflexivity|now right].
    + rewrite Hdenied by congruence. do 2 eexists. split; [reflexivity|now left].
  - rewrite Hdenied by discriminate. do 2 eexists. split; [reflexivity|now left].
Qed.

Example periods_outside_the_fallback_plan :
  meal_of_period "brunch" = None /\ meal_of_period "late_night" = None /\
  meal_of_period "Breakfast/Lunch" = Some Breakfast.
Proof. repeat split. Qed.

(** ** The form of a meal period *)

Lemma lower_char_idem c : PyStr.lower_char (PyStr.lower_char c) = PyStr.lower_char c.
Proof. destruct c as [[] [] [] [] [] [] [] []]; reflexivity. Qed.

Lemma isspace_lower_char c : PyStr.isspace (PyStr.lower_char c) = PyStr.isspace c.
Proof. destruct c as [[] [] [] [] [] [] [] []]; reflexivity. Qed.

Lemma star_lower_char c : Ascii.eqb (PyStr.lower_char c) "*" = Ascii.eqb c "*".
Proof. destruct c as [[] [] [] [] [] [] [] []]; reflexivity. Qed.

Lemma lower_idem s : PyStr.lower (PyStr.lower s) = PyStr.lower s.
Proof. induction s as [|c s IH]; cbn; [reflexivity|]. now rewrite lower_char_idem, IH. Qed.

Lemma lower_lstrip s : PyStr.lower (PyStr.lstrip s) = PyStr.lstrip (PyStr.lower s).
Proof.
  induction s as [|c s IH]; cbn [PyStr.lstrip PyStr.lower]; [reflexivity|].
  rewrite isspace_lower_char. destruct (PyStr.isspace c); [exact IH|reflexivity].
Qed.

Lemma lower_rstrip s : PyStr.lower (PyStr.rstrip s) = PyStr.rstrip (PyStr.lower s).
Proof.
  induction s as [|c s IH]; cbn [PyStr.rstrip PyStr.lower]; [reflexivity|].
  rewrite <- IH, isspace_lower_char.
  destruct (PyStr.rstrip s) as [|d r]; cbn [PyStr.lower].
  - destruct (PyStr.isspace c); reflexivity.
  - reflexivity.
Qed.

Lemma lower_strip s : PyStr.lower (PyStr.strip s) = PyStr.strip (PyStr.lower s).
Proof. unfold PyStr.strip. now rewrite lower_rstrip, lower_lstrip. Qed.

Lemma count_star_lower s : count_char "*" (PyStr.lower s) = count_char "*" s.
Proof.
  induction s as [|c s IH]; cbn [PyStr.lower count_char]; [reflexivity|].
  now rewrite star_lower_char, IH.
Qed.

(** X19: a meal period that [extract_meal_period] returns is in normal form:
    it is lowercase, has no surrounding whitespace, holds no "*", and is
    never "late night" (which is given as "late_night"). *)
Theorem meal_period_is_normalized recipe_text meal_period :
  extract_meal_period recipe_text = Some meal_period ->
  PyStr.lower meal_period = meal_period /\
  PyStr.strip meal_period = meal_period /\
  count_char "*" meal_period = 0 /\
  meal_period <> "late night".
Proof.
  unfold extract_meal_period.
  destruct (PyStr.contains "*" recipe_text) eqn:Hc; [|discriminate].
  destruct (4 <=? List.length (PyStr.split "*" recipe_text)); [|discriminate].
  apply contains_star in Hc. destruct (split_last recipe_text Hc) as (before & _ & Hstar).
  set (label := List.last (PyStr.split "*" recipe_text) "") in *.
  intros H.
  assert (Hres : meal_period
                 = dict_get meal_period_map (PyStr.strip (PyStr.lower label))
                            (PyStr.strip (PyStr.lower label)))
    by (now injection H).
  clear H.
  destruct (String.eqb_spec (PyStr.strip (PyStr.lower label)) "late night") as [Heq|Hne].
  - rewrite Heq in Hres. subst meal_period. cbn. repeat split; discriminate.
  - rewrite (normalize_other _ Hne) in Hres. subst meal_period.
    split; [now rewrite lower_strip, lower_idem|].
    split; [apply strip_strip|]. split; [|exact Hne].
    pose proof (count_char_strip "*" (PyStr.lower label)) as Hle.
    rewrite count_star_lower in Hle. lia.
Qed.

Lemma meal_period_is_normalized_witness :
  PyStr.lower "late_night" = "late_night" /\
  PyStr.strip "late_night" = "late_night" /\
  count_char "*" "late_night" = 0 /\
  "late_night" <> "late night".
Proof.
  apply (meal_period_is_normalized "101*1*Entree* Late Night " "late_night").
  reflexivity.
Defined.

(** ** When there is nothing to offer *)

Section NothingToOffer.

Variable py_title : string -> string.
Variable str_of_int : Z -> string.
Variable str_of_float : dec -> string.

Lemma food_line_nonempty item hall_name meal_period calories nutrition :
  food_line py_title str_of_int str_of_float item hall_name meal_period calories nutrition
  <> EmptyString.
Proof. unfold food_line. destruct (item_name item); discriminate. Qed.

Lemma concat_nonempty sep x l : x <> EmptyString -> String.concat sep (x :: l) <> EmptyString.
Proof.
  intros Hx. cbn [String.concat]. destruct l; [exact Hx|].
  destruct x; [congruence|discriminate].
Qed.

Lemma firstn_S_nil {A} n (l : list A) : firstn (S n) l = [] -> l = [].
Proof. destruct l; [reflexivity|discriminate]. Qed.

Lemma class_lines_nil c entries :
  class_lines py_title str_of_int str_of_float c entries = [] <->
  forall e, In e entries -> in_class c (snd e) = false.
Proof.
  unfold class_lines. split.
  - intros H e He. destruct (in_class c (snd e)) eqn:Hc; [|reflexivity].
    assert (Hin : In e (filter (fun e => in_class c (snd e)) entries))
      by (apply filter_In; auto).
    destruct (filter (fun e => in_class c (snd e)) entries); [destruct Hin|discriminate H].
  - intros H. induction entries as [|e entries IH]; [reflexivity|].
    cbn [filter]. rewrite (H e (or_introl eq_refl)). apply IH.
    intros e' He'. apply H. now right.
Qed.

Lemma classify_none_classes item :
  classify item = None <->
  in_class Protein item = false /\ in_class Carb item = false /\ in_class Other item = false.
Proof.
  unfold in_class. destruct (classify item) as [[]|]; cbn; split; intros; try tauto;
    try discriminate; intuition discriminate.
Qed.

Lemma all_foods_nil menu_data :
  all_foods py_title str_of_int str_of_float menu_data = [] <->
  forall e, In e (menu_entries menu_data) -> classify (snd e) = None.
Proof.
  unfold all_foods. rewrite fill_buckets_spec. cbn [proteins carbs other_foods].
  split.
  - intros H. apply app_eq_nil in H. destruct H as [HP H].
    apply app_eq_nil in H. destruct H as [HC HO].
    apply firstn_S_nil in HP, HC, HO.
    intros e He. apply classify_none_classes.
    repeat split; eapply class_lines_nil; eauto.
  - intros H.
    assert (Hc : forall c, class_lines py_title str_of_int str_of_float c
                                       (menu_entries menu_data) = []).
    { intros c. apply class_lines_nil. intros e He.
      apply (classify_none_classes (snd e)) in H; [|exact He].
      destruct c; tauto. }
    now rewrite !Hc.
Qed.

Lemma all_foods_lines menu_data :
  Forall (fun line => line <> EmptyString)
         (all_foods py_title str_of_int str_of_float menu_data).
Proof.
  unfold all_foods. rewrite fill_buckets_spec. cbn [proteins carbs other_foods].
  rewrite !Forall_app.
  repeat split; apply Forall_firstn; unfold class_lines; apply Forall_forall;
    intros line Hin; apply in_map_iff in Hin; destruct Hin as ([[h p] item] & <- & _);
    apply food_line_nonempty.
Qed.

(** X20: the digest for the prompt is the empty text exactly when no item
    of the snapshot qualifies for it, that is when every item has fewer than
    50 calories or a name with a skip word.  [create_ai_meal_plan] then
    answers with the fallback plan without consulting the model, whatever
    the other arguments are. *)
Theorem empty_digest_means_fallback json_loads menu_data :
  (format_foods_for_ai py_title str_of_int str_of_float menu_data = EmptyString <->
   forall e, In e (menu_entries menu_data) -> classify (snd e) = None) /\
  (forall item,
      classify item = None <->
      (item_calories item < 50)%Z \/
      any_in skip_words (PyStr.lower (item_name item)) = true) /\
  ((forall e, In e (menu_entries menu_data) -> classify (snd e) = None) ->
   forall openai_client reply calories restrictions macros preferences,
     create_ai_meal_plan py_title str_of_int str_of_float json_loads openai_client reply
                         menu_data calories restrictions macros preferences
     = Returned (create_fallback_meal_plan menu_data calories)).
Proof.
  assert (Hiff : format_foods_for_ai py_title str_of_int str_of_float menu_data
                 = EmptyString <->
                 forall e, In e (menu_entries menu_data) -> classify (snd e) = None).
  { rewrite <- all_foods_nil. unfold format_foods_for_ai.
    pose proof (all_foods_lines menu_data) as Hl.
    destruct (all_foods py_title str_of_int str_of_float menu_data) as [|x l].
    - split; reflexivity.
    - split; [|discriminate]. intros H. exfalso.
      inversion Hl; subst. eapply concat_nonempty; eauto. }
  split; [exact Hiff|]. split.
  - intros item. unfold classify.
    destruct (item_calories item <? 50)%Z eqn:Hc.
    + apply Z.ltb_lt in Hc. tauto.
    + apply Z.ltb_ge in Hc.
      destruct (any_in skip_words (PyStr.lower (item_name item))).
      * tauto.
      * destruct (any_in protein_words (PyStr.lower (item_name item))),
          (any_in carb_words (PyStr.lower (item_name item)));
          split; try discriminate; intros [H|H]; try lia; discriminate.
  - intros Hnone openai_client reply calories restrictions macros preferences.
    apply Hiff in Hnone. unfold create_ai_meal_plan. rewrite Hnone.
    destruct openai_client; reflexivity.
Qed.

End NothingToOffer.

(** ** The quick test *)

Lemma nutrition_truthy_fetched self url w n w' :
  get_nutrition_from_item_page self url w = (Ok n, w') ->
  nutrition_truthy n
  = match fetched_page self url w with
    | Some soup => negb (calories_overflow (get_text (soup_strings soup)))
    | None => false
    end.
Proof.
  destruct (nutrition_of_page self url w) as (w1 & Hrun). rewrite Hrun.
  intros H. inversion H; subst; clear H.
  destruct (fetched_page self url w) as [soup|]; [|reflexivity].
  pose proof (nutrition_of_soup_spec soup) as Hspec. revert Hspec.
  destruct (calories_overflow (get_text (soup_strings soup))); intros Hspec.
  - rewrite Hspec. reflexivity.
  - destruct Hspec as (n & Hn & Hal & _). rewrite Hn.
    unfold nutrition_truthy. rewrite Hal.
    destruct (n_calories n), (n_protein n), (n_carbs n), (n_fat n), (n_fiber n),
      (n_sodium n), (n_sugars n); reflexivity.
Qed.

(** X21: [quick_test] never raises.  It answers [True] exactly when the page
    of the first fallback hall can be fetched, the menu read from a second
    fetch of that page has an item, and the label page of the first item of
    the first meal period can be fetched and holds no calories number too
    large for a float.  Nothing else on the label page plays a part, since
    the record read from such a page always has its allergen and tag lists;
    a label page with oversized calories gives the empty record, and the
    answer is [False]. *)
Theorem quick_test_spec self w :
  let url := test_hall_url self in
  let w1 := snd (make_request self url None w) in
  let w2 := snd (get_meal_periods_and_categories self url w1) in
  exists answer w',
    quick_test self w = (Ok answer, w') /\
    (answer = true <->
     fetched_page self url w <> None /\
     exists meal_period test_item items others label,
       fst (get_meal_periods_and_categories self url w1)
       = Ok ((meal_period, test_item :: items) :: others) /\
       fetched_page self (item_url test_item) w2 = Some label /\
       calories_overflow (get_text (soup_strings label)) = false).
Proof.
  cbn zeta. unfold quick_test, try_except, bind at 1. cbn [get_fallback_dining_halls first_hall
    ret hall_url]. fold (test_hall_url self).
  unfold bind at 1, fetched_page at 1.
  destruct (make_request self (test_hall_url self) None w) as [[[r|]|e] w1] eqn:Hreq;
    cbn [fst snd is_exception ret].
  - unfold bind at 1.
    destruct (get_meal_periods_total self (test_hall_url self) w1) as (md & w2 & Hmd).
    rewrite Hmd. cbn [fst snd].
    destruct md as [|[p [|test_item items]] others].
    + do 2 eexists. split; [reflexivity|]. split; [discriminate|].
      intros (_ & p & t & i & o & lb & H & _). discriminate H.
    + do 2 eexists. split; [reflexivity|]. split; [discriminate|].
      intros (_ & p' & t & i & o & lb & H & _). discriminate H.
    + unfold bind.
      destruct (get_nutrition_total self (item_url test_item) w2) as (n & w3 & Hn).
      rewrite Hn. rewrite (nutrition_truthy_fetched _ _ _ _ _ Hn).
      destruct (fetched_page self (item_url test_item) w2) as [soup|] eqn:Hf.
      * destruct (calories_overflow (get_text (soup_strings soup))) eqn:Hover;
          cbn [negb]; do 2 eexists; (split; [reflexivity|]).
        -- split; [discriminate|].
           intros (_ & p' & t & i & o & lb & H & Hlb & Hfits).
           inversion H; subst. rewrite Hf in Hlb. inversion Hlb; subst lb. congruence.
        -- split; [|reflexivity]. intros _. split; [discriminate|].
           exists p, test_item, items, others, soup. auto.
      * do 2 eexists. split; [reflexivity|]. split; [discriminate|].
        intros (_ & p' & t & i & o & lb & H & Hlb & _). inversion H; subst.
        rewrite Hf in Hlb. discriminate Hlb.
  - do 2 eexists. split; [reflexivity|]. split; [discriminate|].
    intros (H & _). congruence.
  - do 2 eexists. split; [reflexivity|]. split; [discriminate|].
    intros (H & _). congruence.
Qed.

Example quick_test_demo :
  fst (quick_test Demo.scraper Demo.world) = Ok true /\
  fst (quick_test Demo.scraper Demo.dead_world) = Ok false /\
  requested (snd (quick_test Demo.scraper Demo.world))
  = [ test_hall_url Demo.scraper; test_hall_url Demo.scraper;
      "https://foodpro.students.vt.edu/menus/label.aspx?RecNumAndPort=Eggs" ].
Proof. vm_compute. repeat split. Qed.

Example quick_test_oversized_label :
  fst (quick_test Demo.scraper
         {| web := fun _ url =>
                     if PyStr.contains "label.aspx" url
                     then GetResponse {| status_code := 200;
                                         content := Demo.oversized_page |}
                     else Demo.site 0 url;
            requested := []; slept := [];
            clock := fun n => Z.of_nat n; clock_reads := 0;
            disk_writable := true; disk := None |}) = Ok false.
Proof. vm_compute. reflexivity. Qed.
